(** * PayMCP-TS security pipeline: compliance scan, report aggregation, gate

    A shallow embedding of the three scripts under [.github/scripts]:

    - [compliance-scan.py]           (module [Scanner]),
    - [generate-security-report.py]  (module [Reporter]),
    - [security-gate.py]             (module [Gate]),

    together with the fragment of the Python run time they rely on
    (module [Py]: values decoded from JSON, truthiness, [dict.get], [in],
    [len], iteration, the exceptions these raise), a small regular
    expression matcher for the manifest patterns (module [Re], proved to
    decide its language in [ReFacts]) and the artifacts the three scripts
    hand to one another (module [Fs]).  The embedding comes first; the
    facts about each script and the numbered properties C1 to C10 of the
    design document follow it.

    Conventions.  A Python [str] is a [string], one [ascii] per character
    (so the texts considered are those of code points below 256).
    A Python [int] is a [Z].  JSON numbers are integers (the artifacts of
    this pipeline only carry counts and ESLint severities).  A Python
    [dict] is an association list in insertion order, read from the front.
    An uncaught exception is a [Raise] result; the scripts' blanket
    [except Exception] handlers are written out where the source has them. *)

From Stdlib Require Import List ZArith String Ascii Bool Lia DecimalString.
Import ListNotations.

Set Warnings "-register-all".
Local Open Scope Z_scope.
Local Open Scope list_scope.

Infix "+++" := String.append (at level 60, right associativity).

(* ================================================================== *)
(** ** The Python fragment                                            *)
(* ================================================================== *)

Module Py.

(** Values produced by [json.load]. *)
Inductive json : Type :=
| JNull
| JBool (b : bool)
| JInt (z : Z)
| JStr (s : string)
| JArr (l : list json)
| JObj (m : list (string * json)).

Inductive exn : Type := AttributeError | TypeError | KeyError.

Inductive res (A : Type) : Type :=
| Ok (a : A)
| Raise (e : exn).
Arguments Ok {A} a.
Arguments Raise {A} e.

Definition bind {A B : Type} (c : res A) (k : A -> res B) : res B :=
  match c with
  | Ok a => k a
  | Raise e => Raise e
  end.

Notation "x <- c ;; k" := (bind c (fun x => k))
  (at level 61, c at next level, right associativity).

(** A [for] loop whose body may raise: the first exception ends the loop. *)
Fixpoint foldM {A B : Type} (f : B -> A -> res B) (l : list A) (b : B) : res B :=
  match l with
  | [] => Ok b
  | a :: l' => b' <- f b a ;; foldM f l' b'
  end.

(** [bool(v)]: what [if v:] tests. *)
Definition truthy (v : json) : bool :=
  match v with
  | JNull => false
  | JBool b => b
  | JInt z => negb (z =? 0)
  | JStr s => negb (String.eqb s EmptyString)
  | JArr l => match l with [] => false | _ => true end
  | JObj m => match m with [] => false | _ => true end
  end.

Fixpoint lookup (k : string) (m : list (string * json)) : option json :=
  match m with
  | [] => None
  | (k', v) :: m' => if String.eqb k k' then Some v else lookup k m'
  end.

(** [d[k] = v] on a dict: an existing key keeps its place. *)
Fixpoint dict_set (k : string) (v : json) (m : list (string * json))
  : list (string * json) :=
  match m with
  | [] => [(k, v)]
  | (k', v') :: m' =>
      if String.eqb k k' then (k, v) :: m' else (k', v') :: dict_set k v m'
  end.

(** [v.get(k, d)]: only a dict has the method. *)
Definition py_get (v : json) (k : string) (d : json) : res json :=
  match v with
  | JObj m => Ok (match lookup k m with Some x => x | None => d end)
  | _ => Raise AttributeError
  end.

Fixpoint is_prefix (p s : string) : bool :=
  match p, s with
  | EmptyString, _ => true
  | String a p', String b s' => Ascii.eqb a b && is_prefix p' s'
  | String _ _, EmptyString => false
  end.

(** [sub in s] on two strings. *)
Fixpoint contains (sub s : string) : bool :=
  is_prefix sub s ||
  match s with
  | EmptyString => false
  | String _ s' => contains sub s'
  end.

Definition is_str (k : string) (v : json) : bool :=
  match v with
  | JStr s => String.eqb s k
  | _ => false
  end.

(** [v == n] for an integer [n]. *)
Definition is_int (n : Z) (v : json) : bool :=
  match v with
  | JInt z => z =? n
  | _ => false
  end.

(** [k in v] for a string [k]: key of a dict, element of a list, substring
    of a string; other values are not iterable. *)
Definition py_in (k : string) (v : json) : res bool :=
  match v with
  | JObj m => Ok (match lookup k m with Some _ => true | None => false end)
  | JArr l => Ok (existsb (is_str k) l)
  | JStr s => Ok (contains k s)
  | _ => Raise TypeError
  end.

(** [v[k]] for a string [k]. *)
Definition py_getitem (v : json) (k : string) : res json :=
  match v with
  | JObj m => match lookup k m with Some x => Ok x | None => Raise KeyError end
  | _ => Raise TypeError
  end.

(** [len(v)]. *)
Definition py_len (v : json) : res Z :=
  match v with
  | JStr s => Ok (Z.of_nat (String.length s))
  | JArr l => Ok (Z.of_nat (List.length l))
  | JObj m => Ok (Z.of_nat (List.length m))
  | _ => Raise TypeError
  end.

Fixpoint chars (s : string) : list json :=
  match s with
  | EmptyString => []
  | String c s' => JStr (String c EmptyString) :: chars s'
  end.

(** The values [for x in v] visits. *)
Definition py_iter (v : json) : res (list json) :=
  match v with
  | JArr l => Ok l
  | JObj m => Ok (map (fun kv => JStr (fst kv)) m)
  | JStr s => Ok (chars s)
  | _ => Raise TypeError
  end.

(** [v.items()]. *)
Definition py_items (v : json) : res (list (string * json)) :=
  match v with
  | JObj m => Ok m
  | _ => Raise AttributeError
  end.

Definition lower_ascii (c : ascii) : ascii :=
  let n := nat_of_ascii c in
  if (65 <=? n)%nat && (n <=? 90)%nat then ascii_of_nat (n + 32) else c.

(** [s.lower()], as far as the severity lookup can tell: the keys it is
    compared with are ASCII words, which only ASCII capitals lower to. *)
Fixpoint lower (s : string) : string :=
  match s with
  | EmptyString => EmptyString
  | String c s' => String (lower_ascii c) (lower s')
  end.

(** [v.lower()]: a method of [str] only. *)
Definition py_lower (v : json) : res string :=
  match v with
  | JStr s => Ok (lower s)
  | _ => Raise AttributeError
  end.

(** The integer a value stands for in [v > n] and [c += v]: an [int], or a
    [bool] (a subclass of [int]); anything else is a [TypeError]. *)
Definition as_int (v : json) : res Z :=
  match v with
  | JInt z => Ok z
  | JBool b => Ok (if b then 1 else 0)
  | _ => Raise TypeError
  end.

Definition str_of_Z (z : Z) : string := NilZero.string_of_int (Z.to_int z).

(** [str(v)] for the values [as_int] accepts, as an f-string renders them. *)
Definition str_of_num (v : json) : string :=
  match v with
  | JBool true => "True"
  | JBool false => "False"
  | JInt z => str_of_Z z
  | _ => EmptyString
  end.

(** [content[:k]]. *)
Fixpoint slice_to (k : nat) (s : string) : string :=
  match k, s with
  | S k', String c s' => String c (slice_to k' s')
  | _, _ => EmptyString
  end.

(** [s.count(c)] for a one-character [c]. *)
Fixpoint count_char (c : ascii) (s : string) : Z :=
  match s with
  | EmptyString => 0
  | String a s' => (if Ascii.eqb a c then 1 else 0) + count_char c s'
  end.

Definition newline : ascii := "010"%char.
Definition dquote : string := String "034"%char EmptyString.

(** What the scanner takes from the Python run time without this
    development defining it: the start offsets [match.start()] of the
    matches [pattern.finditer(content)] yields, in order, for the compiled
    pattern of a named rule, and the text [str(v)] an f-string renders. *)
Class Runtime : Type := {
  finditer_starts : string -> string -> list nat;
  py_str : json -> string
}.

End Py.
Import Py.

(* ================================================================== *)
(** ** Regular expressions of the manifest rules                      *)
(* ================================================================== *)

Module Re.

(** Character sets: a literal, [\s], and a one-character negated class. *)
Inductive cset : Type :=
| COne (c : ascii)
| CSpace
| CNot (c : ascii).

Inductive regex : Type :=
| RNone
| REps
| RSet (cs : cset)
| RCat (r1 r2 : regex)
| RAlt (r1 r2 : regex)
| RStar (r : regex).

(** [\s] on the characters a [string] holds, the code points below 256:
    tab to carriage return, the separators 28 to 31, the space, the next
    line character (133) and the no-break space (160).  White space of
    higher code points lies outside the texts of this development. *)
Definition is_space (c : ascii) : bool :=
  let n := nat_of_ascii c in
  ((9 <=? n) && (n <=? 13) || (28 <=? n) && (n <=? 32)
   || (n =? 133) || (n =? 160))%nat.

Definition in_cset (cs : cset) (c : ascii) : bool :=
  match cs with
  | COne a => Ascii.eqb a c
  | CSpace => is_space c
  | CNot a => negb (Ascii.eqb a c)
  end.

Fixpoint nullable (r : regex) : bool :=
  match r with
  | RNone => false
  | REps => true
  | RSet _ => false
  | RCat r1 r2 => nullable r1 && nullable r2
  | RAlt r1 r2 => nullable r1 || nullable r2
  | RStar _ => true
  end.

(** Brzozowski derivative. *)
Fixpoint deriv (c : ascii) (r : regex) : regex :=
  match r with
  | RNone => RNone
  | REps => RNone
  | RSet cs => if in_cset cs c then REps else RNone
  | RCat r1 r2 =>
      if nullable r1
      then RAlt (RCat (deriv c r1) r2) (deriv c r2)
      else RCat (deriv c r1) r2
  | RAlt r1 r2 => RAlt (deriv c r1) (deriv c r2)
  | RStar r1 => RCat (deriv c r1) (RStar r1)
  end.

(** Some prefix of [s] is matched by [r]: [re.match(r, s)] succeeds. *)
Fixpoint match_at (r : regex) (s : string) : bool :=
  nullable r ||
  match s with
  | EmptyString => false
  | String c s' => match_at (deriv c r) s'
  end.

(** [re.search(r, s)] succeeds: [r] matches at some offset of [s]. *)
Fixpoint search (r : regex) (s : string) : bool :=
  match_at r s ||
  match s with
  | EmptyString => false
  | String _ s' => search r s'
  end.

Fixpoint lit (s : string) : regex :=
  match s with
  | EmptyString => REps
  | String c s' => RCat (RSet (COne c)) (lit s')
  end.

Definition spaces : regex := RStar (RSet CSpace).
Definition quoted (s : string) : regex := lit (dquote +++ s +++ dquote).

End Re.

(* ================================================================== *)
(** ** compliance-scan.py                                             *)
(* ================================================================== *)

Module Scanner.

(** A secret or payment finding: the dict [scan_file] builds per match. *)
Record finding : Type := {
  f_type : string;
  f_file : string;
  f_line : Z;
  f_severity : string;
  f_message : string
}.

(** A dependency finding: built by [scan_dependencies] from a manifest
    rule, or by [run_npm_audit] from one entry of npm's report. *)
Inductive dependency_issue : Type :=
| VulnerableDependency (package file : string)
| NpmAuditVulnerability (package : string) (severity : json)
                        (message : string) (via : json).

(** [self.results]. *)
Record results : Type := {
  secrets_found : list finding;
  payment_issues : list finding;
  dependency_issues : list dependency_issue;
  high_severity_count : Z;
  medium_severity_count : Z;
  low_severity_count : Z;
  scan_timestamp : option string;
  scanned_files : Z
}.

Definition init_results : results :=
  {| secrets_found := []; payment_issues := []; dependency_issues := [];
     high_severity_count := 0; medium_severity_count := 0;
     low_severity_count := 0; scan_timestamp := None; scanned_files := 0 |}.

Definition incr_high (r : results) : results :=
  {| secrets_found := secrets_found r; payment_issues := payment_issues r;
     dependency_issues := dependency_issues r;
     high_severity_count := high_severity_count r + 1;
     medium_severity_count := medium_severity_count r;
     low_severity_count := low_severity_count r;
     scan_timestamp := scan_timestamp r; scanned_files := scanned_files r |}.

Definition incr_medium (r : results) : results :=
  {| secrets_found := secrets_found r; payment_issues := payment_issues r;
     dependency_issues := dependency_issues r;
     high_severity_count := high_severity_count r;
     medium_severity_count := medium_severity_count r + 1;
     low_severity_count := low_severity_count r;
     scan_timestamp := scan_timestamp r; scanned_files := scanned_files r |}.

Definition incr_low (r : results) : results :=
  {| secrets_found := secrets_found r; payment_issues := payment_issues r;
     dependency_issues := dependency_issues r;
     high_severity_count := high_severity_count r;
     medium_severity_count := medium_severity_count r;
     low_severity_count := low_severity_count r + 1;
     scan_timestamp := scan_timestamp r; scanned_files := scanned_files r |}.

Definition append_dependency (d : dependency_issue) (r : results) : results :=
  {| secrets_found := secrets_found r; payment_issues := payment_issues r;
     dependency_issues := dependency_issues r ++ [d];
     high_severity_count := high_severity_count r;
     medium_severity_count := medium_severity_count r;
     low_severity_count := low_severity_count r;
     scan_timestamp := scan_timestamp r; scanned_files := scanned_files r |}.

(** The three updates of [scan_project]'s loop body. *)
Definition extend_with (secrets payments : list finding) (r : results) : results :=
  {| secrets_found := secrets_found r ++ secrets;
     payment_issues := payment_issues r ++ payments;
     dependency_issues := dependency_issues r;
     high_severity_count := high_severity_count r;
     medium_severity_count := medium_severity_count r;
     low_severity_count := low_severity_count r;
     scan_timestamp := scan_timestamp r;
     scanned_files := scanned_files r + 1 |}.

Definition set_timestamp (t : string) (r : results) : results :=
  {| secrets_found := secrets_found r; payment_issues := payment_issues r;
     dependency_issues := dependency_issues r;
     high_severity_count := high_severity_count r;
     medium_severity_count := medium_severity_count r;
     low_severity_count := low_severity_count r;
     scan_timestamp := Some t; scanned_files := scanned_files r |}.

(** The names of [self.secret_patterns], in the dict's order.  Their
    compiled expressions belong to the run time ([finditer_starts]). *)
Definition secret_patterns : list string :=
  ["api_key"; "secret_key"; "password"; "jwt_token"; "private_key";
   "aws_access_key"; "aws_secret_key"; "github_token"; "bearer_token";
   "stripe_key"]%string.

(** The names of [self.payment_patterns], in the dict's order. *)
Definition payment_patterns : list string :=
  ["credit_card"; "cvv"; "expiry"; "payment_logging"]%string.

(** [self.vulnerable_packages]; with Q for the double-quote character:
    lodash     QlodashQ\s*:\s*Q[^4]
    moment     QmomentQ\s*:\s*Q
    node-uuid  Qnode-uuidQ
    request    QrequestQ\s*:\s*Q                                       *)
Definition version_of (package : string) : Re.regex :=
  Re.RCat (Re.quoted package)
    (Re.RCat Re.spaces
       (Re.RCat (Re.lit ":") (Re.RCat Re.spaces (Re.lit dquote)))).

Definition vulnerable_packages : list (string * Re.regex) :=
  [("lodash", Re.RCat (version_of "lodash") (Re.RSet (Re.CNot "4")));
   ("moment", version_of "moment");
   ("node-uuid", Re.quoted "node-uuid");
   ("request", version_of "request")]%string.

(** What the scanner sees of its surroundings: the paths [glob.glob]
    returns for a pattern, the text [open(path).read()] returns ([None]
    when it raises), [os.path.exists], and how [npm audit --json] went. *)
Inductive npm_outcome : Type :=
| NpmRaised
| NpmNoOutput
| NpmBadJson
| NpmJson (audit_data : json).

Record world : Type := {
  glob : string -> list string;
  read_text : string -> option string;
  path_exists : string -> bool;
  npm_audit : npm_outcome;
  now : string
}.

(** [file_results] of [scan_file]. *)
Record file_results : Type := {
  secrets : list finding;
  file_payment_issues : list finding;
  file_path : string
}.

Definition add_secret (f : finding) (fr : file_results) : file_results :=
  {| secrets := secrets fr ++ [f];
     file_payment_issues := file_payment_issues fr;
     file_path := file_path fr |}.

Definition add_payment (f : finding) (fr : file_results) : file_results :=
  {| secrets := secrets fr;
     file_payment_issues := file_payment_issues fr ++ [f];
     file_path := file_path fr |}.

(** [content[:match.start()].count('\n') + 1]. *)
Definition line_of (content : string) (start : nat) : Z :=
  count_char newline (slice_to start content) + 1.

Definition secret_info (secret_type filepath content : string) (start : nat)
  : finding :=
  {| f_type := secret_type;
     f_file := filepath;
     f_line := line_of content start;
     f_severity := "high";
     f_message := "Potential " +++ secret_type +++ " found" |}.

(** [payment_type in ['credit_card', 'cvv']]. *)
Definition is_card_rule (payment_type : string) : bool :=
  existsb (String.eqb payment_type) ["credit_card"; "cvv"]%string.

Definition payment_info (payment_type filepath content : string) (start : nat)
  : finding :=
  {| f_type := payment_type;
     f_file := filepath;
     f_line := line_of content start;
     f_severity := if is_card_rule payment_type then "high" else "medium";
     f_message := "Potential " +++ payment_type +++ " data found" |}.

Section WithRuntime.
Context {rt : Runtime}.
Variable w : world.

(** Body of the inner loop over the matches of one secret rule. *)
Definition secret_step (secret_type filepath content : string)
  (st : file_results * results) (start : nat) : file_results * results :=
  (add_secret (secret_info secret_type filepath content start) (fst st),
   incr_high (snd st)).

(** Body of the inner loop over the matches of one payment rule. *)
Definition payment_step (payment_type filepath content : string)
  (st : file_results * results) (start : nat) : file_results * results :=
  let info := payment_info payment_type filepath content start in
  (add_payment info (fst st),
   if String.eqb (f_severity info) "high"
   then incr_high (snd st) else incr_medium (snd st)).

(** [scan_file]: the file's findings, and [self.results] with its tallies
    advanced.  A file that cannot be read contributes nothing. *)
Definition scan_file (filepath : string) (r : results) : file_results * results :=
  let file_results0 :=
    {| secrets := []; file_payment_issues := []; file_path := filepath |} in
  match read_text w filepath with
  | None => (file_results0, r)
  | Some content =>
      let st :=
        fold_left
          (fun st secret_type =>
             fold_left (secret_step secret_type filepath content)
                       (finditer_starts secret_type content) st)
          secret_patterns (file_results0, r) in
      fold_left
        (fun st payment_type =>
           fold_left (payment_step payment_type filepath content)
                     (finditer_starts payment_type content) st)
        payment_patterns st
  end.

Definition package_files : list string :=
  ["package.json"; "package-lock.json"; "yarn.lock"]%string.

(** Body of the loop over [self.vulnerable_packages] for one manifest. *)
Definition package_step (package_file content : string) (r : results)
  (rule : string * Re.regex) : results :=
  if Re.search (snd rule) content
  then incr_medium (append_dependency (VulnerableDependency (fst rule) package_file) r)
  else r.

Definition scan_manifest (r : results) (package_file : string) : results :=
  if path_exists w package_file
  then match read_text w package_file with
       | None => r
       | Some content =>
           fold_left (package_step package_file content) vulnerable_packages r
       end
  else r.

Definition scan_dependencies (r : results) : results :=
  fold_left scan_manifest package_files r.

Definition glob_patterns : list string :=
  ["src/**/*.ts"; "src/**/*.tsx"; "src/**/*.js"; "src/**/*.jsx";
   "lib/**/*.ts"; "lib/**/*.js"; "*.ts"; "*.js"]%string.

Definition excludes : list string :=
  ["node_modules"; "dist/"; "build/"; ".test."; ".spec."; "coverage/"]%string.

Definition get_typescript_files : list string :=
  filter (fun file => negb (existsb (fun exclude => contains exclude file) excludes))
         (flat_map (glob w) glob_patterns).

(** The loop of [run_npm_audit] over [vulnerabilities.items()]; it sits in
    a [try] whose handler only prints, so an exception ends the loop and
    leaves [self.results] as it then is. *)
Fixpoint npm_loop (items : list (string * json)) (r : results) : results :=
  match items with
  | [] => r
  | (vuln_name, vuln_data) :: rest =>
      match py_get vuln_data "severity" (JStr "unknown") with
      | Raise _ => r
      | Ok severity =>
          let message := ("npm audit found " +++ py_str severity
                          +++ " vulnerability in " +++ vuln_name)%string in
          match py_get vuln_data "via" (JArr []) with
          | Raise _ => r
          | Ok via =>
              let r1 := append_dependency
                          (NpmAuditVulnerability vuln_name severity message via) r in
              let r2 :=
                if is_str "high" severity || is_str "critical" severity
                then incr_high r1
                else if is_str "moderate" severity then incr_medium r1
                else incr_low r1 in
              npm_loop rest r2
          end
      end
  end.

Definition run_npm_audit (r : results) : results :=
  match npm_audit w with
  | NpmJson audit_data =>
      match py_in "vulnerabilities" audit_data with
      | Ok true =>
          match (v <- py_getitem audit_data "vulnerabilities" ;; py_items v) with
          | Ok items => npm_loop items r
          | Raise _ => r
          end
      | _ => r
      end
  | _ => r
  end.

Definition scan_project_file (r : results) (filepath : string) : results :=
  let '(fr, r') := scan_file filepath r in
  extend_with (secrets fr) (file_payment_issues fr) r'.

Definition scan_project : results :=
  let r1 := fold_left scan_project_file get_typescript_files init_results in
  let r2 := scan_dependencies r1 in
  let r3 := run_npm_audit r2 in
  set_timestamp (now w) r3.

End WithRuntime.

Definition finding_to_json (f : finding) : json :=
  JObj [("type", JStr (f_type f)); ("file", JStr (f_file f));
        ("line", JInt (f_line f)); ("severity", JStr (f_severity f));
        ("message", JStr (f_message f))]%string.

Definition dependency_to_json (d : dependency_issue) : json :=
  match d with
  | VulnerableDependency package file =>
      JObj [("type", JStr "vulnerable_dependency"); ("package", JStr package);
            ("file", JStr file); ("severity", JStr "medium");
            ("message", JStr ("Potentially vulnerable package: " +++ package))]%string
  | NpmAuditVulnerability package severity message via =>
      JObj [("type", JStr "npm_audit_vulnerability"); ("package", JStr package);
            ("severity", severity); ("message", JStr message);
            ("via", via)]%string
  end.

(** What [json.dump(results, f)] writes to [compliance-scan-results.json]. *)
Definition results_to_json (r : results) : json :=
  JObj [("secrets_found", JArr (map finding_to_json (secrets_found r)));
        ("payment_issues", JArr (map finding_to_json (payment_issues r)));
        ("dependency_issues", JArr (map dependency_to_json (dependency_issues r)));
        ("high_severity_count", JInt (high_severity_count r));
        ("medium_severity_count", JInt (medium_severity_count r));
        ("low_severity_count", JInt (low_severity_count r));
        ("scan_timestamp",
         match scan_timestamp r with Some t => JStr t | None => JNull end);
        ("scanned_files", JInt (scanned_files r))]%string.

(** [generate_report]: the artifact written and the status of [sys.exit]. *)
Record report_run : Type := {
  scan_results : results;
  artifact : json;
  exit_status : Z
}.

Definition generate_report {rt : Runtime} (w : world) : report_run :=
  let results := scan_project w in
  {| scan_results := results;
     artifact := results_to_json results;
     exit_status := if high_severity_count results >? 0 then 1 else 0 |}.

End Scanner.

(* ================================================================== *)
(** ** Artifacts on disk                                              *)
(* ================================================================== *)

Module Fs.

(** A JSON artifact at a path: not there, there but rejected by
    [json.load] (with the exception's text), or decoded. *)
Inductive file_state : Type :=
| Missing
| Unparsable (err : string)
| Parsed (j : json).

(** The files a script can see, and what [glob.glob] returns for a
    pattern. *)
Record disk : Type := {
  file : string -> file_state;
  glob : string -> list string
}.

(** The disk after [json.dump(j, open(path, 'w'))]. *)
Definition write_json (path : string) (j : json) (d : disk) : disk :=
  {| file := fun p => if String.eqb p path then Parsed j else file d p;
     glob := glob d |}.


End Fs.

(* ================================================================== *)
(** ** generate-security-report.py                                    *)
(* ================================================================== *)

Module Reporter.
Import Fs.

(** [report_data['summary']]. *)
Record summary_counts : Type := {
  total_issues : Z;
  critical_count : Z;
  high_count : Z;
  medium_count : Z;
  low_count : Z;
  info_count : Z
}.

Record recommendation : Type := {
  priority : string;
  message : string;
  action : string
}.

(** [self.report_data]. *)
Record report_data : Type := {
  scan_timestamp : string;
  codeql_results : list (string * json);
  dependency_scan : list (string * json);
  eslint_security : list (string * json);
  semgrep_results : list (string * json);
  compliance_scan : json;
  summary : summary_counts;
  recommendations : list recommendation
}.

Definition init_report (timestamp : string) : report_data :=
  {| scan_timestamp := timestamp;
     codeql_results := [];
     dependency_scan := [];
     eslint_security := [];
     semgrep_results := [];
     compliance_scan := JObj [];
     summary := {| total_issues := 0; critical_count := 0; high_count := 0;
                   medium_count := 0; low_count := 0; info_count := 0 |};
     recommendations := [] |}.

Definition set_dependency_scan (d : list (string * json)) (rd : report_data) :=
  {| scan_timestamp := scan_timestamp rd; codeql_results := codeql_results rd;
     dependency_scan := d; eslint_security := eslint_security rd;
     semgrep_results := semgrep_results rd; compliance_scan := compliance_scan rd;
     summary := summary rd; recommendations := recommendations rd |}.

Definition set_eslint_security (d : list (string * json)) (rd : report_data) :=
  {| scan_timestamp := scan_timestamp rd; codeql_results := codeql_results rd;
     dependency_scan := dependency_scan rd; eslint_security := d;
     semgrep_results := semgrep_results rd; compliance_scan := compliance_scan rd;
     summary := summary rd; recommendations := recommendations rd |}.

Definition set_compliance_scan (c : json) (rd : report_data) :=
  {| scan_timestamp := scan_timestamp rd; codeql_results := codeql_results rd;
     dependency_scan := dependency_scan rd; eslint_security := eslint_security rd;
     semgrep_results := semgrep_results rd; compliance_scan := c;
     summary := summary rd; recommendations := recommendations rd |}.

Definition set_summary (s : summary_counts) (rd : report_data) :=
  {| scan_timestamp := scan_timestamp rd; codeql_results := codeql_results rd;
     dependency_scan := dependency_scan rd; eslint_security := eslint_security rd;
     semgrep_results := semgrep_results rd; compliance_scan := compliance_scan rd;
     summary := s; recommendations := recommendations rd |}.

Definition set_recommendations (l : list recommendation) (rd : report_data) :=
  {| scan_timestamp := scan_timestamp rd; codeql_results := codeql_results rd;
     dependency_scan := dependency_scan rd; eslint_security := eslint_security rd;
     semgrep_results := semgrep_results rd; compliance_scan := compliance_scan rd;
     summary := summary rd; recommendations := l |}.

(** [summary[count_key] += n] for a key of the summary. *)
Definition add_count (count_key : string) (n : Z) (s : summary_counts)
  : summary_counts :=
  if String.eqb count_key "critical_count" then
    {| total_issues := total_issues s; critical_count := critical_count s + n;
       high_count := high_count s; medium_count := medium_count s;
       low_count := low_count s; info_count := info_count s |}
  else if String.eqb count_key "high_count" then
    {| total_issues := total_issues s; critical_count := critical_count s;
       high_count := high_count s + n; medium_count := medium_count s;
       low_count := low_count s; info_count := info_count s |}
  else if String.eqb count_key "medium_count" then
    {| total_issues := total_issues s; critical_count := critical_count s;
       high_count := high_count s; medium_count := medium_count s + n;
       low_count := low_count s; info_count := info_count s |}
  else if String.eqb count_key "low_count" then
    {| total_issues := total_issues s; critical_count := critical_count s;
       high_count := high_count s; medium_count := medium_count s;
       low_count := low_count s + n; info_count := info_count s |}
  else if String.eqb count_key "info_count" then
    {| total_issues := total_issues s; critical_count := critical_count s;
       high_count := high_count s; medium_count := medium_count s;
       low_count := low_count s; info_count := info_count s + n |}
  else if String.eqb count_key "total_issues" then
    {| total_issues := total_issues s + n; critical_count := critical_count s;
       high_count := high_count s; medium_count := medium_count s;
       low_count := low_count s; info_count := info_count s |}
  else s.

Definition severity_map : list (string * string) :=
  [("critical", "critical_count"); ("high", "high_count");
   ("medium", "medium_count"); ("moderate", "medium_count");
   ("low", "low_count"); ("info", "info_count")]%string.

Fixpoint map_get (k : string) (m : list (string * string)) (d : string) : string :=
  match m with
  | [] => d
  | (k', v) :: m' => if String.eqb k k' then v else map_get k m' d
  end.

(** [increment_severity_count]: one bucket and the total advance together. *)
Definition increment_severity_count (severity : string) (rd : report_data)
  : report_data :=
  let count_key := map_get (lower severity) severity_map "info_count" in
  set_summary (add_count "total_issues" 1 (add_count count_key 1 (summary rd))) rd.

Section WithDisk.
Variable d : disk.

(** [load_json_file]: [None] for a missing or rejected file. *)
Definition load_json_file (filepath : string) : option json :=
  match file d filepath with
  | Parsed j => Some j
  | _ => None
  end.

(** [find_artifact_file]: the first path [glob] returns. *)
Definition find_artifact_file (pattern : string) : option string :=
  match glob d pattern with
  | [] => None
  | f :: _ => Some f
  end.

(** The value [data] a processing step goes on with, if any: the artifact
    was found, decoded, and [if data:] passed. *)
Definition load_artifact (pattern : string) : option json :=
  match find_artifact_file pattern with
  | None => None
  | Some path =>
      match load_json_file path with
      | Some data => if truthy data then Some data else None
      | None => None
      end
  end.

Definition count_vulnerability (rd : report_data) (item : string * json)
  : res report_data :=
  sev <- py_get (snd item) "severity" (JStr "info") ;;
  severity <- py_lower sev ;;
  Ok (increment_severity_count severity rd).

Definition process_npm_audit_results (rd : report_data) : res report_data :=
  match load_artifact "**/npm-audit.json" with
  | None => Ok rd
  | Some data =>
      let rd1 := set_dependency_scan (dict_set "npm_audit" data (dependency_scan rd)) rd in
      has <- py_in "vulnerabilities" data ;;
      if has : bool then
        v <- py_getitem data "vulnerabilities" ;;
        items <- py_items v ;;
        foldM count_vulnerability items rd1
      else Ok rd1
  end.

Definition process_audit_ci_results (rd : report_data) : res report_data :=
  match load_artifact "**/audit-ci-results.json" with
  | None => Ok rd
  | Some data =>
      Ok (set_dependency_scan (dict_set "audit_ci" data (dependency_scan rd)) rd)
  end.

Definition count_message (rd : report_data) (message : json) : res report_data :=
  severity <- py_get message "severity" (JInt 1) ;;
  if is_int 2 severity
  then Ok (increment_severity_count "high" rd)
  else Ok (increment_severity_count "medium" rd).

Definition count_file_result (rd : report_data) (file_result : json)
  : res report_data :=
  has <- py_in "messages" file_result ;;
  if has : bool then
    ms <- py_getitem file_result "messages" ;;
    messages <- py_iter ms ;;
    foldM count_message messages rd
  else Ok rd.

Definition process_eslint_results (rd : report_data) : res report_data :=
  match load_artifact "**/eslint-security.json" with
  | Some (JArr data) =>
      let rd1 := set_eslint_security
                   (dict_set "results" (JArr data) (eslint_security rd)) rd in
      foldM count_file_result data rd1
  | _ => Ok rd
  end.

(** [process_compliance_results]: the scanner's tallies go to the
    critical, medium and low buckets. *)
Definition process_compliance_results (rd : report_data) : res report_data :=
  match load_artifact "**/compliance-scan-results.json" with
  | None => Ok rd
  | Some data =>
      let rd1 := set_compliance_scan data rd in
      h <- py_get data "high_severity_count" (JInt 0) ;;
      h <- as_int h ;;
      let rd2 := set_summary (add_count "critical_count" h (summary rd1)) rd1 in
      m <- py_get data "medium_severity_count" (JInt 0) ;;
      m <- as_int m ;;
      let rd3 := set_summary (add_count "medium_count" m (summary rd2)) rd2 in
      l <- py_get data "low_severity_count" (JInt 0) ;;
      l <- as_int l ;;
      Ok (set_summary (add_count "low_count" l (summary rd3)) rd3)
  end.

End WithDisk.

Definition rec_critical (n : Z) : recommendation :=
  {| priority := "CRITICAL";
     message := "🚨 " +++ str_of_Z n
                +++ " critical security issues found. Immediate action required.";
     action := "Review and fix all critical issues before deployment" |}.

Definition rec_high (n : Z) : recommendation :=
  {| priority := "HIGH";
     message := "⚠️ " +++ str_of_Z n +++ " high severity issues found.";
     action := "Address high severity issues in current sprint" |}.

Definition rec_secrets (n : Z) : recommendation :=
  {| priority := "CRITICAL";
     message := "🔑 " +++ str_of_Z n +++ " potential secrets found in code";
     action := "Remove all hardcoded secrets and use environment variables" |}.

Definition rec_payment (n : Z) : recommendation :=
  {| priority := "HIGH";
     message := "💳 " +++ str_of_Z n +++ " payment data issues found";
     action := "Review payment data handling for PCI compliance" |}.

Definition rec_dependencies : recommendation :=
  {| priority := "MEDIUM";
     message := "📦 Run 'npm audit fix' to automatically resolve dependency vulnerabilities";
     action := "Update vulnerable dependencies to secure versions" |}.

Definition rec_no_issues : recommendation :=
  {| priority := "INFO";
     message := "✅ No security issues detected in this scan";
     action := "Continue following security best practices" |}.

(** [if compliance.get(key): recommendations.append(mk(len(compliance[key])))]. *)
Definition recommend_findings (compliance : json) (key : string)
  (mk : Z -> recommendation) (recs : list recommendation)
  : res (list recommendation) :=
  found <- py_get compliance key JNull ;;
  if truthy found then
    x <- py_getitem compliance key ;;
    n <- py_len x ;;
    Ok (recs ++ [mk n])
  else Ok recs.

Definition generate_recommendations (rd : report_data) : res report_data :=
  let s := summary rd in
  let recs := [] in
  let recs := if critical_count s >? 0
              then recs ++ [rec_critical (critical_count s)] else recs in
  let recs := if high_count s >? 0
              then recs ++ [rec_high (high_count s)] else recs in
  let compliance := compliance_scan rd in
  recs <- recommend_findings compliance "secrets_found" rec_secrets recs ;;
  recs <- recommend_findings compliance "payment_issues" rec_payment recs ;;
  let recs := match dependency_scan rd with
              | [] => recs
              | _ => recs ++ [rec_dependencies]
              end in
  let recs := if total_issues s =? 0 then recs ++ [rec_no_issues] else recs in
  Ok (set_recommendations recs rd).

(** The figures [generate_markdown_summary] interpolates under
    "Compliance Scan"; computing them can raise.  The rendered text is
    not modelled. *)
Record coverage : Type := {
  cov_scanned_files : json;
  cov_secrets : Z;
  cov_payment : Z;
  cov_dependency : Z
}.

Definition generate_markdown_summary (rd : report_data) : res (option coverage) :=
  if truthy (compliance_scan rd) then
    let compliance := compliance_scan rd in
    scanned <- py_get compliance "scanned_files" (JInt 0) ;;
    s <- py_get compliance "secrets_found" (JArr []) ;;
    ns <- py_len s ;;
    p <- py_get compliance "payment_issues" (JArr []) ;;
    np <- py_len p ;;
    di <- py_get compliance "dependency_issues" (JArr []) ;;
    nd <- py_len di ;;
    Ok (Some {| cov_scanned_files := scanned; cov_secrets := ns;
                cov_payment := np; cov_dependency := nd |})
  else Ok None.

Definition summary_to_json (s : summary_counts) : json :=
  JObj [("total_issues", JInt (total_issues s));
        ("critical_count", JInt (critical_count s));
        ("high_count", JInt (high_count s));
        ("medium_count", JInt (medium_count s));
        ("low_count", JInt (low_count s));
        ("info_count", JInt (info_count s))]%string.

Definition recommendation_to_json (r : recommendation) : json :=
  JObj [("priority", JStr (priority r)); ("message", JStr (message r));
        ("action", JStr (action r))]%string.

(** What [json.dump(self.report_data, f)] writes to
    [security-detailed-report.json]. *)
Definition report_to_json (rd : report_data) : json :=
  JObj [("scan_timestamp", JStr (scan_timestamp rd));
        ("codeql_results", JObj (codeql_results rd));
        ("dependency_scan", JObj (dependency_scan rd));
        ("eslint_security", JObj (eslint_security rd));
        ("semgrep_results", JObj (semgrep_results rd));
        ("compliance_scan", compliance_scan rd);
        ("summary", summary_to_json (summary rd));
        ("recommendations", JArr (map recommendation_to_json (recommendations rd)))]%string.

(** The four processing steps of [generate_reports], in order. *)
Definition process_all (d : disk) (timestamp : string) : res report_data :=
  rd <- process_npm_audit_results d (init_report timestamp) ;;
  rd <- process_audit_ci_results d rd ;;
  rd <- process_eslint_results d rd ;;
  process_compliance_results d rd.

(** [generate_reports]: the report data once the script has written both
    files, or the exception that ended it. *)
Definition generate_reports (d : disk) (timestamp : string) : res report_data :=
  rd <- process_all d timestamp ;;
  rd <- generate_recommendations rd ;;
  _ <- generate_markdown_summary rd ;;
  Ok rd.

End Reporter.

(* ================================================================== *)
(** ** security-gate.py                                               *)
(* ================================================================== *)

Module Gate.
Import Fs.

(** [self.gate_config]. *)
Record config : Type := {
  max_critical_issues : Z;
  max_high_issues : Z;
  max_secrets : Z;
  max_payment_issues : Z;
  warn_medium_issues : Z;
  warn_dependency_issues : Z;
  required_scans : list string
}.

(** The fields of a [SecurityGate]. *)
Record gate : Type := {
  gate_config : config;
  violations : list string;
  warnings : list string;
  passed_checks : list string
}.

(** [SecurityGate.__init__]. *)
Definition init_gate : gate :=
  {| gate_config :=
       {| max_critical_issues := 0;
          max_high_issues := 0;
          max_secrets := 0;
          max_payment_issues := 0;
          warn_medium_issues := 5;
          warn_dependency_issues := 10;
          required_scans := ["compliance_scan"; "dependency_scan"]%string |};
     violations := [];
     warnings := [];
     passed_checks := [] |}.

Definition add_violation (msg : string) (g : gate) : gate :=
  {| gate_config := gate_config g; violations := violations g ++ [msg];
     warnings := warnings g; passed_checks := passed_checks g |}.

Definition add_warning (msg : string) (g : gate) : gate :=
  {| gate_config := gate_config g; violations := violations g;
     warnings := warnings g ++ [msg]; passed_checks := passed_checks g |}.

Definition add_passed (msg : string) (g : gate) : gate :=
  {| gate_config := gate_config g; violations := violations g;
     warnings := warnings g; passed_checks := passed_checks g ++ [msg] |}.

Definition report_file : string := "security-detailed-report.json".

(** [load_security_report]: the report, or [{}] and a violation. *)
Definition load_security_report (d : disk) (g : gate) : json * gate :=
  match file d report_file with
  | Missing =>
      (JObj [], add_violation ("❌ Security report not found: " +++ report_file) g)
  | Unparsable e =>
      (JObj [], add_violation ("❌ Failed to load security report: " +++ e) g)
  | Parsed j => (j, g)
  end.

(** A blocking threshold: a violation above [limit], a passed check
    otherwise.  [shown] is the count as the f-string renders it. *)
Definition block_above (limit count : Z) (shown fail_text pass_text : string)
  (g : gate) : gate :=
  if count >? limit
  then add_violation ("❌ " +++ fail_text +++ ": " +++ shown
                      +++ " (max allowed: " +++ str_of_Z limit +++ ")") g
  else add_passed ("✅ " +++ pass_text +++ ": " +++ shown) g.

(** A warning threshold. *)
Definition warn_above (limit count : Z) (shown warn_text pass_text : string)
  (g : gate) : gate :=
  if count >? limit
  then add_warning ("⚠️ " +++ warn_text +++ ": " +++ shown
                    +++ " (warning threshold: " +++ str_of_Z limit +++ ")") g
  else add_passed ("✅ " +++ pass_text +++ ": " +++ shown) g.

Definition check_critical_issues (report : json) (g : gate) : res gate :=
  summary <- py_get report "summary" (JObj []) ;;
  critical_count <- py_get summary "critical_count" (JInt 0) ;;
  high_count <- py_get summary "high_count" (JInt 0) ;;
  c <- as_int critical_count ;;
  let g := block_above (max_critical_issues (gate_config g)) c
             (str_of_num critical_count)
             "Critical issues found" "Critical issues" g in
  h <- as_int high_count ;;
  Ok (block_above (max_high_issues (gate_config g)) h
        (str_of_num high_count)
        "High severity issues found" "High severity issues" g).

Definition check_compliance_issues (report : json) (g : gate) : res gate :=
  compliance <- py_get report "compliance_scan" (JObj []) ;;
  if negb (truthy compliance) then
    Ok (add_violation "❌ Compliance scan results not found" g)
  else
    s <- py_get compliance "secrets_found" (JArr []) ;;
    secrets_count <- py_len s ;;
    let g := block_above (max_secrets (gate_config g)) secrets_count
               (str_of_Z secrets_count)
               "Secrets found in code" "Secrets in code" g in
    p <- py_get compliance "payment_issues" (JArr []) ;;
    payment_issues <- py_len p ;;
    Ok (block_above (max_payment_issues (gate_config g)) payment_issues
          (str_of_Z payment_issues)
          "Payment data issues" "Payment data issues" g).

Definition check_dependency_issues (report : json) (g : gate) : res gate :=
  dependency_scan <- py_get report "dependency_scan" (JObj []) ;;
  if negb (truthy dependency_scan) then
    Ok (add_warning "⚠️ Dependency scan results not found" g)
  else
    npm_audit <- py_get dependency_scan "npm_audit" (JObj []) ;;
    has <- py_in "vulnerabilities" npm_audit ;;
    total_vulnerabilities <-
      (if has : bool
       then v <- py_getitem npm_audit "vulnerabilities" ;; py_len v
       else Ok 0) ;;
    Ok (warn_above (warn_dependency_issues (gate_config g)) total_vulnerabilities
          (str_of_Z total_vulnerabilities)
          "High number of dependency vulnerabilities"
          "Dependency vulnerabilities" g).

(** Body of the loop of [check_required_scans]. *)
Definition check_required_scan (report : json) (g : gate) (scan_name : string)
  : res gate :=
  present <- py_in scan_name report ;;
  missing <-
    (if present : bool
     then v <- py_getitem report scan_name ;; Ok (negb (truthy v))
     else Ok true) ;;
  Ok (if missing : bool
      then add_violation ("❌ Required scan missing: " +++ scan_name) g
      else add_passed ("✅ Required scan completed: " +++ scan_name) g).

Definition check_required_scans (report : json) (g : gate) : res gate :=
  foldM (check_required_scan report) (required_scans (gate_config g)) g.

Definition check_medium_issues (report : json) (g : gate) : res gate :=
  summary <- py_get report "summary" (JObj []) ;;
  medium_count <- py_get summary "medium_count" (JInt 0) ;;
  m <- as_int medium_count ;;
  Ok (warn_above (warn_medium_issues (gate_config g)) m
        (str_of_num medium_count)
        "High number of medium issues" "Medium severity issues" g).

(** The five calls under "Run all checks". *)
Definition run_checks (report : json) (g : gate) : res gate :=
  g <- check_critical_issues report g ;;
  g <- check_compliance_issues report g ;;
  g <- check_dependency_issues report g ;;
  g <- check_required_scans report g ;;
  check_medium_issues report g.

(** How a gate run ends: [sys.exit(code)] with the gate as it then is, or
    an uncaught exception. *)
Inductive outcome : Type :=
| Exited (code : Z) (g : gate)
| Uncaught (e : exn).

Definition exit_code (o : outcome) : Z :=
  match o with
  | Exited code _ => code
  | Uncaught _ => 1
  end.

Definition run_security_gate (d : disk) : outcome :=
  let '(report, g) := load_security_report d init_gate in
  if negb (truthy report) then Exited 1 g
  else
    match run_checks report g with
    | Raise e => Uncaught e
    | Ok g =>
        match violations g with
        | [] => Exited 0 g
        | _ :: _ => Exited 1 g
        end
    end.

Definition config_file : string := ".github/security-gate-config.json".

Definition max_allowed (n : Z) (description : string) : json :=
  JObj [("max_allowed", JInt n); ("description", JStr description)]%string.

Definition threshold (n : Z) (description : string) : json :=
  JObj [("threshold", JInt n); ("description", JStr description)]%string.

(** The document [SecurityGateConfig.create_default_config] writes. *)
Definition default_config : json :=
  JObj [("description", JStr "Security Gate Configuration for PayMCP-TS");
        ("version", JStr "1.0");
        ("gates",
         JObj [("critical_issues",
                max_allowed 0 "Maximum critical security issues allowed");
               ("high_issues",
                max_allowed 0 "Maximum high security issues allowed");
               ("secrets", max_allowed 0 "Maximum secrets in code allowed");
               ("payment_data",
                max_allowed 0 "Maximum payment data issues allowed")]);
        ("warnings",
         JObj [("medium_issues",
                threshold 5 "Warn if medium issues exceed this threshold");
               ("dependency_vulnerabilities",
                threshold 10
                  "Warn if dependency vulnerabilities exceed this threshold")]);
        ("required_scans",
         JArr [JStr "compliance_scan"; JStr "dependency_scan"])]%string.

Definition create_default_config (d : disk) : disk :=
  write_json config_file default_config d.

(** The script's entry point: with [--create-config] as first argument
    it writes the configuration file, otherwise it runs the gate. *)
Inductive run : Type :=
| ConfigWritten (d : disk)
| GateRun (o : outcome).

Definition main (argv : list string) (d : disk) : run :=
  match argv with
  | _ :: arg :: _ =>
      if String.eqb arg "--create-config"
      then ConfigWritten (create_default_config d)
      else GateRun (run_security_gate d)
  | _ => GateRun (run_security_gate d)
  end.

End Gate.

(* ================================================================== *)
(** ** Facts about the manifest expressions                           *)
(* ================================================================== *)

Module ReFacts.
Import Re.

Local Open Scope string_scope.

(** The language of an expression. *)
Inductive matches : regex -> string -> Prop :=
| MEps : matches REps EmptyString
| MSet cs c : in_cset cs c = true -> matches (RSet cs) (String c EmptyString)
| MCat r1 r2 s1 s2 :
    matches r1 s1 -> matches r2 s2 -> matches (RCat r1 r2) (s1 ++ s2)
| MAltL r1 r2 s : matches r1 s -> matches (RAlt r1 r2) s
| MAltR r1 r2 s : matches r2 s -> matches (RAlt r1 r2) s
| MStarNil r : matches (RStar r) EmptyString
| MStarApp r s1 s2 :
    matches r s1 -> matches (RStar r) s2 -> matches (RStar r) (s1 ++ s2).

Lemma append_nil_r s : s ++ EmptyString = s.
Proof. induction s; simpl; congruence. Qed.

Lemma append_assoc s1 s2 s3 : (s1 ++ s2) ++ s3 = s1 ++ s2 ++ s3.
Proof. induction s1; simpl; congruence. Qed.

Lemma append_empty s1 s2 :
  s1 ++ s2 = EmptyString -> s1 = EmptyString /\ s2 = EmptyString.
Proof. destruct s1; simpl; [auto | discriminate]. Qed.

Lemma nullable_matches r : nullable r = true <-> matches r EmptyString.
Proof.
  split.
  - induction r; simpl; intro H; try discriminate.
    + constructor.
    + apply andb_true_iff in H. destruct H.
      change EmptyString with (EmptyString ++ EmptyString). constructor; auto.
    + apply orb_true_iff in H. destruct H; [apply MAltL | apply MAltR]; auto.
    + constructor.
  - intro H. remember EmptyString as s eqn:Es.
    induction H; simpl; try discriminate; auto.
    + apply append_empty in Es. destruct Es. rewrite IHmatches1, IHmatches2; auto.
    + rewrite IHmatches; auto.
    + rewrite IHmatches, orb_true_r; auto.
Qed.

Lemma deriv_sound c r : forall s, matches (deriv c r) s -> matches r (String c s).
Proof.
  induction r; simpl; intros s H.
  - inversion H.
  - inversion H.
  - destruct (in_cset cs c) eqn:E; inversion H; subst. constructor. exact E.
  - destruct (nullable r1) eqn:N.
    + inversion H; subst.
      * inversion H3; subst.
        change (String c (s1 ++ s2)) with (String c s1 ++ s2).
        constructor; auto.
      * change (String c s) with (EmptyString ++ String c s).
        constructor; [apply nullable_matches, N | auto].
    + inversion H; subst.
      change (String c (s1 ++ s2)) with (String c s1 ++ s2).
      constructor; auto.
  - inversion H; subst; [apply MAltL | apply MAltR]; auto.
  - inversion H; subst.
    change (String c (s1 ++ s2)) with (String c s1 ++ s2).
    constructor; auto.
Qed.

Lemma deriv_complete r t :
  matches r t -> forall c s, t = String c s -> matches (deriv c r) s.
Proof.
  induction 1; intros c0 s0 E; simpl.
  - discriminate.
  - inversion E; subst. rewrite H. constructor.
  - destruct s1 as [|a s1'].
    + simpl in E. subst s2.
      assert (N : nullable r1 = true) by (apply nullable_matches; assumption).
      rewrite N. apply MAltR. apply IHmatches2. reflexivity.
    + simpl in E. inversion E; subst.
      assert (M : matches (RCat (deriv c0 r1) r2) (s1' ++ s2)).
      { constructor; [apply IHmatches1; reflexivity | assumption]. }
      destruct (nullable r1); [apply MAltL|]; exact M.
  - apply MAltL. apply IHmatches. exact E.
  - apply MAltR. apply IHmatches. exact E.
  - discriminate.
  - destruct s1 as [|a s1'].
    + simpl in E. apply IHmatches2. exact E.
    + simpl in E. inversion E; subst.
      constructor; [apply IHmatches1; reflexivity | assumption].
Qed.

(** [match_at] decides whether some prefix is in the language. *)
Lemma match_at_spec s : forall r,
  match_at r s = true <-> exists p q, s = p ++ q /\ matches r p.
Proof.
  induction s as [|c s IH]; intro r; simpl.
  - rewrite orb_false_r, nullable_matches. split.
    + intro H. exists EmptyString, EmptyString. auto.
    + intros (p & q & E & H). symmetry in E. apply append_empty in E.
      destruct E; subst. exact H.
  - rewrite orb_true_iff, nullable_matches, IH. split.
    + intros [H|(p & q & -> & H)].
      * exists EmptyString, (String c s). auto.
      * exists (String c p), q. split; [reflexivity | apply deriv_sound, H].
    + intros (p & q & E & H). destruct p as [|a p].
      * left. exact H.
      * right. simpl in E. inversion E; subst.
        exists p, q. split; [reflexivity|].
        eapply deriv_complete; [exact H | reflexivity].
Qed.

(** [search] decides whether some substring is in the language: it is
    true exactly when the expression is found somewhere in the text. *)
Theorem search_finds_a_substring_of_the_language (r : regex) (s : string) :
  search r s = true <-> exists a p b, s = a ++ p ++ b /\ matches r p.
Proof.
  induction s as [|c s IH]; simpl.
  - rewrite !orb_false_r, nullable_matches. split.
    + intro H. exists EmptyString, EmptyString, EmptyString. auto.
    + intros (a & p & b & E & H). symmetry in E.
      apply append_empty in E. destruct E as [_ E].
      apply append_empty in E. destruct E; subst. exact H.
  - rewrite orb_true_iff, IH.
    pose proof (match_at_spec (String c s) r) as M. simpl in M. rewrite M.
    split.
    + intros [(p & q & E & H)|(a & p & b & -> & H)].
      * exists EmptyString, p, q. auto.
      * exists (String c a), p, b. auto.
    + intros (a & p & b & E & H). destruct a as [|x a].
      * left. exists p, b. auto.
      * right. simpl in E. inversion E; subst. exists a, p, b. auto.
Qed.

End ReFacts.

(* ================================================================== *)
(** ** Facts about the scanner                                        *)
(* ================================================================== *)

Module ScannerFacts.
Import Scanner.

(** The number of findings of a list that carry a given severity. *)
Definition count_severity (sev : string) (l : list finding) : Z :=
  Z.of_nat (List.length (filter (fun f => String.eqb (f_severity f) sev) l)).

(** The sum of the three tallies, and the number of findings held. *)
Definition tally (r : results) : Z :=
  high_severity_count r + medium_severity_count r + low_severity_count r.

Definition findings_held (r : results) : Z :=
  Z.of_nat (List.length (secrets_found r) + List.length (payment_issues r)
            + List.length (dependency_issues r)).

(** The number of newline characters of [text] at offsets below [offset]. *)
Definition newlines_before (text : string) (offset : nat) : nat :=
  List.length
    (filter (fun i => match String.get i text with
                      | Some c => Ascii.eqb c newline
                      | None => false
                      end)
            (seq 0 offset)).

(** The state of [scan_file]'s loops has moved from [st] to [st'] by
    recording the given new findings, and nothing else. *)
Definition advanced (st st' : file_results * results)
  (new_secrets new_payments : list finding) : Prop :=
  secrets (fst st') = secrets (fst st) ++ new_secrets /\
  file_payment_issues (fst st') = file_payment_issues (fst st) ++ new_payments /\
  file_path (fst st') = file_path (fst st) /\
  high_severity_count (snd st') =
    high_severity_count (snd st) + Z.of_nat (List.length new_secrets)
    + count_severity "high" new_payments /\
  medium_severity_count (snd st') =
    medium_severity_count (snd st) + count_severity "medium" new_payments /\
  low_severity_count (snd st') = low_severity_count (snd st) /\
  secrets_found (snd st') = secrets_found (snd st) /\
  payment_issues (snd st') = payment_issues (snd st) /\
  dependency_issues (snd st') = dependency_issues (snd st) /\
  scan_timestamp (snd st') = scan_timestamp (snd st) /\
  scanned_files (snd st') = scanned_files (snd st).

Lemma count_severity_app sev l1 l2 :
  count_severity sev (l1 ++ l2) = count_severity sev l1 + count_severity sev l2.
Proof.
  unfold count_severity. rewrite filter_app, length_app. lia.
Qed.

Lemma advanced_refl st : advanced st st [] [].
Proof.
  unfold advanced, count_severity. simpl. rewrite !app_nil_r.
  repeat split; lia.
Qed.

Lemma advanced_trans st1 st2 st3 s1 p1 s2 p2 :
  advanced st1 st2 s1 p1 -> advanced st2 st3 s2 p2 ->
  advanced st1 st3 (s1 ++ s2) (p1 ++ p2).
Proof.
  unfold advanced.
  intros (A1 & A2 & A3 & A4 & A5 & A6 & A7 & A8 & A9 & A10 & A11)
         (B1 & B2 & B3 & B4 & B5 & B6 & B7 & B8 & B9 & B10 & B11).
  rewrite !count_severity_app, !length_app, !app_assoc.
  repeat split; try congruence; lia.
Qed.

(** A loop whose body records findings records those of all its rounds. *)
Lemma fold_advanced {A : Type}
  (step : file_results * results -> A -> file_results * results)
  (sec pay : A -> list finding) :
  (forall st a, advanced st (step st a) (sec a) (pay a)) ->
  forall l st, advanced st (fold_left step l st) (flat_map sec l) (flat_map pay l).
Proof.
  intros Hstep l. induction l as [|a l IH]; intro st; simpl.
  - apply advanced_refl.
  - eapply advanced_trans; [apply Hstep | apply IH].
Qed.

Lemma flat_map_single {A B : Type} (f : A -> B) (l : list A) :
  flat_map (fun a => [f a]) l = map f l.
Proof.
  induction l; simpl; congruence.
Qed.

Lemma flat_map_nil {A B : Type} (l : list A) :
  flat_map (fun _ : A => @nil B) l = [].
Proof.
  induction l; simpl; auto.
Qed.

Lemma secret_step_advanced t p c st start :
  advanced st (secret_step t p c st start) [secret_info t p c start] [].
Proof.
  unfold advanced, secret_step, count_severity. destruct st as [fr r]. simpl.
  rewrite app_nil_r. repeat split; lia.
Qed.

Lemma payment_severity t p c start :
  f_severity (payment_info t p c start)
  = if is_card_rule t then "high"%string else "medium"%string.
Proof. reflexivity. Qed.

Lemma payment_step_advanced t p c st start :
  advanced st (payment_step t p c st start) [] [payment_info t p c start].
Proof.
  unfold advanced, payment_step, count_severity. destruct st as [fr r].
  simpl. destruct (is_card_rule t); simpl; rewrite app_nil_r;
    repeat split; lia.
Qed.

Section WithRuntime.
Context {rt : Runtime}.
Variable w : world.

(** All secret findings of a file's text, rule by rule, match by match. *)
Definition secrets_of (filepath content : string) : list finding :=
  flat_map (fun t => map (secret_info t filepath content)
                         (finditer_starts t content)) secret_patterns.

Definition payments_of (filepath content : string) : list finding :=
  flat_map (fun t => map (payment_info t filepath content)
                         (finditer_starts t content)) payment_patterns.

Lemma secret_matches t filepath content starts st :
  advanced st (fold_left (secret_step t filepath content) starts st)
           (map (secret_info t filepath content) starts) [].
Proof.
  pose proof (fold_advanced (secret_step t filepath content)
                (fun start => [secret_info t filepath content start])
                (fun _ => [])
                (fun st0 a => secret_step_advanced t filepath content st0 a)
                starts st) as H.
  rewrite flat_map_single, flat_map_nil in H. exact H.
Qed.

Lemma payment_matches t filepath content starts st :
  advanced st (fold_left (payment_step t filepath content) starts st)
           [] (map (payment_info t filepath content) starts).
Proof.
  pose proof (fold_advanced (payment_step t filepath content)
                (fun _ => [])
                (fun start => [payment_info t filepath content start])
                (fun st0 a => payment_step_advanced t filepath content st0 a)
                starts st) as H.
  rewrite flat_map_single, flat_map_nil in H. exact H.
Qed.

Lemma secret_loops filepath content st :
  advanced st
    (fold_left (fun st t => fold_left (secret_step t filepath content)
                                      (finditer_starts t content) st)
               secret_patterns st)
    (secrets_of filepath content) [].
Proof.
  pose proof (fold_advanced
    (fun st t => fold_left (secret_step t filepath content)
                           (finditer_starts t content) st)
    (fun t => map (secret_info t filepath content) (finditer_starts t content))
    (fun _ => [])
    (fun st0 t => secret_matches t filepath content _ st0)
    secret_patterns st) as H.
  rewrite flat_map_nil in H. exact H.
Qed.

Lemma payment_loops filepath content st :
  advanced st
    (fold_left (fun st t => fold_left (payment_step t filepath content)
                                      (finditer_starts t content) st)
               payment_patterns st)
    [] (payments_of filepath content).
Proof.
  pose proof (fold_advanced
    (fun st t => fold_left (payment_step t filepath content)
                           (finditer_starts t content) st)
    (fun _ => [])
    (fun t => map (payment_info t filepath content) (finditer_starts t content))
    (fun st0 t => payment_matches t filepath content _ st0)
    payment_patterns st) as H.
  rewrite flat_map_nil in H. exact H.
Qed.

Definition no_findings (filepath : string) : file_results :=
  {| secrets := []; file_payment_issues := []; file_path := filepath |}.

(** [scan_file] as a function of the file's text. *)
Lemma scan_file_advanced filepath r :
  match read_text w filepath with
  | None => scan_file w filepath r = (no_findings filepath, r)
  | Some content =>
      advanced (no_findings filepath, r) (scan_file w filepath r)
               (secrets_of filepath content) (payments_of filepath content)
  end.
Proof.
  unfold scan_file. destruct (read_text w filepath) as [content|]; [|reflexivity].
  rewrite <- (app_nil_r (secrets_of filepath content)).
  change (payments_of filepath content) with ([] ++ payments_of filepath content).
  eapply advanced_trans; [apply secret_loops | apply payment_loops].
Qed.

End WithRuntime.

End ScannerFacts.

(* ================================================================== *)
(** ** Claims about the scanner                                       *)
(* ================================================================== *)

Section ScannerClaims.
Import Scanner ScannerFacts.
Context {rt : Runtime}.
Variable w : world.

Lemma length_filter_shift (P : nat -> bool) (l : list nat) :
  List.length (filter P (map S l)) = List.length (filter (fun i => P (S i)) l).
Proof.
  induction l as [|i l IH]; simpl; [reflexivity|].
  destruct (P (S i)); simpl; rewrite IH; reflexivity.
Qed.

Lemma newlines_before_empty k : newlines_before EmptyString k = 0%nat.
Proof.
  unfold newlines_before.
  assert (H : forall n, filter (fun i => match String.get i EmptyString with
                                         | Some c => Ascii.eqb c newline
                                         | None => false
                                         end) (seq n k) = []).
  { induction k as [|k IH]; intro n; simpl; [reflexivity|apply IH]. }
  rewrite H. reflexivity.
Qed.

Lemma newlines_before_cons c s k :
  newlines_before (String c s) (S k)
  = ((if Ascii.eqb c newline then 1 else 0) + newlines_before s k)%nat.
Proof.
  unfold newlines_before. simpl seq. rewrite <- seq_shift. simpl filter.
  destruct (Ascii.eqb c newline); simpl;
    rewrite length_filter_shift; reflexivity.
Qed.

(** The slice-and-count of the source counts the newlines before the
    offset. *)
Lemma count_slice_newlines s :
  forall k, count_char newline (slice_to k s) = Z.of_nat (newlines_before s k).
Proof.
  induction s as [|c s IH]; intro k.
  - rewrite newlines_before_empty. destruct k; reflexivity.
  - destruct k as [|k].
    + reflexivity.
    + rewrite newlines_before_cons. simpl. rewrite IH.
      destruct (Ascii.eqb c newline); lia.
Qed.

Lemma line_of_newlines content start :
  line_of content start = 1 + Z.of_nat (newlines_before content start).
Proof.
  unfold line_of. rewrite count_slice_newlines. lia.
Qed.

Lemma secret_lines filepath content :
  map f_line (secrets_of filepath content)
  = map (fun start => 1 + Z.of_nat (newlines_before content start))
        (flat_map (fun t => finditer_starts t content) secret_patterns).
Proof.
  unfold secrets_of.
  induction secret_patterns as [|t l IH]; simpl; [reflexivity|].
  rewrite !map_app, IH, map_map. f_equal.
  apply map_ext. intro start. apply line_of_newlines.
Qed.

Lemma payment_lines filepath content :
  map f_line (payments_of filepath content)
  = map (fun start => 1 + Z.of_nat (newlines_before content start))
        (flat_map (fun t => finditer_starts t content) payment_patterns).
Proof.
  unfold payments_of.
  induction payment_patterns as [|t l IH]; simpl; [reflexivity|].
  rewrite !map_app, IH, map_map. f_equal.
  apply map_ext. intro start. apply line_of_newlines.
Qed.

(** C6.  The findings [scan_file] returns for a readable file answer, one
    for one and in order, to the matches the patterns yield on its text
    (secret rules first, then payment rules, each in catalogue order), and
    the line recorded for a match is one plus the number of newline
    characters at offsets strictly below the match's start.  A file that
    cannot be read yields no finding. *)
Theorem C6_line_is_one_plus_newlines_before_match (filepath : string) (r : results) :
  match read_text w filepath with
  | Some content =>
      map f_line (secrets (fst (scan_file w filepath r)))
      = map (fun start => 1 + Z.of_nat (newlines_before content start))
            (flat_map (fun t => finditer_starts t content) secret_patterns)
      /\
      map f_line (file_payment_issues (fst (scan_file w filepath r)))
      = map (fun start => 1 + Z.of_nat (newlines_before content start))
            (flat_map (fun t => finditer_starts t content) payment_patterns)
  | None =>
      secrets (fst (scan_file w filepath r)) = [] /\
      file_payment_issues (fst (scan_file w filepath r)) = []
  end.
Proof.
  pose proof (scan_file_advanced w filepath r) as H.
  destruct (read_text w filepath) as [content|].
  - destruct H as (Hs & Hp & _). simpl in Hs, Hp.
    rewrite Hs, Hp. split; [apply secret_lines | apply payment_lines].
  - rewrite H. split; reflexivity.
Qed.

Lemma payments_of_severity filepath content :
  Forall (fun f => In (f_type f) payment_patterns /\
                   f_severity f = if is_card_rule (f_type f)
                                  then "high"%string else "medium"%string)
         (payments_of filepath content).
Proof.
  unfold payments_of. apply Forall_flat_map.
  apply Forall_forall. intros t Ht.
  apply Forall_forall. intros f Hf.
  apply in_map_iff in Hf. destruct Hf as (start & <- & _).
  split; [exact Ht | reflexivity].
Qed.

Lemma map_constant {A B : Type} (b : B) (l : list A) :
  map (fun _ => b) l = repeat b (List.length l).
Proof.
  induction l; simpl; congruence.
Qed.

(** The rule and severity of the payment findings of one rule's matches. *)
Lemma payment_rule_findings t filepath content starts :
  map (fun f => (f_type f, f_severity f))
      (map (payment_info t filepath content) starts)
  = repeat (t, if is_card_rule t then "high"%string else "medium"%string)
           (List.length starts).
Proof.
  rewrite map_map. cbn [payment_info f_type f_severity]. apply map_constant.
Qed.

Lemma count_severity_payment sev t filepath content starts :
  count_severity sev (map (payment_info t filepath content) starts)
  = if String.eqb (if is_card_rule t then "high" else "medium") sev
    then Z.of_nat (List.length starts) else 0.
Proof.
  unfold count_severity. induction starts as [|start starts IH].
  - destruct (String.eqb _ sev); reflexivity.
  - cbn [map filter]. rewrite payment_severity.
    destruct (String.eqb (if is_card_rule t then "high" else "medium") sev);
      [cbn [List.length]; rewrite !Nat2Z.inj_succ, IH; reflexivity | exact IH].
Qed.

Lemma secrets_of_length filepath content :
  List.length (secrets_of filepath content)
  = List.length (flat_map (fun t => finditer_starts t content) secret_patterns).
Proof.
  unfold secrets_of. induction secret_patterns as [|t l IH]; simpl; [reflexivity|].
  rewrite !length_app, length_map, IH. reflexivity.
Qed.

(** C7.  The payment findings of [scan_file] answer one for one to the
    matches of the four payment rules on the file's text, rule by rule in
    catalogue order: a match of credit_card or cvv gives a finding of that
    rule with severity high, a match of expiry or payment_logging one
    with severity medium.  The high tally advances by the number of
    secret matches plus the matches of credit_card and cvv, the medium
    tally by the matches of expiry and payment_logging, the low tally not
    at all.  A file that cannot be read yields no finding and moves no
    tally. *)
Theorem C7_payment_severity_by_rule (filepath : string) (r : results) :
  Forall (fun f => In (f_type f) payment_patterns /\
                   f_severity f = if is_card_rule (f_type f)
                                  then "high"%string else "medium"%string)
         (file_payment_issues (fst (scan_file w filepath r)))
  /\ map (fun t => (t, is_card_rule t)) payment_patterns
     = [("credit_card", true); ("cvv", true);
        ("expiry", false); ("payment_logging", false)]%string
  /\ high_severity_count (snd (scan_file w filepath r))
     = high_severity_count r
       + Z.of_nat (List.length (secrets (fst (scan_file w filepath r))))
       + count_severity "high" (file_payment_issues (fst (scan_file w filepath r)))
  /\ medium_severity_count (snd (scan_file w filepath r))
     = medium_severity_count r
       + count_severity "medium" (file_payment_issues (fst (scan_file w filepath r)))
  /\ low_severity_count (snd (scan_file w filepath r)) = low_severity_count r
  /\ match read_text w filepath with
     | Some content =>
         map (fun f => (f_type f, f_severity f))
             (file_payment_issues (fst (scan_file w filepath r)))
         = repeat ("credit_card", "high")%string
                  (List.length (finditer_starts "credit_card" content))
           ++ repeat ("cvv", "high")%string
                     (List.length (finditer_starts "cvv" content))
           ++ repeat ("expiry", "medium")%string
                     (List.length (finditer_starts "expiry" content))
           ++ repeat ("payment_logging", "medium")%string
                     (List.length (finditer_starts "payment_logging" content))
         /\ high_severity_count (snd (scan_file w filepath r))
            = high_severity_count r
              + Z.of_nat (List.length
                            (flat_map (fun t => finditer_starts t content)
                                      secret_patterns))
              + Z.of_nat (List.length (finditer_starts "credit_card" content))
              + Z.of_nat (List.length (finditer_starts "cvv" content))
         /\ medium_severity_count (snd (scan_file w filepath r))
            = medium_severity_count r
              + Z.of_nat (List.length (finditer_starts "expiry" content))
              + Z.of_nat (List.length (finditer_starts "payment_logging" content))
     | None =>
         file_payment_issues (fst (scan_file w filepath r)) = []
         /\ high_severity_count (snd (scan_file w filepath r))
            = high_severity_count r
         /\ medium_severity_count (snd (scan_file w filepath r))
            = medium_severity_count r
     end.
Proof.
  pose proof (scan_file_advanced w filepath r) as H.
  destruct (read_text w filepath) as [content|].
  - destruct H as (Hs & Hp & _ & Hh & Hm & Hl & _). simpl in Hs, Hp, Hh, Hm, Hl.
    rewrite Hs, Hp, Hh, Hm, Hl.
    split; [apply payments_of_severity|].
    do 4 (split; [reflexivity|]).
    rewrite secrets_of_length.
    unfold payments_of, payment_patterns. cbn [flat_map].
    rewrite app_nil_r, !map_app, !payment_rule_findings,
      !count_severity_app, !count_severity_payment.
    cbn [is_card_rule existsb String.eqb Ascii.eqb Bool.eqb andb orb].
    repeat split; lia.
  - rewrite H. simpl. unfold count_severity. simpl.
    repeat split; try reflexivity; try lia. constructor.
Qed.

End ScannerClaims.

Section ScanPassClaims.
Import Scanner ScannerFacts.
Context {rt : Runtime}.
Variable w : world.

(** The tallies and the findings held agree. *)
Definition in_lockstep (r : results) : Prop := tally r = findings_held r.

Lemma high_or_medium (l : list finding) :
  Forall (fun f => In (f_type f) payment_patterns /\
                   f_severity f = if is_card_rule (f_type f)
                                  then "high"%string else "medium"%string) l ->
  count_severity "high" l + count_severity "medium" l = Z.of_nat (List.length l).
Proof.
  unfold count_severity. induction 1 as [|f l [_ Hf] _ IH]; [reflexivity|].
  cbn [filter]. rewrite Hf.
  destruct (is_card_rule (f_type f)); simpl (String.eqb _ _);
    cbn [List.length]; rewrite ?Nat2Z.inj_succ; lia.
Qed.

Lemma scan_project_file_lockstep r filepath :
  in_lockstep r -> in_lockstep (scan_project_file w r filepath).
Proof.
  unfold in_lockstep, scan_project_file, tally, findings_held.
  pose proof (scan_file_advanced w filepath r) as H.
  destruct (scan_file w filepath r) as [fr r'] eqn:E.
  destruct (read_text w filepath) as [content|].
  - destruct H as (Hs & Hp & _ & Hh & Hm & Hl & Hsf & Hpi & Hdi & _).
    simpl in *. rewrite Hs, Hp, Hh, Hm, Hl, Hsf, Hpi, Hdi, !length_app.
    pose proof (high_or_medium _ (payments_of_severity filepath content)).
    lia.
  - inversion H; subst. simpl. rewrite !app_nil_r. lia.
Qed.

Lemma scan_files_lockstep files :
  forall r, in_lockstep r -> in_lockstep (fold_left (scan_project_file w) files r).
Proof.
  induction files as [|f files IH]; intros r Hr; simpl; [exact Hr|].
  apply IH, scan_project_file_lockstep, Hr.
Qed.

Lemma package_step_lockstep package_file content r rule :
  in_lockstep r -> in_lockstep (package_step package_file content r rule).
Proof.
  unfold in_lockstep, package_step, tally, findings_held.
  destruct (Re.search (snd rule) content); simpl; [|tauto].
  rewrite length_app. simpl. lia.
Qed.

Lemma scan_manifest_lockstep r package_file :
  in_lockstep r -> in_lockstep (scan_manifest w r package_file).
Proof.
  unfold scan_manifest. intro Hr.
  destruct (path_exists w package_file); [|exact Hr].
  destruct (read_text w package_file) as [content|]; [|exact Hr].
  revert r Hr. induction vulnerable_packages as [|rule l IH]; intros r Hr; simpl.
  - exact Hr.
  - apply IH, package_step_lockstep, Hr.
Qed.

Lemma scan_dependencies_lockstep r :
  in_lockstep r -> in_lockstep (scan_dependencies w r).
Proof.
  unfold scan_dependencies. revert r.
  induction package_files as [|f l IH]; intros r Hr; simpl; [exact Hr|].
  apply IH, scan_manifest_lockstep, Hr.
Qed.

Lemma npm_loop_lockstep items :
  forall r, in_lockstep r -> in_lockstep (npm_loop items r).
Proof.
  induction items as [|[vuln_name vuln_data] items IH]; intros r Hr; simpl.
  - exact Hr.
  - destruct (py_get vuln_data "severity" (JStr "unknown")) as [severity|];
      [|exact Hr].
    destruct (py_get vuln_data "via" (JArr [])) as [via|]; [|exact Hr].
    apply IH. revert Hr. unfold in_lockstep, tally, findings_held.
    destruct (is_str "high" severity || is_str "critical" severity);
      [|destruct (is_str "moderate" severity)];
      simpl; rewrite length_app; simpl; lia.
Qed.

Lemma run_npm_audit_lockstep r :
  in_lockstep r -> in_lockstep (run_npm_audit w r).
Proof.
  unfold run_npm_audit. intro Hr.
  destruct (npm_audit w) as [| | |audit_data]; try exact Hr.
  destruct (py_in "vulnerabilities" audit_data) as [[|]|]; try exact Hr.
  destruct (v <- py_getitem audit_data "vulnerabilities" ;; py_items v)
    as [items|]; [|exact Hr].
  apply npm_loop_lockstep, Hr.
Qed.

(** C5.  In the ScanResult of a complete scan pass the three severity
    tallies add up to the number of findings in secrets_found,
    payment_issues and dependency_issues together. *)
Theorem C5_tallies_equal_number_of_findings :
  high_severity_count (scan_project w) + medium_severity_count (scan_project w)
  + low_severity_count (scan_project w)
  = Z.of_nat (List.length (secrets_found (scan_project w))
              + List.length (payment_issues (scan_project w))
              + List.length (dependency_issues (scan_project w))).
Proof.
  change (in_lockstep (scan_project w)).
  unfold scan_project.
  change (in_lockstep
            (run_npm_audit w (scan_dependencies w
               (fold_left (scan_project_file w) (get_typescript_files w)
                          init_results)))).
  apply run_npm_audit_lockstep, scan_dependencies_lockstep, scan_files_lockstep.
  reflexivity.
Qed.

(** C10.  [generate_report] exits with status 1 exactly when the scan's
    high_severity_count is positive, and with status 0 otherwise; the
    medium and low tallies play no part. *)
Theorem C10_scanner_exit_status_follows_high_tally :
  (exit_status (generate_report w) = 1
   <-> high_severity_count (scan_results (generate_report w)) > 0)
  /\ (exit_status (generate_report w) = 0
      <-> high_severity_count (scan_results (generate_report w)) <= 0)
  /\ scan_results (generate_report w) = scan_project w
  /\ artifact (generate_report w) = results_to_json (scan_project w).
Proof.
  unfold generate_report. cbn [exit_status scan_results artifact].
  destruct (Z.gtb_spec (high_severity_count (scan_project w)) 0) as [H|H];
    repeat split; intros; try reflexivity; try lia.
Qed.

End ScanPassClaims.

(* ================================================================== *)
(** ** Facts about the report aggregator                              *)
(* ================================================================== *)

Module ReporterFacts.
Import Fs Reporter.

(** Split [H : (x <- c ;; k) = Ok _] on the outcome of [c]. *)
Ltac bind_ok H :=
  match type of H with
  | bind ?c _ = Ok _ =>
      let E := fresh "E" in
      destruct c eqn:E; cbn [bind] in H; [|discriminate H]
  end.

Lemma foldM_invariant {A B : Type} (P : B -> Prop) (f : B -> A -> res B) :
  (forall b a b', P b -> f b a = Ok b' -> P b') ->
  forall l b b', P b -> foldM f l b = Ok b' -> P b'.
Proof.
  intros Hf l. induction l as [|a l IH]; intros b b' Hb H; simpl in H.
  - inversion H; subst; exact Hb.
  - bind_ok H. eapply IH; [eapply Hf; eassumption | exact H].
Qed.

Definition bucket_sum (s : summary_counts) : Z :=
  critical_count s + high_count s + medium_count s + low_count s + info_count s.

(** The total equals the sum of the buckets, none of them negative. *)
Definition balanced (s : summary_counts) : Prop :=
  total_issues s = bucket_sum s /\
  0 <= critical_count s /\ 0 <= high_count s /\ 0 <= medium_count s /\
  0 <= low_count s /\ 0 <= info_count s.

(** No compliance ScanResult has been folded in yet. *)
Definition pristine (rd : report_data) : Prop :=
  balanced (summary rd) /\ compliance_scan rd = JObj [].

Lemma severity_key (sev : string) :
  In (map_get (lower sev) severity_map "info_count")
     ["critical_count"; "high_count"; "medium_count"; "low_count";
      "info_count"]%string.
Proof.
  unfold severity_map. cbn [map_get].
  repeat match goal with
         | |- context [if ?b then _ else _] => destruct b
         end; simpl; tauto.
Qed.

Lemma increment_pristine sev rd :
  pristine rd -> pristine (increment_severity_count sev rd).
Proof.
  unfold pristine, balanced, bucket_sum, increment_severity_count.
  intros [Hb Hc]. split; [|exact Hc].
  pose proof (severity_key sev) as Hk.
  cbn [In] in Hk.
  destruct Hk as [<-|[<-|[<-|[<-|[<-|[]]]]]]; simpl; lia.
Qed.

Lemma count_vulnerability_pristine rd item rd' :
  pristine rd -> count_vulnerability rd item = Ok rd' -> pristine rd'.
Proof.
  unfold count_vulnerability. intros Hp H.
  bind_ok H. bind_ok H. inversion H; subst.
  apply increment_pristine, Hp.
Qed.

Lemma count_message_pristine rd m rd' :
  pristine rd -> count_message rd m = Ok rd' -> pristine rd'.
Proof.
  unfold count_message. intros Hp H. bind_ok H.
  destruct (is_int 2 a); inversion H; subst; apply increment_pristine, Hp.
Qed.

Lemma count_file_result_pristine rd fr rd' :
  pristine rd -> count_file_result rd fr = Ok rd' -> pristine rd'.
Proof.
  unfold count_file_result. intros Hp H. bind_ok H.
  destruct a.
  - bind_ok H. bind_ok H.
    eapply foldM_invariant; [apply count_message_pristine | exact Hp | exact H].
  - inversion H; subst; exact Hp.
Qed.

Section WithDisk.
Variable d : disk.

Lemma npm_pristine rd rd' :
  pristine rd -> process_npm_audit_results d rd = Ok rd' -> pristine rd'.
Proof.
  unfold process_npm_audit_results. intros Hp H.
  destruct (load_artifact d "**/npm-audit.json") as [data|];
    [|inversion H; subst; exact Hp].
  bind_ok H. destruct a.
  - bind_ok H. bind_ok H.
    eapply foldM_invariant; [apply count_vulnerability_pristine | | exact H].
    exact Hp.
  - inversion H; subst. exact Hp.
Qed.

Lemma audit_ci_pristine rd rd' :
  pristine rd -> process_audit_ci_results d rd = Ok rd' -> pristine rd'.
Proof.
  unfold process_audit_ci_results. intros Hp H.
  destruct (load_artifact d "**/audit-ci-results.json");
    inversion H; subst; exact Hp.
Qed.

Lemma eslint_pristine rd rd' :
  pristine rd -> process_eslint_results d rd = Ok rd' -> pristine rd'.
Proof.
  unfold process_eslint_results. intros Hp H.
  destruct (load_artifact d "**/eslint-security.json") as [[| | | |data|]|];
    try (inversion H; subst; exact Hp).
  eapply foldM_invariant; [apply count_file_result_pristine | | exact H].
  exact Hp.
Qed.

(** The three steps that read the optional artifacts, in order. *)
Definition process_optional (timestamp : string) : res report_data :=
  rd <- process_npm_audit_results d (init_report timestamp) ;;
  rd <- process_audit_ci_results d rd ;;
  process_eslint_results d rd.

Lemma process_all_split timestamp :
  process_all d timestamp
  = (rd <- process_optional timestamp ;; process_compliance_results d rd).
Proof.
  unfold process_all, process_optional.
  destruct (process_npm_audit_results d (init_report timestamp)); simpl;
    [|reflexivity].
  destruct (process_audit_ci_results d a); reflexivity.
Qed.

Lemma process_optional_pristine timestamp rd :
  process_optional timestamp = Ok rd -> pristine rd.
Proof.
  unfold process_optional. intro H. bind_ok H. bind_ok H.
  eapply eslint_pristine; [|exact H].
  eapply audit_ci_pristine; [|exact E0].
  eapply npm_pristine; [|exact E].
  unfold pristine, balanced, bucket_sum. simpl. repeat split; lia.
Qed.


End WithDisk.

(** What [generate_recommendations] appends for the summary counts, for
    the dependency section, and for a zero total. *)
Definition count_recs (s : summary_counts) : list recommendation :=
  (if critical_count s >? 0 then [rec_critical (critical_count s)] else [])
  ++ (if high_count s >? 0 then [rec_high (high_count s)] else []).

Definition dependency_recs (rd : report_data) : list recommendation :=
  match dependency_scan rd with
  | [] => []
  | _ => [rec_dependencies]
  end.

Definition info_recs (s : summary_counts) : list recommendation :=
  if total_issues s =? 0 then [rec_no_issues] else [].

Lemma recommend_findings_shape compliance key mk recs recs' :
  recommend_findings compliance key mk recs = Ok recs' ->
  exists extra, recs' = recs ++ extra
                /\ (extra = [] \/ exists n, extra = [mk n])
                /\ (compliance = JObj [] -> extra = []).
Proof.
  unfold recommend_findings. intro H. bind_ok H.
  destruct (truthy a) eqn:T.
  - bind_ok H. bind_ok H. inversion H; subst.
    exists [mk a1]. split; [reflexivity|]. split; [right; eauto|].
    intros ->. simpl in E. inversion E; subst. discriminate T.
  - inversion H; subst. exists []. rewrite app_nil_r. auto.
Qed.

(** The list [generate_recommendations] builds, part by part. *)
Lemma generate_recommendations_shape rd rd' :
  generate_recommendations rd = Ok rd' ->
  exists sec pay,
    rd' = set_recommendations
            (count_recs (summary rd) ++ sec ++ pay ++ dependency_recs rd
             ++ info_recs (summary rd)) rd
    /\ (sec = [] \/ exists n, sec = [rec_secrets n])
    /\ (pay = [] \/ exists n, pay = [rec_payment n])
    /\ (compliance_scan rd = JObj [] -> sec = [] /\ pay = []).
Proof.
  unfold generate_recommendations. intro H.
  bind_ok H. bind_ok H. inversion H; subst; clear H.
  apply recommend_findings_shape in E. destruct E as (sec & -> & Hs & Hs0).
  apply recommend_findings_shape in E0. destruct E0 as (pay & -> & Hp & Hp0).
  exists sec, pay. repeat split; auto.
  f_equal. unfold count_recs, dependency_recs, info_recs.
  destruct (critical_count (summary rd) >? 0), (high_count (summary rd) >? 0),
    (dependency_scan rd), (total_issues (summary rd) =? 0);
    cbn [app]; rewrite <- ?app_assoc, ?app_nil_r; reflexivity.
Qed.

Lemma generate_reports_split d timestamp rd :
  generate_reports d timestamp = Ok rd ->
  exists rd0, process_all d timestamp = Ok rd0
              /\ generate_recommendations rd0 = Ok rd.
Proof.
  unfold generate_reports. intro H. bind_ok H. bind_ok H. bind_ok H.
  inversion H; subst. eauto.
Qed.

End ReporterFacts.

(* ================================================================== *)
(** ** Claims about the report aggregator                             *)
(* ================================================================== *)

Section ReporterClaims.
Import Fs Reporter ReporterFacts.

Definition npm_audit_pattern : string := "**/npm-audit.json".
Definition eslint_pattern : string := "**/eslint-security.json".
Definition compliance_pattern : string := "**/compliance-scan-results.json".

(** A disk holding a single artifact. *)
Definition disk_with (pattern path : string) (content : file_state) : disk :=
  {| file := fun p => if String.eqb p path then content else Missing;
     glob := fun pat => if String.eqb pat pattern then [path] else [] |}.

(** A scan result with one secret finding, as the scanner writes it. *)
Definition one_secret : Scanner.results :=
  {| Scanner.secrets_found :=
       [{| Scanner.f_type := "api_key";
           Scanner.f_file := "src/config.ts";
           Scanner.f_line := 1;
           Scanner.f_severity := "high";
           Scanner.f_message := "Potential api_key found" |}];
     Scanner.payment_issues := [];
     Scanner.dependency_issues := [];
     Scanner.high_severity_count := 1;
     Scanner.medium_severity_count := 0;
     Scanner.low_severity_count := 0;
     Scanner.scan_timestamp := Some "2024-05-01T12:00:00"%string;
     Scanner.scanned_files := 1 |}.

Definition disk_one_secret : disk :=
  disk_with compliance_pattern "compliance-scan-results.json"
            (Parsed (Scanner.results_to_json one_secret)).

(** C1, evaluated where it fails.  Aggregating a compliance ScanResult
    that holds one high-severity finding, and nothing else, fills the
    critical bucket while the total stays at zero: the buckets add up to
    1, the total is 0, and the list of recommendations names a critical
    issue next to "no security issues detected". *)
Theorem C1_total_misses_folded_compliance_tallies :
  exists rd,
    generate_reports disk_one_secret "2024-05-01T12:05:00" = Ok rd
    /\ total_issues (summary rd) = 0
    /\ critical_count (summary rd) = 1
    /\ bucket_sum (summary rd) = 1
    /\ map priority (recommendations rd) = ["CRITICAL"; "CRITICAL"; "INFO"]%string.
Proof.
  eexists. split; [vm_compute; reflexivity|].
  repeat split.
Qed.






(** C2 at a disk with no artifact on it. *)
Definition empty_disk : disk :=
  {| file := fun _ => Missing; glob := fun _ => [] |}.


End ReporterClaims.

Section RecommendationClaims.
Import Fs Reporter ReporterFacts.










End RecommendationClaims.

(* ================================================================== *)
(** ** Facts about the gate                                           *)
(* ================================================================== *)

Module GateFacts.
Import Fs Gate ReporterFacts.

(** The number of entries the checks have left so far. *)
Definition entries (g : gate) : nat :=
  (List.length (passed_checks g) + List.length (violations g)
   + List.length (warnings g))%nat.

(** [g'] is [g] after [n] more entries, under the same configuration. *)
Definition grown (n : nat) (g g' : gate) : Prop :=
  entries g' = (entries g + n)%nat /\ gate_config g' = gate_config g.

Lemma grown_trans n m g1 g2 g3 :
  grown n g1 g2 -> grown m g2 g3 -> grown (n + m) g1 g3.
Proof.
  unfold grown. intros [A1 A2] [B1 B2]. split; [lia|congruence].
Qed.

Lemma add_violation_grown msg g : grown 1 g (add_violation msg g).
Proof.
  unfold grown, entries. simpl. rewrite length_app. simpl. split; [lia|reflexivity].
Qed.

Lemma add_warning_grown msg g : grown 1 g (add_warning msg g).
Proof.
  unfold grown, entries. simpl. rewrite length_app. simpl. split; [lia|reflexivity].
Qed.

Lemma add_passed_grown msg g : grown 1 g (add_passed msg g).
Proof.
  unfold grown, entries. simpl. rewrite length_app. simpl. split; [lia|reflexivity].
Qed.

Lemma block_above_grown limit count shown ft pt g :
  grown 1 g (block_above limit count shown ft pt g).
Proof.
  unfold block_above. destruct (count >? limit);
    [apply add_violation_grown | apply add_passed_grown].
Qed.

Lemma warn_above_grown limit count shown wt pt g :
  grown 1 g (warn_above limit count shown wt pt g).
Proof.
  unfold warn_above. destruct (count >? limit);
    [apply add_warning_grown | apply add_passed_grown].
Qed.

Lemma check_critical_grown report g g' :
  check_critical_issues report g = Ok g' -> grown 2 g g'.
Proof.
  unfold check_critical_issues. intro H.
  bind_ok H. bind_ok H. bind_ok H. bind_ok H. bind_ok H.
  inversion H; subst.
  eapply (grown_trans 1 1); apply block_above_grown.
Qed.

(** The report has a non-empty compliance section. *)
Definition has_compliance (report : json) : bool :=
  match py_get report "compliance_scan" (JObj []) with
  | Ok compliance => truthy compliance
  | Raise _ => false
  end.

Lemma check_compliance_grown report g g' :
  check_compliance_issues report g = Ok g' ->
  grown (if has_compliance report then 2 else 1) g g'.
Proof.
  unfold check_compliance_issues, has_compliance. intro H.
  bind_ok H. destruct (truthy a); cbn [negb] in H.
  - bind_ok H. bind_ok H. bind_ok H. bind_ok H. inversion H; subst.
    eapply (grown_trans 1 1); apply block_above_grown.
  - inversion H; subst. apply add_violation_grown.
Qed.

Lemma check_dependency_grown report g g' :
  check_dependency_issues report g = Ok g' -> grown 1 g g'.
Proof.
  unfold check_dependency_issues. intro H.
  bind_ok H. destruct (truthy a); cbn [negb] in H.
  - bind_ok H. bind_ok H. bind_ok H. inversion H; subst.
    apply warn_above_grown.
  - inversion H; subst. apply add_warning_grown.
Qed.

Lemma check_required_scan_grown report g scan_name g' :
  check_required_scan report g scan_name = Ok g' -> grown 1 g g'.
Proof.
  unfold check_required_scan. intro H.
  bind_ok H. bind_ok H. inversion H; subst.
  destruct a0; [apply add_violation_grown | apply add_passed_grown].
Qed.

Lemma required_scans_loop_grown report names :
  forall g g', foldM (check_required_scan report) names g = Ok g' ->
               grown (List.length names) g g'.
Proof.
  induction names as [|n names IH]; intros g g' H; simpl in H.
  - inversion H; subst. unfold grown. simpl. split; [lia | reflexivity].
  - bind_ok H. apply check_required_scan_grown in E.
    apply (grown_trans 1 (List.length names) g a g' E), IH, H.
Qed.

Lemma check_required_grown report g g' :
  check_required_scans report g = Ok g' ->
  grown (List.length (required_scans (gate_config g))) g g'.
Proof.
  apply required_scans_loop_grown.
Qed.

Lemma check_medium_grown report g g' :
  check_medium_issues report g = Ok g' -> grown 1 g g'.
Proof.
  unfold check_medium_issues. intro H.
  bind_ok H. bind_ok H. bind_ok H. inversion H; subst.
  apply warn_above_grown.
Qed.

(** All five checks leave their entries, whatever the earlier ones found. *)
Lemma run_checks_grown report g :
  run_checks report init_gate = Ok g ->
  grown (6 + (if has_compliance report then 2 else 1)) init_gate g.
Proof.
  unfold run_checks. intro H.
  bind_ok H. bind_ok H. bind_ok H. bind_ok H.
  apply check_critical_grown in E. apply check_compliance_grown in E0.
  apply check_dependency_grown in E1. apply check_required_grown in E2.
  apply check_medium_grown in H.
  assert (Hc : gate_config a1 = gate_config init_gate).
  { destruct E as [_ A], E0 as [_ B], E1 as [_ C]. congruence. }
  rewrite Hc in E2. change (List.length (required_scans (gate_config init_gate)))
    with 2%nat in E2.
  destruct E as [A1 A2], E0 as [B1 B2], E1 as [C1 C2], E2 as [D1 D2],
    H as [F1 F2].
  split; [|congruence].
  destruct (has_compliance report); lia.
Qed.

(** What a check leaves behind: a violation, a warning or a passed check,
    with its text. *)
Inductive verdict : Type := Violation | Warning | Passed.

Definition verdict_eqb (a b : verdict) : bool :=
  match a, b with
  | Violation, Violation | Warning, Warning | Passed, Passed => true
  | _, _ => false
  end.

(** The texts of one kind among a run's entries, in the order they were
    left. *)
Definition recorded (v : verdict) (l : list (verdict * string)) : list string :=
  map snd (filter (fun e => verdict_eqb (fst e) v) l).

(** The member [k] of a decoded object, [d] where there is none. *)
Definition field (v : json) (k : string) (d : json) : json :=
  match v with
  | JObj m => match lookup k m with Some x => x | None => d end
  | _ => d
  end.

(** The count a number stands for, and the length of a collection. *)
Definition number (v : json) : Z :=
  match v with
  | JInt z => z
  | JBool b => if b then 1 else 0
  | _ => 0
  end.

Definition size (v : json) : Z :=
  match v with
  | JStr s => Z.of_nat (String.length s)
  | JArr l => Z.of_nat (List.length l)
  | JObj m => Z.of_nat (List.length m)
  | _ => 0
  end.

(** The entry of a threshold that blocks above zero. *)
Definition blocked (count : Z) (shown found passed : string)
  : verdict * string :=
  if count >? 0
  then (Violation, "❌ " +++ found +++ ": " +++ shown +++ " (max allowed: 0)")
  else (Passed, "✅ " +++ passed +++ ": " +++ shown).

(** The entry of a threshold that warns above [limit]. *)
Definition warned (limit : Z) (limit_shown : string) (count : Z)
  (shown found passed : string) : verdict * string :=
  if count >? limit
  then (Warning, "⚠️ " +++ found +++ ": " +++ shown
                 +++ " (warning threshold: " +++ limit_shown +++ ")")
  else (Passed, "✅ " +++ passed +++ ": " +++ shown).

(** The entry of a required section. *)
Definition required (report : json) (scan_name : string) : verdict * string :=
  if truthy (field report scan_name JNull)
  then (Passed, "✅ Required scan completed: " +++ scan_name)
  else (Violation, "❌ Required scan missing: " +++ scan_name).

(** The entries of a complete gate run on [report], named one by one in
    the order of the checks: critical, high; secrets and payment, or the
    one violation that stands for both when the compliance section is
    empty; dependency; the two required sections; medium. *)
Definition expected_entries (report : json) : list (verdict * string) :=
  let summary := field report "summary" (JObj []) in
  let critical := field summary "critical_count" (JInt 0) in
  let high := field summary "high_count" (JInt 0) in
  let medium := field summary "medium_count" (JInt 0) in
  let compliance := field report "compliance_scan" (JObj []) in
  let dependency := field report "dependency_scan" (JObj []) in
  let secrets := size (field compliance "secrets_found" (JArr [])) in
  let payments := size (field compliance "payment_issues" (JArr [])) in
  let vulnerabilities :=
    size (field (field dependency "npm_audit" (JObj [])) "vulnerabilities"
                (JObj [])) in
  [blocked (number critical) (str_of_num critical)
           "Critical issues found" "Critical issues";
   blocked (number high) (str_of_num high)
           "High severity issues found" "High severity issues"]
  ++ (if truthy compliance
      then [blocked secrets (str_of_Z secrets)
                    "Secrets found in code" "Secrets in code";
            blocked payments (str_of_Z payments)
                    "Payment data issues" "Payment data issues"]
      else [(Violation, "❌ Compliance scan results not found"%string)])
  ++ [if truthy dependency
      then warned 10 "10" vulnerabilities (str_of_Z vulnerabilities)
                  "High number of dependency vulnerabilities"
                  "Dependency vulnerabilities"
      else (Warning, "⚠️ Dependency scan results not found"%string);
      required report "compliance_scan";
      required report "dependency_scan";
      warned 5 "5" (number medium) (str_of_num medium)
             "High number of medium issues" "Medium severity issues"].

(** [g'] is [g] after the entries [l], under the same configuration. *)
Definition records (l : list (verdict * string)) (g g' : gate) : Prop :=
  violations g' = violations g ++ recorded Violation l
  /\ warnings g' = warnings g ++ recorded Warning l
  /\ passed_checks g' = passed_checks g ++ recorded Passed l
  /\ gate_config g' = gate_config g.

Lemma recorded_app v l1 l2 :
  recorded v (l1 ++ l2) = recorded v l1 ++ recorded v l2.
Proof.
  unfold recorded. rewrite filter_app, map_app. reflexivity.
Qed.

Lemma records_nil g : records [] g g.
Proof.
  unfold records, recorded. simpl. rewrite !app_nil_r. auto.
Qed.

Lemma records_trans l1 l2 g1 g2 g3 :
  records l1 g1 g2 -> records l2 g2 g3 -> records (l1 ++ l2) g1 g3.
Proof.
  unfold records. intros (A1 & A2 & A3 & A4) (B1 & B2 & B3 & B4).
  rewrite !recorded_app, !app_assoc. repeat split; congruence.
Qed.

Lemma add_violation_records msg g :
  records [(Violation, msg)] g (add_violation msg g).
Proof.
  unfold records, recorded. simpl. rewrite !app_nil_r. auto.
Qed.

Lemma add_warning_records msg g :
  records [(Warning, msg)] g (add_warning msg g).
Proof.
  unfold records, recorded. simpl. rewrite !app_nil_r. auto.
Qed.

Lemma add_passed_records msg g :
  records [(Passed, msg)] g (add_passed msg g).
Proof.
  unfold records, recorded. simpl. rewrite !app_nil_r. auto.
Qed.

Lemma block_above_records count shown ft pt g :
  records [blocked count shown ft pt] g (block_above 0 count shown ft pt g).
Proof.
  unfold block_above, blocked. destruct (count >? 0);
    [apply add_violation_records | apply add_passed_records].
Qed.

Lemma warn_above_10_records count shown wt pt g :
  records [warned 10 "10" count shown wt pt] g
          (warn_above 10 count shown wt pt g).
Proof.
  unfold warn_above, warned. destruct (count >? 10);
    [apply add_warning_records | apply add_passed_records].
Qed.

Lemma warn_above_5_records count shown wt pt g :
  records [warned 5 "5" count shown wt pt] g
          (warn_above 5 count shown wt pt g).
Proof.
  unfold warn_above, warned. destruct (count >? 5);
    [apply add_warning_records | apply add_passed_records].
Qed.

Lemma py_get_field v k d x : py_get v k d = Ok x -> x = field v k d.
Proof.
  destruct v; simpl; intro H; inversion H; reflexivity.
Qed.

Lemma as_int_number v z : as_int v = Ok z -> z = number v.
Proof.
  destruct v; simpl; intro H; inversion H; reflexivity.
Qed.

Lemma py_len_size v n : py_len v = Ok n -> n = size v.
Proof.
  destruct v; simpl; intro H; inversion H; reflexivity.
Qed.

Lemma check_critical_records report g g' :
  gate_config g = gate_config init_gate ->
  check_critical_issues report g = Ok g' ->
  records
    [blocked (number (field (field report "summary" (JObj []))
                            "critical_count" (JInt 0)))
             (str_of_num (field (field report "summary" (JObj []))
                                "critical_count" (JInt 0)))
             "Critical issues found" "Critical issues";
     blocked (number (field (field report "summary" (JObj []))
                            "high_count" (JInt 0)))
             (str_of_num (field (field report "summary" (JObj []))
                                "high_count" (JInt 0)))
             "High severity issues found" "High severity issues"]
    g g'.
Proof.
  unfold check_critical_issues. intros Hc H.
  bind_ok H. bind_ok H. bind_ok H. bind_ok H. bind_ok H.
  inversion H; subst g'; clear H.
  apply py_get_field in E. subst a.
  apply py_get_field in E0. apply py_get_field in E1.
  apply as_int_number in E2. apply as_int_number in E3. subst a0 a1 a2 a3.
  assert (Hc' : gate_config
                  (block_above (max_critical_issues (gate_config g))
                     (number (field (field report "summary" (JObj []))
                                    "critical_count" (JInt 0)))
                     (str_of_num (field (field report "summary" (JObj []))
                                        "critical_count" (JInt 0)))
                     "Critical issues found" "Critical issues" g)
                = gate_config g) by apply block_above_grown.
  rewrite Hc', Hc. cbn [gate_config init_gate max_critical_issues max_high_issues].
  eapply (records_trans [_] [_]); apply block_above_records.
Qed.

Lemma check_compliance_records report g g' :
  gate_config g = gate_config init_gate ->
  check_compliance_issues report g = Ok g' ->
  records
    (if truthy (field report "compliance_scan" (JObj []))
     then [blocked (size (field (field report "compliance_scan" (JObj []))
                                "secrets_found" (JArr [])))
                   (str_of_Z (size (field (field report "compliance_scan" (JObj []))
                                          "secrets_found" (JArr []))))
                   "Secrets found in code" "Secrets in code";
           blocked (size (field (field report "compliance_scan" (JObj []))
                                "payment_issues" (JArr [])))
                   (str_of_Z (size (field (field report "compliance_scan" (JObj []))
                                          "payment_issues" (JArr []))))
                   "Payment data issues" "Payment data issues"]
     else [(Violation, "❌ Compliance scan results not found"%string)])
    g g'.
Proof.
  unfold check_compliance_issues. intros Hc H.
  bind_ok H. apply py_get_field in E. subst a.
  destruct (truthy (field report "compliance_scan" (JObj []))); cbn [negb] in H.
  - bind_ok H. bind_ok H. bind_ok H. bind_ok H.
    inversion H; subst g'; clear H.
    apply py_get_field in E. apply py_len_size in E0.
    apply py_get_field in E1. apply py_len_size in E2. subst a a0 a1 a2.
    assert (Hc' : gate_config
                    (block_above (max_secrets (gate_config g))
                       (size (field (field report "compliance_scan" (JObj []))
                                    "secrets_found" (JArr [])))
                       (str_of_Z (size (field (field report "compliance_scan" (JObj []))
                                              "secrets_found" (JArr []))))
                       "Secrets found in code" "Secrets in code" g)
                  = gate_config g) by apply block_above_grown.
    rewrite Hc', Hc. cbn [gate_config init_gate max_secrets max_payment_issues].
    eapply (records_trans [_] [_]); apply block_above_records.
  - inversion H; subst g'. apply add_violation_records.
Qed.

Lemma vulnerabilities_size npm_audit has n :
  py_in "vulnerabilities" npm_audit = Ok has ->
  (if has : bool
   then v <- py_getitem npm_audit "vulnerabilities" ;; py_len v
   else Ok 0) = Ok n ->
  n = size (field npm_audit "vulnerabilities" (JObj [])).
Proof.
  destruct npm_audit; cbn [py_in py_getitem field]; intros Hin H;
    try discriminate Hin; inversion Hin; subst has; clear Hin.
  - destruct (contains "vulnerabilities" s); [discriminate H|].
    inversion H; reflexivity.
  - destruct (existsb (is_str "vulnerabilities") l); [discriminate H|].
    inversion H; reflexivity.
  - destruct (lookup "vulnerabilities" m) as [v|]; cbn [bind] in H.
    + apply py_len_size, H.
    + inversion H; reflexivity.
Qed.

Lemma check_dependency_records report g g' :
  gate_config g = gate_config init_gate ->
  check_dependency_issues report g = Ok g' ->
  records
    [if truthy (field report "dependency_scan" (JObj []))
     then warned 10 "10"
            (size (field (field (field report "dependency_scan" (JObj []))
                                "npm_audit" (JObj []))
                         "vulnerabilities" (JObj [])))
            (str_of_Z
               (size (field (field (field report "dependency_scan" (JObj []))
                                   "npm_audit" (JObj []))
                            "vulnerabilities" (JObj []))))
            "High number of dependency vulnerabilities"
            "Dependency vulnerabilities"
     else (Warning, "⚠️ Dependency scan results not found"%string)]
    g g'.
Proof.
  unfold check_dependency_issues. intros Hc H.
  bind_ok H. apply py_get_field in E. subst a.
  destruct (truthy (field report "dependency_scan" (JObj []))); cbn [negb] in H.
  - bind_ok H. bind_ok H. bind_ok H. inversion H; subst g'; clear H.
    apply py_get_field in E. subst a.
    apply (vulnerabilities_size _ _ _ E0) in E1. subst a1.
    rewrite Hc. cbn [gate_config init_gate warn_dependency_issues].
    apply warn_above_10_records.
  - inversion H; subst g'. apply add_warning_records.
Qed.

Lemma check_required_scan_records report g scan_name g' :
  check_required_scan report g scan_name = Ok g' ->
  records [required report scan_name] g g'.
Proof.
  unfold check_required_scan, required. intro H.
  bind_ok H. bind_ok H. inversion H; subst g'; clear H.
  assert (Hm : a0 = negb (truthy (field report scan_name JNull))).
  { destruct report; cbn [py_in py_getitem field] in *; try discriminate E;
      inversion E; subst a; clear E.
    - destruct (contains scan_name s); [discriminate E0|].
      inversion E0; reflexivity.
    - destruct (existsb (is_str scan_name) l); [discriminate E0|].
      inversion E0; reflexivity.
    - destruct (lookup scan_name m); cbn [bind] in E0;
        inversion E0; reflexivity. }
  subst a0. destruct (truthy (field report scan_name JNull)); cbn [negb];
    [apply add_passed_records | apply add_violation_records].
Qed.

Lemma check_required_records report g g' :
  gate_config g = gate_config init_gate ->
  check_required_scans report g = Ok g' ->
  records [required report "compliance_scan"; required report "dependency_scan"]
          g g'.
Proof.
  unfold check_required_scans. intros Hc H. rewrite Hc in H.
  cbn [gate_config init_gate required_scans foldM] in H.
  bind_ok H. bind_ok H. inversion H; subst g'; clear H.
  eapply (records_trans [_] [_]); eapply check_required_scan_records; eassumption.
Qed.

Lemma check_medium_records report g g' :
  gate_config g = gate_config init_gate ->
  check_medium_issues report g = Ok g' ->
  records
    [warned 5 "5"
       (number (field (field report "summary" (JObj [])) "medium_count" (JInt 0)))
       (str_of_num (field (field report "summary" (JObj []))
                          "medium_count" (JInt 0)))
       "High number of medium issues" "Medium severity issues"]
    g g'.
Proof.
  unfold check_medium_issues. intros Hc H.
  bind_ok H. bind_ok H. bind_ok H. inversion H; subst g'; clear H.
  apply py_get_field in E. subst a. apply py_get_field in E0.
  apply as_int_number in E1. subst a0 a1.
  rewrite Hc. cbn [gate_config init_gate warn_medium_issues].
  apply warn_above_5_records.
Qed.

(** A complete run leaves exactly the entries named above, each in its
    list and in the order of the checks. *)
Lemma run_checks_entries report g :
  run_checks report init_gate = Ok g ->
  violations g = recorded Violation (expected_entries report)
  /\ warnings g = recorded Warning (expected_entries report)
  /\ passed_checks g = recorded Passed (expected_entries report).
Proof.
  unfold run_checks. intro H.
  bind_ok H. bind_ok H. bind_ok H. bind_ok H.
  apply check_critical_records in E; [|reflexivity].
  assert (C0 : gate_config a = gate_config init_gate) by apply E.
  apply check_compliance_records in E0; [|exact C0].
  assert (C1 : gate_config a0 = gate_config init_gate)
    by (destruct E0 as (_ & _ & _ & ->); exact C0).
  apply check_dependency_records in E1; [|exact C1].
  assert (C2 : gate_config a1 = gate_config init_gate)
    by (destruct E1 as (_ & _ & _ & ->); exact C1).
  apply check_required_records in E2; [|exact C2].
  assert (C3 : gate_config a2 = gate_config init_gate)
    by (destruct E2 as (_ & _ & _ & ->); exact C2).
  apply check_medium_records in H; [|exact C3].
  pose proof (records_trans _ _ _ _ _ E
                (records_trans _ _ _ _ _ E0
                   (records_trans _ _ _ _ _ E1
                      (records_trans _ _ _ _ _ E2 H)))) as R.
  destruct R as (V & W & P & _). cbn [violations warnings passed_checks
    init_gate app] in V, W, P.
  unfold expected_entries. cbv zeta.
  repeat split; assumption.
Qed.

(** The gate run on a report that was decoded. *)
Lemma run_on_parsed d report :
  file d report_file = Parsed report ->
  run_security_gate d
  = if negb (truthy report) then Exited 1 init_gate
    else match run_checks report init_gate with
         | Raise e => Uncaught e
         | Ok g => match violations g with
                   | [] => Exited 0 g
                   | _ :: _ => Exited 1 g
                   end
         end.
Proof.
  unfold run_security_gate, load_security_report. intros ->. reflexivity.
Qed.

End GateFacts.

(* ================================================================== *)
(** ** Claims about the gate                                          *)
(* ================================================================== *)

Section GateClaims.
Import Fs Gate GateFacts ReporterFacts.

(** A disk holding a decoded security report and nothing else. *)
Definition report_on_disk (report : json) : disk :=
  {| file := fun p => if String.eqb p report_file then Parsed report else Missing;
     glob := fun _ => [] |}.

Definition zero_summary : json :=
  JObj [("total_issues", JInt 0); ("critical_count", JInt 0);
        ("high_count", JInt 0); ("medium_count", JInt 0);
        ("low_count", JInt 0); ("info_count", JInt 0)]%string.

(** A report with a dependency section and no compliance section. *)
Definition report_without_compliance : json :=
  JObj [("dependency_scan",
         JObj [("npm_audit", JObj [("vulnerabilities", JObj [])])]);
        ("compliance_scan", JObj []);
        ("summary", zero_summary)]%string.

(** C3 as stated fails.  A report file that decodes to the empty object
    ends the run with status 1 although no violation was recorded and no
    check ran; and on a report without a compliance section the secrets
    and payment thresholds are not evaluated (no entry mentions them). *)
Lemma C3_counterexample_empty_report_exits_1_without_violation :
  file (report_on_disk (JObj [])) report_file = Parsed (JObj [])
  /\ run_security_gate (report_on_disk (JObj [])) = Exited 1 init_gate
  /\ violations init_gate = []
  /\ entries init_gate = 0%nat
  /\ exists g,
       run_security_gate (report_on_disk report_without_compliance) = Exited 1 g
       /\ violations g = ["❌ Compliance scan results not found";
                          "❌ Required scan missing: compliance_scan"]%string
       /\ warnings g = []
       /\ passed_checks g = ["✅ Critical issues: 0";
                             "✅ High severity issues: 0";
                             "✅ Dependency vulnerabilities: 0";
                             "✅ Required scan completed: dependency_scan";
                             "✅ Medium severity issues: 0"]%string.
Proof.
  repeat split. eexists. split; [vm_compute; reflexivity|].
  repeat split.
Qed.

(** C3, amended.  For a report file that decodes to a non-empty value on
    which no check raises, the evaluator makes all five check calls in
    order, none cut short by an earlier violation.  They leave the
    entries [expected_entries] names, each in its list and in this
    order: critical, high; secrets and payment when the report has a
    non-empty compliance section, the violation "Compliance scan results
    not found" in their place otherwise; dependency; the two required
    sections; medium.  That makes six entries plus two, or plus one.  The
    run exits with 0 exactly when the violations list is then empty and
    with 1 otherwise, whatever the warnings.  A report that decodes to an
    empty value ends the run with status 1 before any check. *)
Theorem C3_all_checks_run_and_violations_decide
  (d : disk) (report : json) :
  file d report_file = Parsed report ->
  (truthy report = false ->
   run_security_gate d = Exited 1 init_gate)
  /\ (truthy report = true ->
      forall g, run_checks report init_gate = Ok g ->
        exists code,
          run_security_gate d = Exited code g
          /\ (code = 0 <-> violations g = [])
          /\ (code = 1 <-> violations g <> [])
          /\ entries g = (6 + (if has_compliance report then 2 else 1))%nat
          /\ violations g = recorded Violation (expected_entries report)
          /\ warnings g = recorded Warning (expected_entries report)
          /\ passed_checks g = recorded Passed (expected_entries report))
  /\ (truthy report = true ->
      forall e, run_checks report init_gate = Raise e ->
        run_security_gate d = Uncaught e).
Proof.
  intro Hf. rewrite (run_on_parsed d report Hf).
  split; [|split].
  - intros ->. reflexivity.
  - intros -> g Hg. rewrite Hg. cbn [negb].
    pose proof (run_checks_grown report g Hg) as [He _].
    pose proof (run_checks_entries report g Hg) as (Hv & Hw & Hp).
    destruct (violations g) eqn:V.
    + exists 0. repeat split; try congruence; try lia; assumption.
    + exists 1. repeat split; try congruence; try lia; assumption.
  - intros -> e He. rewrite He. reflexivity.
Qed.

(** A report with one secret finding, as the aggregator writes it. *)
Definition report_one_secret : json :=
  JObj [("compliance_scan", Scanner.results_to_json one_secret);
        ("dependency_scan",
         JObj [("npm_audit", JObj [("vulnerabilities", JObj [])])]);
        ("summary",
         JObj [("total_issues", JInt 0); ("critical_count", JInt 1);
               ("high_count", JInt 0); ("medium_count", JInt 0);
               ("low_count", JInt 0); ("info_count", JInt 0)])]%string.

Lemma C3_witness_report_with_one_secret :
  exists g,
    run_checks report_one_secret init_gate = Ok g
    /\ exists code,
         run_security_gate (report_on_disk report_one_secret) = Exited code g
         /\ (code = 0 <-> violations g = [])
         /\ (code = 1 <-> violations g <> [])
         /\ entries g = (6 + (if has_compliance report_one_secret then 2 else 1))%nat
         /\ violations g
            = recorded Violation (expected_entries report_one_secret)
         /\ warnings g
            = recorded Warning (expected_entries report_one_secret)
         /\ passed_checks g
            = recorded Passed (expected_entries report_one_secret).
Proof.
  eexists. split; [vm_compute; reflexivity|].
  apply (C3_all_checks_run_and_violations_decide
           (report_on_disk report_one_secret) report_one_secret eq_refl);
    reflexivity.
Defined.

Lemma load_keeps_config d :
  gate_config (snd (load_security_report d init_gate)) = gate_config init_gate.
Proof.
  unfold load_security_report. destruct (file d report_file); reflexivity.
Qed.

(** C9.  Two gate runs that find the same security report end the same
    way (same exit status, same passed checks, violations and warnings),
    whatever else the two disks hold; the thresholds in force when a run
    ends are the constants of the constructor; in particular writing any
    document to the configuration file changes nothing. *)
Theorem C9_verdict_is_a_function_of_the_report (d1 d2 : disk) :
  file d1 report_file = file d2 report_file ->
  run_security_gate d1 = run_security_gate d2
  /\ (forall argv o, main argv d1 = GateRun o -> main argv d2 = GateRun o)
  /\ (forall code g, run_security_gate d1 = Exited code g ->
        gate_config g
        = {| max_critical_issues := 0; max_high_issues := 0;
             max_secrets := 0; max_payment_issues := 0;
             warn_medium_issues := 5; warn_dependency_issues := 10;
             required_scans := ["compliance_scan"; "dependency_scan"]%string |})
  /\ (forall j, run_security_gate (write_json config_file j d1)
                = run_security_gate d1).
Proof.
  intro Hf.
  assert (Hrun : run_security_gate d1 = run_security_gate d2).
  { unfold run_security_gate, load_security_report. rewrite Hf. reflexivity. }
  split; [exact Hrun|]. split; [|split].
  - intros argv o. unfold main.
    destruct argv as [|a0 [|arg rest]]; try (rewrite Hrun; tauto).
    destruct (String.eqb arg "--create-config"); [discriminate|].
    rewrite Hrun. tauto.
  - intros code g. unfold run_security_gate.
    pose proof (load_keeps_config d1) as Hl.
    destruct (load_security_report d1 init_gate) as [report g0]. simpl in Hl.
    destruct (negb (truthy report)).
    + intro H. inversion H; subst. exact Hl.
    + destruct (run_checks report g0) as [g1|e] eqn:R; [|discriminate].
      assert (Hc : gate_config g1 = gate_config g0).
      { unfold run_checks in R.
        bind_ok R. bind_ok R. bind_ok R. bind_ok R.
        apply check_critical_grown in E. apply check_compliance_grown in E0.
        apply check_dependency_grown in E1. apply check_required_grown in E2.
        apply check_medium_grown in R.
        destruct E as [_ A], E0 as [_ B], E1 as [_ C], E2 as [_ D], R as [_ F].
        congruence. }
      destruct (violations g1); intro H; inversion H; subst;
        rewrite Hc; exact Hl.
  - intro j. unfold run_security_gate, load_security_report, write_json.
    cbn [file]. reflexivity.
Qed.

(** A configuration document that would loosen every threshold. *)
Definition lenient_config : json :=
  JObj [("gates",
         JObj [("critical_issues", max_allowed 100 "any");
               ("high_issues", max_allowed 100 "any");
               ("secrets", max_allowed 100 "any");
               ("payment_data", max_allowed 100 "any")]);
        ("required_scans", JArr [])]%string.

Lemma C9_witness_lenient_configuration_is_ignored :
  run_security_gate (report_on_disk report_one_secret)
  = run_security_gate
      (write_json config_file lenient_config (report_on_disk report_one_secret)).
Proof.
  apply (C9_verdict_is_a_function_of_the_report
           (report_on_disk report_one_secret)
           (write_json config_file lenient_config
                       (report_on_disk report_one_secret))).
  reflexivity.
Defined.

End GateClaims.

(* ================================================================== *)
(** ** The lodash scenario, from manifest to gate                     *)
(* ================================================================== *)

Section DependencyClaims.
Import Fs Gate GateFacts ReporterFacts.

Definition quote (s : string) : string := dquote +++ s +++ dquote.

(** A package.json that declares lodash 2.4.1. *)
Definition lodash_manifest : string :=
  "{" +++ quote "name" +++ ": " +++ quote "shop" +++ ", "
  +++ quote "dependencies" +++ ": {" +++ quote "lodash" +++ ": "
  +++ quote "2.4.1" +++ "}}".

(** A project made of that manifest alone, on a machine without npm. *)
Definition world_lodash : Scanner.world :=
  {| Scanner.glob := fun _ => [];
     Scanner.read_text :=
       fun p => if String.eqb p "package.json" then Some lodash_manifest else None;
     Scanner.path_exists := fun p => String.eqb p "package.json";
     Scanner.npm_audit := Scanner.NpmRaised;
     Scanner.now := "2024-05-01T12:00:00" |}.

(** A run time for scans that consult neither the pattern engine nor
    [str]: every pattern is without match. *)
Definition idle_runtime : Runtime :=
  {| finditer_starts := fun _ _ => []; py_str := fun _ => EmptyString |}.

(** The findings one manifest contributes: one per rule whose pattern is
    found in it. *)
Definition manifest_findings (package_file content : string)
  : list Scanner.dependency_issue :=
  map (fun rule => Scanner.VulnerableDependency (fst rule) package_file)
      (filter (fun rule => Re.search (snd rule) content)
              Scanner.vulnerable_packages).

Lemma package_loop package_file content rules :
  forall r,
    Scanner.dependency_issues
      (fold_left (Scanner.package_step package_file content) rules r)
    = Scanner.dependency_issues r
      ++ map (fun rule => Scanner.VulnerableDependency (fst rule) package_file)
             (filter (fun rule => Re.search (snd rule) content) rules).
Proof.
  induction rules as [|rule rules IH]; intro r; simpl.
  - rewrite app_nil_r. reflexivity.
  - rewrite IH. unfold Scanner.package_step.
    destruct (Re.search (snd rule) content); simpl.
    + rewrite <- app_assoc. reflexivity.
    + reflexivity.
Qed.

Lemma scan_manifest_findings w r package_file content :
  Scanner.path_exists w package_file = true ->
  Scanner.read_text w package_file = Some content ->
  Scanner.dependency_issues (Scanner.scan_manifest w r package_file)
  = Scanner.dependency_issues r ++ manifest_findings package_file content.
Proof.
  unfold Scanner.scan_manifest. intros -> ->. apply package_loop.
Qed.

(** The scan of the lodash project, aggregated and put before the gate. *)
Definition lodash_scan : Scanner.report_run :=
  @Scanner.generate_report idle_runtime world_lodash.

Definition lodash_aggregation : res Reporter.report_data :=
  Reporter.generate_reports
    (disk_with compliance_pattern "compliance-scan-results.json"
               (Parsed (Scanner.artifact lodash_scan)))
    "2024-05-01T12:05:00".

(** C8 as stated fails in its second half.  The scan of the manifest
    yields the one medium lodash finding; aggregated and evaluated, with
    that finding as the only dependency signal, the gate's dependency
    check records the warning "Dependency scan results not found" and no
    passed check for dependency vulnerabilities. *)
Lemma C8_counterexample_lodash_finding_yields_gate_warning :
  Scanner.dependency_issues (Scanner.scan_results lodash_scan)
    = [Scanner.VulnerableDependency "lodash" "package.json"]
  /\ exists rd g,
       lodash_aggregation = Ok rd
       /\ run_security_gate (report_on_disk (Reporter.report_to_json rd))
          = Exited 1 g
       /\ warn_dependency_issues (gate_config g) = 10
       /\ warnings g = ["⚠️ Dependency scan results not found"]%string
       /\ passed_checks g = ["✅ Critical issues: 0";
                             "✅ High severity issues: 0";
                             "✅ Secrets in code: 0";
                             "✅ Payment data issues: 0";
                             "✅ Required scan completed: compliance_scan";
                             "✅ Medium severity issues: 1"]%string
       /\ violations g = ["❌ Required scan missing: dependency_scan"]%string.
Proof.
  split; [reflexivity|].
  eexists. eexists. split; [vm_compute; reflexivity|].
  split; [vm_compute; reflexivity|]. repeat split.
Qed.

(** C8, amended.  A manifest that declares lodash 2.4.1 yields exactly
    one dependency finding, of medium severity, and in general a manifest
    yields one finding per rule found in it, however often.  The gate's
    dependency check does not read those findings: it counts the
    vulnerabilities of the npm-audit document in the report's
    dependency_scan section.  With that section non-empty and at most
    warn_dependency_issues = 10 vulnerabilities in it, the check records
    the passed check "Dependency vulnerabilities: n" and no warning; with
    the section empty it records the warning "Dependency scan results not
    found" and no passed check. *)
Theorem C8_lodash_finding_and_dependency_check {rt : Runtime}
  (report : json) (g : gate) (section : list (string * json))
  (npm_audit v : json) (n : Z) :
  py_get report "dependency_scan" (JObj []) = Ok (JObj section) ->
  lookup "npm_audit" section = Some npm_audit ->
  py_getitem npm_audit "vulnerabilities" = Ok v ->
  py_len v = Ok n ->
  n <= 10 ->
  warn_dependency_issues (gate_config g) = 10 ->
  Scanner.dependency_issues (Scanner.scan_project world_lodash)
    = [Scanner.VulnerableDependency "lodash" "package.json"]
  /\ Scanner.medium_severity_count (Scanner.scan_project world_lodash) = 1
  /\ py_get (Scanner.dependency_to_json
               (Scanner.VulnerableDependency "lodash" "package.json"))
            "severity" JNull = Ok (JStr "medium")
  /\ (forall w r package_file content,
        Scanner.path_exists w package_file = true ->
        Scanner.read_text w package_file = Some content ->
        Scanner.dependency_issues (Scanner.scan_manifest w r package_file)
        = Scanner.dependency_issues r ++ manifest_findings package_file content)
  /\ check_dependency_issues report g
     = Ok (add_passed ("✅ Dependency vulnerabilities: " +++ str_of_Z n) g)
  /\ (forall report' empty_section g',
        py_get report' "dependency_scan" (JObj []) = Ok empty_section ->
        truthy empty_section = false ->
        check_dependency_issues report' g'
        = Ok (add_warning "⚠️ Dependency scan results not found" g')).
Proof.
  intros Hsec Hnpm Hv Hlen Hn Hw.
  split; [reflexivity|]. split; [reflexivity|]. split; [reflexivity|].
  split; [apply scan_manifest_findings|]. split.
  - unfold check_dependency_issues. rewrite Hsec. cbn [bind].
    assert (Ht : truthy (JObj section) = true).
    { destruct section; [discriminate Hnpm | reflexivity]. }
    rewrite Ht. cbn [negb py_get]. rewrite Hnpm. cbn [bind].
    assert (Hin : py_in "vulnerabilities" npm_audit = Ok true).
    { destruct npm_audit; try discriminate Hv. simpl in *.
      destruct (lookup "vulnerabilities" m); [reflexivity | discriminate Hv]. }
    rewrite Hin. cbn [bind]. rewrite Hv. cbn [bind]. rewrite Hlen. cbn [bind].
    unfold warn_above. rewrite Hw.
    destruct (Z.gtb_spec n 10); [lia | reflexivity].
  - intros report' empty_section g' Hs He.
    unfold check_dependency_issues. rewrite Hs. cbn [bind]. rewrite He.
    reflexivity.
Qed.

(** A report whose npm-audit document lists one vulnerability. *)
Definition report_one_vulnerability : json :=
  JObj [("dependency_scan",
         JObj [("npm_audit",
                JObj [("vulnerabilities",
                       JObj [("lodash", JObj [("severity", JStr "high")])])])]);
        ("compliance_scan", Scanner.artifact lodash_scan);
        ("summary", zero_summary)]%string.

Lemma C8_witness_one_npm_vulnerability_passes :
  check_dependency_issues report_one_vulnerability init_gate
  = Ok (add_passed "✅ Dependency vulnerabilities: 1" init_gate).
Proof.
  apply (@C8_lodash_finding_and_dependency_check idle_runtime
           report_one_vulnerability init_gate
           [("npm_audit",
             JObj [("vulnerabilities",
                    JObj [("lodash", JObj [("severity", JStr "high")])])])]%string
           (JObj [("vulnerabilities",
                   JObj [("lodash", JObj [("severity", JStr "high")])])]%string)
           (JObj [("lodash", JObj [("severity", JStr "high")])]%string)
           1);
    try reflexivity; lia.
Defined.

End DependencyClaims.

(* ================================================================== *)
(** ** From aggregator to gate                                        *)
(* ================================================================== *)

Section PipelineFacts.
Import Fs Reporter ReporterFacts Gate GateFacts.

Lemma lookup_dict_set_same k v m : lookup k (dict_set k v m) = Some v.
Proof.
  induction m as [|[k' v'] m IH]; simpl.
  - rewrite String.eqb_refl. reflexivity.
  - destruct (String.eqb k k') eqn:E; simpl.
    + rewrite String.eqb_refl. reflexivity.
    + rewrite E. exact IH.
Qed.

Lemma lookup_dict_set_other k k' v m :
  String.eqb k k' = false -> lookup k (dict_set k' v m) = lookup k m.
Proof.
  intro Hk. induction m as [|[k0 v0] m IH]; simpl.
  - rewrite Hk. reflexivity.
  - destruct (String.eqb k' k0) eqn:E; simpl.
    + apply String.eqb_eq in E. subst k0. rewrite Hk. reflexivity.
    + destruct (String.eqb k k0); [reflexivity | exact IH].
Qed.

(** The npm-audit document of a dependency section, if there is one, is
    one the aggregator could count: it has no [vulnerabilities] member,
    or that member is an object. *)
Definition npm_entry_ok (section : list (string * json)) : Prop :=
  match lookup "npm_audit" section with
  | None => True
  | Some data =>
      py_in "vulnerabilities" data = Ok false
      \/ exists items, py_in "vulnerabilities" data = Ok true
                       /\ py_getitem data "vulnerabilities" = Ok (JObj items)
  end.

Lemma count_vulnerability_section rd item rd' :
  count_vulnerability rd item = Ok rd' -> dependency_scan rd' = dependency_scan rd.
Proof.
  unfold count_vulnerability. intro H. bind_ok H. bind_ok H.
  inversion H; subst. reflexivity.
Qed.

Lemma count_file_result_section rd fr rd' :
  count_file_result rd fr = Ok rd' -> dependency_scan rd' = dependency_scan rd.
Proof.
  unfold count_file_result. intro H. bind_ok H. destruct a.
  - bind_ok H. bind_ok H.
    refine (foldM_invariant (fun b => dependency_scan b = dependency_scan rd)
              _ _ _ _ _ _ H); [|reflexivity].
    intros b m b' Hb Hm. unfold count_message in Hm. bind_ok Hm.
    destruct (is_int 2 a1); inversion Hm; subst; exact Hb.
  - inversion H; subst. reflexivity.
Qed.

Lemma npm_step_entry d rd rd' :
  process_npm_audit_results d rd = Ok rd' ->
  npm_entry_ok (dependency_scan rd) -> npm_entry_ok (dependency_scan rd').
Proof.
  unfold process_npm_audit_results. intros H Hok.
  destruct (load_artifact d "**/npm-audit.json") as [data|];
    [|inversion H; subst; exact Hok].
  bind_ok H. destruct a.
  - bind_ok H. bind_ok H.
    assert (Hv : a = JObj a0) by (destruct a; inversion E1; reflexivity).
    subst a.
    assert (Hs : dependency_scan rd'
                 = dict_set "npm_audit" data (dependency_scan rd)).
    { refine (foldM_invariant
                (fun b => dependency_scan b
                          = dict_set "npm_audit" data (dependency_scan rd))
                _ _ _ _ _ _ H); [|reflexivity].
      intros b it b' Hb Hit. rewrite (count_vulnerability_section _ _ _ Hit).
      exact Hb. }
    unfold npm_entry_ok. rewrite Hs, lookup_dict_set_same. right. eauto.
  - inversion H; subst. unfold npm_entry_ok. cbn [dependency_scan set_dependency_scan].
    rewrite lookup_dict_set_same. left. exact E.
Qed.

Lemma audit_ci_step_entry d rd rd' :
  process_audit_ci_results d rd = Ok rd' ->
  npm_entry_ok (dependency_scan rd) -> npm_entry_ok (dependency_scan rd').
Proof.
  unfold process_audit_ci_results. intros H Hok.
  destruct (load_artifact d "**/audit-ci-results.json") as [data|];
    inversion H; subst; [|exact Hok].
  unfold npm_entry_ok in *. cbn [dependency_scan set_dependency_scan].
  rewrite lookup_dict_set_other; [exact Hok | reflexivity].
Qed.

Lemma eslint_step_section d rd rd' :
  process_eslint_results d rd = Ok rd' -> dependency_scan rd' = dependency_scan rd.
Proof.
  unfold process_eslint_results. intro H.
  destruct (load_artifact d "**/eslint-security.json") as [[| | | |data|]|];
    try (inversion H; subst; reflexivity).
  refine (foldM_invariant (fun b => dependency_scan b = dependency_scan rd)
            _ _ _ _ _ _ H); [|reflexivity].
  intros b fr b' Hb Hfr. rewrite (count_file_result_section _ _ _ Hfr). exact Hb.
Qed.

Lemma compliance_step_section d rd rd' :
  process_compliance_results d rd = Ok rd' ->
  dependency_scan rd' = dependency_scan rd.
Proof.
  unfold process_compliance_results. intro H.
  destruct (load_artifact d "**/compliance-scan-results.json") as [data|];
    [|inversion H; subst; reflexivity].
  repeat bind_ok H. inversion H; subst. reflexivity.
Qed.

Lemma process_all_entry d t rd :
  process_all d t = Ok rd -> npm_entry_ok (dependency_scan rd).
Proof.
  unfold process_all. intro H. bind_ok H. bind_ok H. bind_ok H.
  rewrite (compliance_step_section _ _ _ H), (eslint_step_section _ _ _ E1).
  eapply audit_ci_step_entry; [exact E0|].
  eapply npm_step_entry; [exact E|]. exact I.
Qed.

(** The checks on a report as the aggregator writes it. *)
Lemma critical_check_on_written rd g :
  exists g', check_critical_issues (report_to_json rd) g = Ok g'.
Proof.
  unfold check_critical_issues, report_to_json, summary_to_json.
  cbn [py_get lookup String.eqb Ascii.eqb Bool.eqb andb bind as_int].
  eexists. reflexivity.
Qed.

Lemma medium_check_on_written rd g :
  exists g', check_medium_issues (report_to_json rd) g = Ok g'.
Proof.
  unfold check_medium_issues, report_to_json, summary_to_json.
  cbn [py_get lookup String.eqb Ascii.eqb Bool.eqb andb bind as_int].
  eexists. reflexivity.
Qed.

Lemma compliance_check_on_written rd c g :
  generate_markdown_summary rd = Ok c ->
  exists g', check_compliance_issues (report_to_json rd) g = Ok g'.
Proof.
  unfold generate_markdown_summary, check_compliance_issues, report_to_json.
  cbn [py_get lookup String.eqb Ascii.eqb Bool.eqb andb bind].
  destruct (truthy (compliance_scan rd)); cbn [negb]; intro H.
  - bind_ok H. bind_ok H. bind_ok H. bind_ok H. bind_ok H.
    cbn [bind]. rewrite E1. cbn [bind]. rewrite E3. cbn [bind].
    eexists. reflexivity.
  - eexists. reflexivity.
Qed.

Lemma dependency_check_on_written rd g :
  npm_entry_ok (dependency_scan rd) ->
  exists g', check_dependency_issues (report_to_json rd) g = Ok g'.
Proof.
  unfold npm_entry_ok, check_dependency_issues, report_to_json.
  cbn [py_get lookup String.eqb Ascii.eqb Bool.eqb andb bind].
  destruct (truthy (JObj (dependency_scan rd))); cbn [negb];
    [|eexists; reflexivity].
  destruct (lookup "npm_audit" (dependency_scan rd)) as [data|].
  - intros [Hno|(items & Hin & Hget)].
    + rewrite Hno. cbn [bind]. eexists. reflexivity.
    + rewrite Hin. cbn [bind]. rewrite Hget. cbn [bind py_len].
      eexists. reflexivity.
  - intros _. cbn [py_in lookup bind]. eexists. reflexivity.
Qed.

Lemma required_check_on_object m names :
  forall g, exists g', foldM (check_required_scan (JObj m)) names g = Ok g'.
Proof.
  induction names as [|n names IH]; intro g; cbn [foldM].
  - eexists. reflexivity.
  - unfold check_required_scan at 1. cbn [py_in py_getitem].
    destruct (lookup n m); cbn [bind]; apply IH.
Qed.

End PipelineFacts.

Section PipelineClaims.
Import Fs Reporter ReporterFacts Gate GateFacts.

Lemma run_checks_on_written rd c :
  npm_entry_ok (dependency_scan rd) ->
  generate_markdown_summary rd = Ok c ->
  exists g, run_checks (report_to_json rd) init_gate = Ok g.
Proof.
  intros Hnpm Hmd. unfold run_checks.
  destruct (critical_check_on_written rd init_gate) as [g1 ->]. cbn [bind].
  destruct (compliance_check_on_written rd c g1 Hmd) as [g2 ->]. cbn [bind].
  destruct (dependency_check_on_written rd g2 Hnpm) as [g3 ->]. cbn [bind].
  unfold check_required_scans.
  destruct (required_check_on_object
              [("scan_timestamp", JStr (scan_timestamp rd));
               ("codeql_results", JObj (codeql_results rd));
               ("dependency_scan", JObj (dependency_scan rd));
               ("eslint_security", JObj (eslint_security rd));
               ("semgrep_results", JObj (semgrep_results rd));
               ("compliance_scan", compliance_scan rd);
               ("summary", summary_to_json (summary rd));
               ("recommendations",
                JArr (map recommendation_to_json (recommendations rd)))]%string
              (required_scans (gate_config g3)) g3) as [g4 H4].
  change (JObj _) with (report_to_json rd) in H4. rewrite H4. cbn [bind].
  apply medium_check_on_written.
Qed.

(** The report of every aggregation that completes is one the gate
    evaluates to the end: no check raises on it, the checks leave the
    entries [expected_entries] names (critical, high, secrets and payment
    or the one violation for an empty compliance section, dependency, the
    two required sections, medium), each in its list and in this order,
    and the exit status is 0 exactly when no violation was recorded. *)
Theorem gate_evaluates_every_written_report
  (d : disk) (t : string) (rd : report_data) :
  generate_reports d t = Ok rd ->
  exists code g,
    run_security_gate (report_on_disk (report_to_json rd)) = Exited code g
    /\ run_checks (report_to_json rd) init_gate = Ok g
    /\ (code = 0 <-> violations g = [])
    /\ (code = 1 <-> violations g <> [])
    /\ entries g = (6 + (if truthy (compliance_scan rd) then 2 else 1))%nat
    /\ violations g = recorded Violation (expected_entries (report_to_json rd))
    /\ warnings g = recorded Warning (expected_entries (report_to_json rd))
    /\ passed_checks g = recorded Passed (expected_entries (report_to_json rd)).
Proof.
  intro H.
  assert (Hfacts : npm_entry_ok (dependency_scan rd)
                   /\ exists c, generate_markdown_summary rd = Ok c).
  { unfold generate_reports in H. bind_ok H. bind_ok H. bind_ok H.
    inversion H; subst. split; [|eauto].
    destruct (generate_recommendations_shape a rd E0) as (sec & pay & -> & _).
    cbn [dependency_scan set_recommendations].
    eapply process_all_entry, E. }
  destruct Hfacts as [Hnpm [c Hmd]].
  destruct (run_checks_on_written rd c Hnpm Hmd) as [g Hg].
  pose proof (run_checks_grown _ _ Hg) as [He _].
  pose proof (run_checks_entries _ _ Hg) as (Hv & Hw & Hp).
  rewrite (run_on_parsed (report_on_disk (report_to_json rd))
                         (report_to_json rd) eq_refl).
  cbn [truthy report_to_json negb]. change (JObj _) with (report_to_json rd).
  rewrite Hg.
  assert (Hc : has_compliance (report_to_json rd) = truthy (compliance_scan rd))
    by reflexivity.
  rewrite Hc in He.
  destruct (violations g) eqn:V.
  - exists 0, g. repeat split; try congruence; try lia; assumption.
  - exists 1, g. repeat split; try congruence; try lia; assumption.
Qed.

(** The entries of the gate on the report of the project with one planted
    secret and no dependency artifact: three violations, one warning,
    four passed checks. *)
Lemma gate_evaluates_report_of_one_secret :
  exists rd code g,
    generate_reports disk_one_secret "2024-05-01T12:05:00" = Ok rd
    /\ run_security_gate (report_on_disk (report_to_json rd)) = Exited code g
    /\ (code = 0 <-> violations g = [])
    /\ violations g = ["❌ Critical issues found: 1 (max allowed: 0)";
                       "❌ Secrets found in code: 1 (max allowed: 0)";
                       "❌ Required scan missing: dependency_scan"]%string
    /\ warnings g = ["⚠️ Dependency scan results not found"]%string
    /\ passed_checks g = ["✅ High severity issues: 0";
                          "✅ Payment data issues: 0";
                          "✅ Required scan completed: compliance_scan";
                          "✅ Medium severity issues: 0"]%string.
Proof.
  eexists.
  destruct (gate_evaluates_every_written_report
              disk_one_secret "2024-05-01T12:05:00" _ eq_refl)
    as (code & g & Hrun & _ & Hiff & _ & _ & Hv & Hw & Hp).
  exists code, g. split; [reflexivity|]. split; [exact Hrun|].
  split; [exact Hiff|].
  split; [exact Hv|]. split; [exact Hw | exact Hp].
Defined.

(** A counted finding advances the total and exactly one bucket by one,
    and a severity outside the vocabulary goes to the info bucket. *)
Theorem unknown_severity_is_counted_as_info (severity : string) (rd : report_data) :
  existsb (String.eqb (lower severity)) (map fst severity_map) = false ->
  summary (increment_severity_count severity rd)
  = {| total_issues := total_issues (summary rd) + 1;
       critical_count := critical_count (summary rd);
       high_count := high_count (summary rd);
       medium_count := medium_count (summary rd);
       low_count := low_count (summary rd);
       info_count := info_count (summary rd) + 1 |}.
Proof.
  unfold increment_severity_count, severity_map.
  cbn [map fst existsb map_get]. intro H.
  repeat (apply orb_false_iff in H; destruct H as [? H]).
  repeat match goal with
         | E : String.eqb _ _ = false |- _ => rewrite E; clear E
         end.
  reflexivity.
Qed.

Lemma unknown_severity_example :
  summary (increment_severity_count "unknown" (init_report "t"))
  = {| total_issues := 1; critical_count := 0; high_count := 0;
       medium_count := 0; low_count := 0; info_count := 1 |}.
Proof.
  apply (unknown_severity_is_counted_as_info "unknown" (init_report "t")).
  reflexivity.
Defined.

End PipelineClaims.

(* ================================================================== *)
(** ** Scenarios                                                      *)
(* ================================================================== *)

Section Scenarios.
Import Fs Reporter Gate.

Definition nl : string := String newline EmptyString.

(** Three comment lines, then a planted secret on the fourth. *)
Definition planted_prefix : string :=
  "// one" +++ nl +++ "// two" +++ nl +++ "// three" +++ nl.

Definition planted : string :=
  planted_prefix +++ "api_key: " +++ quote "abcdef0123456789" +++ nl.

Example match_after_three_newlines_is_on_line_4 :
  Scanner.line_of planted (String.length planted_prefix) = 4
  /\ Scanner.f_line (Scanner.secret_info "api_key" "src/config.ts" planted
                       (String.length planted_prefix)) = 4.
Proof. split; reflexivity. Qed.

Example manifest_rules_on_samples :
  map (fun rule => Re.search (snd rule) lodash_manifest) Scanner.vulnerable_packages
    = [true; false; false; false]
  /\ Re.search (snd (hd (EmptyString, Re.RNone) Scanner.vulnerable_packages))
               (quote "lodash" +++ " :  " +++ quote "4.17.21") = false
  /\ Re.search (Scanner.version_of "moment")
               (quote "moment" +++ ":" +++ quote "2.29.4") = true
  /\ Re.search (Re.quoted "node-uuid") (quote "uuid") = false.
Proof. repeat split. Qed.

Example secret_blocks_the_gate :
  exists g,
    run_security_gate (report_on_disk report_one_secret) = Exited 1 g
    /\ violations g = ["❌ Critical issues found: 1 (max allowed: 0)";
                       "❌ Secrets found in code: 1 (max allowed: 0)"]%string
    /\ warnings g = [].
Proof.
  eexists. split; [vm_compute; reflexivity|]. split; reflexivity.
Qed.

(** Aggregating the result of a scan that found nothing. *)
Example empty_scan_aggregates_to_one_info_recommendation :
  exists rd,
    generate_reports
      (disk_with compliance_pattern "compliance-scan-results.json"
         (Parsed (Scanner.results_to_json
                    (Scanner.set_timestamp "2024-05-01T12:00:00"
                                           Scanner.init_results))))
      "2024-05-01T12:05:00" = Ok rd
    /\ summary rd = summary (init_report "2024-05-01T12:05:00")
    /\ recommendations rd = [rec_no_issues].
Proof.
  eexists. split; [vm_compute; reflexivity|]. split; reflexivity.
Qed.

Example dependency_findings_alone_exit_0 :
  Scanner.exit_status lodash_scan = 0
  /\ Scanner.medium_severity_count (Scanner.scan_results lodash_scan) = 1
  /\ Scanner.high_severity_count (Scanner.scan_results lodash_scan) = 0.
Proof. repeat split. Qed.

End Scenarios.

(* ================================================================== *)
(** ** What the total counts                                          *)
(* ================================================================== *)

Section TotalFacts.
Import Fs Reporter ReporterFacts.

(** A tally of the compliance ScanResult as the aggregator reads it. *)
Definition folded_tally (data : json) (key : string) : res Z :=
  v <- py_get data key (JInt 0) ;; as_int v.

(** After an aggregation that completes, the buckets add up to the total
    plus the three tallies folded in from the compliance ScanResult, and
    to the total alone when none was loaded: the total counts the
    npm-audit and ESLint findings only. *)
Theorem buckets_exceed_total_by_folded_tallies
  (d : disk) (t : string) (rd : report_data) :
  generate_reports d t = Ok rd ->
  match load_artifact d compliance_pattern with
  | None => bucket_sum (summary rd) = total_issues (summary rd)
  | Some data =>
      exists h m l,
        folded_tally data "high_severity_count" = Ok h
        /\ folded_tally data "medium_severity_count" = Ok m
        /\ folded_tally data "low_severity_count" = Ok l
        /\ bucket_sum (summary rd) = total_issues (summary rd) + h + m + l
  end.
Proof.
  intro H.
  destruct (generate_reports_split d t rd H) as (rd0 & Hall & Hrec).
  destruct (generate_recommendations_shape rd0 rd Hrec) as (sec & pay & -> & _).
  cbn [summary set_recommendations].
  rewrite process_all_split in Hall. bind_ok Hall.
  destruct (process_optional_pristine d t a E) as [(Hb & _) _].
  unfold process_compliance_results in Hall. unfold compliance_pattern.
  destruct (load_artifact d "**/compliance-scan-results.json") as [data|].
  - bind_ok Hall. bind_ok Hall. bind_ok Hall. bind_ok Hall.
    bind_ok Hall. bind_ok Hall. inversion Hall; subst rd0; clear Hall.
    exists a1, a3, a5. unfold folded_tally.
    rewrite E0, E2, E4. cbn [bind]. rewrite E1, E3, E5.
    repeat split. unfold bucket_sum in *. simpl. lia.
  - inversion Hall; subst rd0. symmetry. exact Hb.
Qed.

Lemma buckets_exceed_total_with_one_secret :
  exists rd h m l,
    generate_reports disk_one_secret "2024-05-01T12:05:00" = Ok rd
    /\ h + m + l = 1
    /\ bucket_sum (summary rd) = total_issues (summary rd) + h + m + l.
Proof.
  eexists.
  destruct (buckets_exceed_total_by_folded_tallies
              disk_one_secret "2024-05-01T12:05:00" _ eq_refl)
    as (h & m & l & Hh & Hm & Hl & Hsum).
  exists h, m, l. split; [reflexivity|]. split; [|exact Hsum].
  inversion Hh; inversion Hm; inversion Hl. reflexivity.
Defined.

End TotalFacts.

(* ================================================================== *)
(** ** More about the scanner: file selection and the scan pass        *)
(* ================================================================== *)

Section FileSelection.
Import Scanner.
Local Open Scope string_scope.

Lemma is_prefix_spec p : forall s,
  is_prefix p s = true <-> exists b, s = p ++ b.
Proof.
  induction p as [|a p IH]; intro s; simpl.
  - split; [intros _; exists s; reflexivity | reflexivity].
  - destruct s as [|c s].
    + split; [discriminate | intros (b & E); discriminate].
    + rewrite andb_true_iff, Ascii.eqb_eq, IH. split.
      * intros (-> & b & ->). exists b. reflexivity.
      * intros (b & E). inversion E; subst. split; [reflexivity | eauto].
Qed.

(** [contains] is the substring test. *)
Lemma contains_spec sub s :
  contains sub s = true <-> exists a b, s = a ++ sub ++ b.
Proof.
  induction s as [|c s IH]; simpl.
  - rewrite orb_false_r, is_prefix_spec. split.
    + intros (b & E). exists EmptyString, b. exact E.
    + intros (a & b & E). destruct a; [|discriminate]. exists b. exact E.
  - rewrite orb_true_iff, IH.
    pose proof (is_prefix_spec sub (String c s)) as P. simpl in P. rewrite P.
    split.
    + intros [(b & E)|(a & b & ->)].
      * exists EmptyString, b. exact E.
      * exists (String c a), b. reflexivity.
    + intros (a & b & E). destruct a as [|x a].
      * left. exists b. exact E.
      * right. simpl in E. inversion E; subst. eauto.
Qed.

(** The files [get_typescript_files] returns are exactly the paths some
    glob pattern yields that contain none of the excluded fragments
    anywhere in the path (so [src/rebuild/x.ts], which contains
    [build/], is left out like [build/x.ts]). *)
Theorem scanned_paths_are_globbed_and_free_of_excluded_fragments
  (w : world) (f : string) :
  In f (get_typescript_files w)
  <-> (exists pattern, In pattern glob_patterns /\ In f (glob w pattern))
      /\ (forall fragment a b, In fragment excludes -> f <> a ++ fragment ++ b).
Proof.
  unfold get_typescript_files. rewrite filter_In, in_flat_map, negb_true_iff.
  split.
  - intros [Hg Hx]. split; [exact Hg|].
    intros fragment a b Hin E.
    assert (C : existsb (fun exclude => contains exclude f) excludes = true).
    { apply existsb_exists. exists fragment. split; [exact Hin|].
      apply contains_spec. eauto. }
    congruence.
  - intros [Hg Hx]. split; [exact Hg|].
    destruct (existsb (fun exclude => contains exclude f) excludes) eqn:C;
      [|reflexivity].
    apply existsb_exists in C. destruct C as (fragment & Hin & Hc).
    apply contains_spec in Hc. destruct Hc as (a & b & E).
    exfalso. exact (Hx fragment a b Hin E).
Qed.

End FileSelection.

Section ScanPass.
Import Scanner ScannerFacts.
Context {rt : Runtime}.
Variable w : world.

(** The findings of one file: those of its text, none when it cannot be
    read. *)
Definition file_secrets (filepath : string) : list finding :=
  match read_text w filepath with
  | Some content => secrets_of filepath content
  | None => []
  end.

Definition file_payments (filepath : string) : list finding :=
  match read_text w filepath with
  | Some content => payments_of filepath content
  | None => []
  end.

(** The findings of the manifests that exist and can be read. *)
Definition manifest_issues (package_file : string) : list dependency_issue :=
  if path_exists w package_file
  then match read_text w package_file with
       | Some content => manifest_findings package_file content
       | None => []
       end
  else [].

Lemma scan_project_file_fields r filepath :
  secrets_found (scan_project_file w r filepath)
    = secrets_found r ++ file_secrets filepath
  /\ payment_issues (scan_project_file w r filepath)
     = payment_issues r ++ file_payments filepath
  /\ dependency_issues (scan_project_file w r filepath) = dependency_issues r
  /\ scanned_files (scan_project_file w r filepath) = scanned_files r + 1
  /\ scan_timestamp (scan_project_file w r filepath) = scan_timestamp r.
Proof.
  unfold scan_project_file, file_secrets, file_payments.
  pose proof (scan_file_advanced w filepath r) as H.
  destruct (scan_file w filepath r) as [fr r'].
  destruct (read_text w filepath) as [content|].
  - destruct H as (Hs & Hp & _ & _ & _ & _ & Hsf & Hpi & Hdi & Hts & Hn).
    simpl in *. rewrite Hs, Hp, Hsf, Hpi, Hdi, Hts, Hn. repeat split.
  - inversion H; subst. simpl. repeat split.
Qed.

Lemma scan_files_fields files : forall r,
  secrets_found (fold_left (scan_project_file w) files r)
    = secrets_found r ++ flat_map file_secrets files
  /\ payment_issues (fold_left (scan_project_file w) files r)
     = payment_issues r ++ flat_map file_payments files
  /\ dependency_issues (fold_left (scan_project_file w) files r)
     = dependency_issues r
  /\ scanned_files (fold_left (scan_project_file w) files r)
     = scanned_files r + Z.of_nat (List.length files)
  /\ scan_timestamp (fold_left (scan_project_file w) files r) = scan_timestamp r.
Proof.
  induction files as [|f files IH]; intro r.
  - simpl. rewrite !app_nil_r. repeat split. lia.
  - cbn [fold_left flat_map List.length].
    destruct (IH (scan_project_file w r f)) as (A & B & C & D & E).
    destruct (scan_project_file_fields r f) as (A' & B' & C' & D' & E').
    rewrite A, B, C, D, E, A', B', C', D', E', <- !app_assoc.
    repeat split. lia.
Qed.

(** What [scan_dependencies] and [run_npm_audit] leave alone. *)
Definition same_file_findings (r r' : results) : Prop :=
  secrets_found r' = secrets_found r /\ payment_issues r' = payment_issues r
  /\ scanned_files r' = scanned_files r /\ scan_timestamp r' = scan_timestamp r.

Lemma same_file_findings_trans r1 r2 r3 :
  same_file_findings r1 r2 -> same_file_findings r2 r3 ->
  same_file_findings r1 r3.
Proof.
  unfold same_file_findings. intros (A & B & C & D) (A' & B' & C' & D').
  repeat split; congruence.
Qed.

Lemma package_step_fields package_file content r rule :
  same_file_findings r (package_step package_file content r rule)
  /\ high_severity_count (package_step package_file content r rule)
     = high_severity_count r
  /\ low_severity_count (package_step package_file content r rule)
     = low_severity_count r
  /\ medium_severity_count (package_step package_file content r rule)
     = medium_severity_count r
       + (if Re.search (snd rule) content then 1 else 0).
Proof.
  unfold package_step, same_file_findings.
  destruct (Re.search (snd rule) content); simpl; repeat split; lia.
Qed.

Lemma package_loop_fields package_file content rules : forall r,
  same_file_findings r (fold_left (package_step package_file content) rules r)
  /\ high_severity_count (fold_left (package_step package_file content) rules r)
     = high_severity_count r
  /\ low_severity_count (fold_left (package_step package_file content) rules r)
     = low_severity_count r
  /\ medium_severity_count
       (fold_left (package_step package_file content) rules r)
     = medium_severity_count r
       + Z.of_nat (List.length
                     (filter (fun rule => Re.search (snd rule) content) rules)).
Proof.
  induction rules as [|rule rules IH]; intro r; cbn [fold_left filter].
  - unfold same_file_findings. simpl. repeat split. lia.
  - destruct (IH (package_step package_file content r rule))
      as (S & H & L & M).
    destruct (package_step_fields package_file content r rule)
      as (S' & H' & L' & M').
    rewrite H, L, M, H', L', M'.
    split; [eapply same_file_findings_trans; eassumption|].
    repeat split.
    destruct (Re.search (snd rule) content); cbn [List.length];
      rewrite ?Nat2Z.inj_succ; lia.
Qed.

Lemma scan_manifest_fields r package_file :
  let r' := scan_manifest w r package_file in
  same_file_findings r r'
  /\ high_severity_count r' = high_severity_count r
  /\ low_severity_count r' = low_severity_count r
  /\ medium_severity_count r'
     = medium_severity_count r
       + Z.of_nat (List.length (manifest_issues package_file))
  /\ dependency_issues r' = dependency_issues r ++ manifest_issues package_file.
Proof.
  unfold scan_manifest, manifest_issues, manifest_findings.
  destruct (path_exists w package_file);
    [destruct (read_text w package_file) as [content|]|].
  - destruct (package_loop_fields package_file content vulnerable_packages r)
      as (S & H & L & M).
    cbv zeta. rewrite length_map, package_loop. auto.
  - simpl. rewrite app_nil_r. unfold same_file_findings. repeat split. lia.
  - simpl. rewrite app_nil_r. unfold same_file_findings. repeat split. lia.
Qed.

Lemma scan_manifests_fields files : forall r,
  let r' := fold_left (scan_manifest w) files r in
  same_file_findings r r'
  /\ high_severity_count r' = high_severity_count r
  /\ low_severity_count r' = low_severity_count r
  /\ medium_severity_count r'
     = medium_severity_count r
       + Z.of_nat (List.length (flat_map manifest_issues files))
  /\ dependency_issues r' = dependency_issues r ++ flat_map manifest_issues files.
Proof.
  induction files as [|f files IH]; intro r.
  - simpl. rewrite app_nil_r. unfold same_file_findings. repeat split. lia.
  - cbn [fold_left flat_map].
    destruct (IH (scan_manifest w r f)) as (S & H & L & M & D).
    destruct (scan_manifest_fields r f) as (S' & H' & L' & M' & D').
    cbv zeta in *. rewrite H, L, M, D, H', L', M', D', length_app, <- app_assoc.
    split; [eapply same_file_findings_trans; eassumption|].
    repeat split. lia.
Qed.

(** [scan_dependencies] adds, manifest by manifest and rule by rule, one
    medium finding for each vulnerable-package rule whose expression
    occurs in a manifest that exists and can be read; a manifest that is
    missing or unreadable adds nothing.  The medium tally advances by the
    number of findings added; the high and low tallies, the file findings
    and the file counter are left as they were. *)
Theorem scan_dependencies_adds_one_medium_finding_per_rule_and_manifest
  (r : results) :
  dependency_issues (scan_dependencies w r)
    = dependency_issues r ++ flat_map manifest_issues package_files
  /\ medium_severity_count (scan_dependencies w r)
     = medium_severity_count r
       + Z.of_nat (List.length (flat_map manifest_issues package_files))
  /\ high_severity_count (scan_dependencies w r) = high_severity_count r
  /\ low_severity_count (scan_dependencies w r) = low_severity_count r
  /\ secrets_found (scan_dependencies w r) = secrets_found r
  /\ payment_issues (scan_dependencies w r) = payment_issues r
  /\ scanned_files (scan_dependencies w r) = scanned_files r.
Proof.
  unfold scan_dependencies.
  destruct (scan_manifests_fields package_files r)
    as ((A & B & C & _) & H & L & M & D).
  cbv zeta in *. repeat split; assumption.
Qed.

End ScanPass.

Section NpmAudit.
Import Scanner ScannerFacts.
Context {rt : Runtime}.
Variable w : world.

Definition is_object (v : json) : bool :=
  match v with
  | JObj _ => true
  | _ => false
  end.

(** The entries of npm's report up to the first one that is no object. *)
Fixpoint leading_objects (items : list (string * json)) : list (string * json) :=
  match items with
  | [] => []
  | item :: rest =>
      if is_object (snd item) then item :: leading_objects rest else []
  end.

(** A member of an entry, with the default the source gives. *)
Definition member (vuln_data : json) (key : string) (default : json) : json :=
  match vuln_data with
  | JObj m => match lookup key m with Some x => x | None => default end
  | _ => default
  end.

(** The tally npm's severity word goes to. *)
Definition tally_of (severity : json) : string :=
  if is_str "high" severity || is_str "critical" severity then "high"
  else if is_str "moderate" severity then "medium"
  else "low".

Definition count_tally (tally : string) (items : list (string * json)) : Z :=
  Z.of_nat (List.length
              (filter (fun item =>
                         String.eqb
                           (tally_of (member (snd item) "severity" (JStr "unknown")))
                           tally)
                      items)).

Definition npm_issue (item : string * json) : dependency_issue :=
  let severity := member (snd item) "severity" (JStr "unknown") in
  NpmAuditVulnerability (fst item) severity
    ("npm audit found " +++ py_str severity +++ " vulnerability in " +++ fst item)
    (member (snd item) "via" (JArr [])).

Lemma count_tally_cons tally item items :
  count_tally tally (item :: items)
  = (if String.eqb (tally_of (member (snd item) "severity" (JStr "unknown"))) tally
     then 1 else 0) + count_tally tally items.
Proof.
  unfold count_tally. cbn [filter].
  destruct (String.eqb _ tally); cbn [List.length];
    rewrite ?Nat2Z.inj_succ; lia.
Qed.

Lemma npm_loop_fields items : forall r,
  dependency_issues (npm_loop items r)
    = dependency_issues r ++ map npm_issue (leading_objects items)
  /\ high_severity_count (npm_loop items r)
     = high_severity_count r + count_tally "high" (leading_objects items)
  /\ medium_severity_count (npm_loop items r)
     = medium_severity_count r + count_tally "medium" (leading_objects items)
  /\ low_severity_count (npm_loop items r)
     = low_severity_count r + count_tally "low" (leading_objects items)
  /\ same_file_findings r (npm_loop items r).
Proof.
  induction items as [|[vuln_name vuln_data] items IH]; intro r.
  - unfold same_file_findings, count_tally. simpl. rewrite app_nil_r.
    repeat split; lia.
  - cbn [npm_loop leading_objects snd].
    destruct vuln_data as [| | | | |m];
      try (unfold same_file_findings, count_tally; simpl; rewrite app_nil_r;
           repeat split; lia).
    cbn [py_get is_object].
    set (severity := match lookup "severity" m with
                     | Some x => x
                     | None => JStr "unknown"
                     end).
    match goal with
    | |- context [npm_loop items ?r2] =>
        destruct (IH r2) as (D & H & M & L & S)
    end.
    rewrite D, H, M, L, !count_tally_cons. cbn [map].
    change (member (snd (vuln_name, JObj m)) "severity" (JStr "unknown"))
      with severity.
    assert (E : npm_issue (vuln_name, JObj m)
                = NpmAuditVulnerability vuln_name severity
                    ("npm audit found " +++ py_str severity
                     +++ " vulnerability in " +++ vuln_name)
                    (match lookup "via" m with
                     | Some x => x
                     | None => JArr []
                     end)) by reflexivity.
    rewrite E. unfold tally_of.
    destruct (is_str "high" severity || is_str "critical" severity);
      [|destruct (is_str "moderate" severity)];
      cbn [String.eqb Ascii.eqb Bool.eqb andb
           high_severity_count medium_severity_count low_severity_count
           dependency_issues incr_high incr_medium incr_low append_dependency];
      (split; [rewrite <- app_assoc; reflexivity|]);
      (split; [lia|]); (split; [lia|]); (split; [lia|]);
      (eapply same_file_findings_trans; [|exact S]);
      unfold same_file_findings; cbn; repeat split.
Qed.

(** [run_npm_audit] on a report whose [vulnerabilities] member is an
    object: it appends one finding per entry, in order, up to the first
    entry that is no object (the exception that entry raises ends the
    loop and is swallowed), and advances the high tally for the
    severities high and critical, the medium tally for moderate, and the
    low tally for every other severity, a missing one included. *)
Theorem npm_audit_findings_and_tallies
  (r : results) (data : json) (items : list (string * json)) :
  npm_audit w = NpmJson data ->
  py_getitem data "vulnerabilities" = Ok (JObj items) ->
  dependency_issues (run_npm_audit w r)
    = dependency_issues r ++ map npm_issue (leading_objects items)
  /\ high_severity_count (run_npm_audit w r)
     = high_severity_count r + count_tally "high" (leading_objects items)
  /\ medium_severity_count (run_npm_audit w r)
     = medium_severity_count r + count_tally "medium" (leading_objects items)
  /\ low_severity_count (run_npm_audit w r)
     = low_severity_count r + count_tally "low" (leading_objects items)
  /\ secrets_found (run_npm_audit w r) = secrets_found r
  /\ payment_issues (run_npm_audit w r) = payment_issues r.
Proof.
  intros Hn Hg. unfold run_npm_audit. rewrite Hn.
  assert (Hin : py_in "vulnerabilities" data = Ok true).
  { destruct data; try discriminate Hg. simpl in *.
    destruct (lookup "vulnerabilities" m); [reflexivity | discriminate Hg]. }
  rewrite Hin, Hg. cbn [bind py_items].
  destruct (npm_loop_fields items r) as (D & H & M & L & (A & B & _)).
  repeat split; assumption.
Qed.

(** Whatever npm printed, [run_npm_audit] only ever appends to the
    dependency findings and leaves the file findings alone; when npm
    could not be run, printed nothing, or printed no JSON, it changes
    nothing. *)
Lemma run_npm_audit_appends (r : results) :
  (exists added, dependency_issues (run_npm_audit w r)
                 = dependency_issues r ++ added)
  /\ same_file_findings r (run_npm_audit w r)
  /\ (match npm_audit w with NpmJson _ => True | _ => run_npm_audit w r = r end).
Proof.
  assert (Same : same_file_findings r r)
    by (unfold same_file_findings; repeat split).
  assert (Nil : exists added, dependency_issues r = dependency_issues r ++ added)
    by (exists []; rewrite app_nil_r; reflexivity).
  unfold run_npm_audit.
  destruct (npm_audit w) as [| | |data]; try (repeat split; assumption).
  split; [|split; [|exact I]].
  - destruct (py_in "vulnerabilities" data) as [[|]|]; try exact Nil.
    destruct (v <- py_getitem data "vulnerabilities" ;; py_items v)
      as [items|]; [|exact Nil].
    destruct (npm_loop_fields items r) as (D & _). eauto.
  - destruct (py_in "vulnerabilities" data) as [[|]|]; try exact Same.
    destruct (v <- py_getitem data "vulnerabilities" ;; py_items v)
      as [items|]; [|exact Same].
    destruct (npm_loop_fields items r) as (_ & _ & _ & _ & S). exact S.
Qed.

(** The result of a scan pass, field by field: the file counter counts
    every selected file, readable or not; the secret and payment findings
    are those of the readable files, in the order the files were
    selected; the dependency findings start with those of the manifests;
    and the timestamp is set. *)
Theorem scan_pass_collects_findings_file_by_file :
  scanned_files (scan_project w)
    = Z.of_nat (List.length (get_typescript_files w))
  /\ secrets_found (scan_project w)
     = flat_map (file_secrets w) (get_typescript_files w)
  /\ payment_issues (scan_project w)
     = flat_map (file_payments w) (get_typescript_files w)
  /\ (exists from_npm,
        dependency_issues (scan_project w)
        = flat_map (manifest_issues w) package_files ++ from_npm)
  /\ scan_timestamp (scan_project w) = Some (now w).
Proof.
  unfold scan_project.
  set (r1 := fold_left (scan_project_file w) (get_typescript_files w)
                       init_results).
  destruct (scan_files_fields w (get_typescript_files w) init_results)
    as (A1 & B1 & C1 & D1 & _). fold r1 in A1, B1, C1, D1.
  destruct (scan_manifests_fields w package_files r1)
    as ((A2 & B2 & C2 & _) & _ & _ & _ & D2).
  cbv zeta in A2, B2, C2, D2. fold (scan_dependencies w r1) in A2, B2, C2, D2.
  destruct (run_npm_audit_appends (scan_dependencies w r1))
    as ((added & D3) & (A3 & B3 & C3 & _) & _).
  cbn [scanned_files secrets_found payment_issues dependency_issues
       scan_timestamp set_timestamp].
  rewrite A3, B3, C3, D3, A2, B2, C2, D2, A1, B1, C1, D1.
  cbn [init_results secrets_found payment_issues dependency_issues
       scanned_files app]. repeat split; eauto.
Qed.

End NpmAudit.

Section NpmAuditSample.
Import Scanner.

(** A run time that renders a string as itself, which is what [str]
    does on a string; no pattern has a match. *)
Definition text_runtime : Runtime :=
  {| finditer_starts := fun _ _ => [];
     py_str := fun v => match v with JStr s => s | _ => EmptyString end |}.

Definition npm_entries : list (string * json) :=
  [("lodash", JObj [("severity", JStr "critical"); ("via", JArr [JStr "lodash"])]);
   ("minimist", JObj [("severity", JStr "moderate")]);
   ("debug", JObj []);
   ("broken", JStr "not an entry");
   ("qs", JObj [("severity", JStr "high")])]%string.

(** A project without files whose npm report has a malformed entry. *)
Definition world_npm : world :=
  {| glob := fun _ => [];
     read_text := fun _ => None;
     path_exists := fun _ => false;
     npm_audit := NpmJson (JObj [("vulnerabilities", JObj npm_entries)]%string);
     now := "2024-05-01T12:00:00" |}.

Lemma npm_audit_sample :
  List.length (dependency_issues (@run_npm_audit text_runtime world_npm init_results))
    = 3%nat
  /\ high_severity_count (@run_npm_audit text_runtime world_npm init_results) = 1
  /\ medium_severity_count (@run_npm_audit text_runtime world_npm init_results) = 1
  /\ low_severity_count (@run_npm_audit text_runtime world_npm init_results) = 1.
Proof.
  destruct (@npm_audit_findings_and_tallies text_runtime world_npm init_results
              (JObj [("vulnerabilities", JObj npm_entries)]%string) npm_entries
              eq_refl eq_refl) as (D & H & M & L & _).
  rewrite D, H, M, L. repeat split.
Defined.

End NpmAuditSample.

Section ManifestRules.
Import Scanner ScannerFacts Re ReFacts.
Variable w : world.

(** White space among the ASCII characters: tab, line feed, vertical
    tab, form feed, carriage return, the four separators 28 to 31, and
    the space. *)
Definition ascii_space (c : ascii) : bool :=
  let n := nat_of_ascii c in
  ((9 <=? n) && (n <=? 13) || (28 <=? n) && (n <=? 32))%nat.

Fixpoint all_ascii_space (s : string) : bool :=
  match s with
  | EmptyString => true
  | String c s' => ascii_space c && all_ascii_space s'
  end.

(** A text of ASCII characters only. *)
Fixpoint ascii_text (s : string) : bool :=
  match s with
  | EmptyString => true
  | String c s' => (nat_of_ascii c <? 128)%nat && ascii_text s'
  end.

(** The text holds the quoted package name, white space, a colon, white
    space and an opening quote: the start of a version entry. *)
Definition declares (package content : string) : Prop :=
  exists before ws1 ws2 after,
    content = before +++ quote package +++ ws1 +++ ":" +++ ws2 +++ dquote
              +++ after
    /\ all_ascii_space ws1 = true /\ all_ascii_space ws2 = true.

(** The same, with a character other than the digit 4 after the quote. *)
Definition declares_other_than_4 (package content : string) : Prop :=
  exists before ws1 ws2 c after,
    content = before +++ quote package +++ ws1 +++ ":" +++ ws2 +++ dquote
              +++ String c after
    /\ all_ascii_space ws1 = true /\ all_ascii_space ws2 = true
    /\ c <> "4"%char.

(** The text holds the quoted package name. *)
Definition mentions (package content : string) : Prop :=
  exists before after, content = before +++ quote package +++ after.

(** What the four rules of [vulnerable_packages] look for. *)
Definition flagged (package content : string) : Prop :=
  (package = "lodash"%string /\ declares_other_than_4 "lodash" content)
  \/ (package = "moment"%string /\ declares "moment" content)
  \/ (package = "node-uuid"%string /\ mentions "node-uuid" content)
  \/ (package = "request"%string /\ declares "request" content).

Fixpoint all_space (s : string) : bool :=
  match s with
  | EmptyString => true
  | String c s' => is_space c && all_space s'
  end.

Lemma ascii_space_is_space c : ascii_space c = true -> is_space c = true.
Proof.
  unfold ascii_space, is_space. intros ->. reflexivity.
Qed.

Lemma is_space_ascii c :
  (nat_of_ascii c <? 128)%nat = true -> is_space c = ascii_space c.
Proof.
  unfold ascii_space, is_space. intro H. apply Nat.ltb_lt in H.
  destruct (Nat.eqb_spec (nat_of_ascii c) 133) as [E|_]; [lia|].
  destruct (Nat.eqb_spec (nat_of_ascii c) 160) as [E|_]; [lia|].
  rewrite !orb_false_r. reflexivity.
Qed.

Lemma all_ascii_space_all_space s :
  all_ascii_space s = true -> all_space s = true.
Proof.
  induction s as [|c s IH]; simpl; [reflexivity|].
  intro H. apply andb_true_iff in H. destruct H as [A B].
  rewrite (ascii_space_is_space c A), IH; auto.
Qed.

Lemma all_space_ascii s :
  ascii_text s = true -> all_space s = true -> all_ascii_space s = true.
Proof.
  induction s as [|c s IH]; simpl; [reflexivity|].
  intros H S. apply andb_true_iff in H. destruct H as [A B].
  apply andb_true_iff in S. destruct S as [S1 S2].
  rewrite <- (is_space_ascii c A), S1, IH; auto.
Qed.

Lemma ascii_text_app a b :
  ascii_text (a +++ b) = ascii_text a && ascii_text b.
Proof.
  induction a as [|c a IH]; simpl; [reflexivity|].
  rewrite IH, andb_assoc. reflexivity.
Qed.

Lemma matches_lit s : forall p, matches (lit s) p <-> p = s.
Proof.
  induction s as [|c s IH]; intro p; simpl.
  - split; [intro H; inversion H; reflexivity | intros ->; constructor].
  - split.
    + intro H. inversion H as [| |r1 r2 s1 s2 H1 H2| | | |]; subst.
      inversion H1 as [|cs x Hx| | | | |]; subst. simpl in Hx.
      apply Ascii.eqb_eq in Hx. subst x. simpl. f_equal. apply IH, H2.
    + intros ->. change (String c s) with (String c EmptyString +++ s).
      constructor; [|apply IH; reflexivity].
      constructor. simpl. apply Ascii.eqb_refl.
Qed.

Lemma matches_cat r1 r2 p :
  matches (RCat r1 r2) p
  <-> exists p1 p2, p = p1 +++ p2 /\ matches r1 p1 /\ matches r2 p2.
Proof.
  split.
  - intro H. inversion H; subst. eauto.
  - intros (p1 & p2 & -> & H1 & H2). constructor; assumption.
Qed.

Lemma matches_spaces_forward r p :
  matches r p -> r = spaces -> all_space p = true.
Proof.
  induction 1 as [| | | | | |r s1 s2 H1 _ H2 IH2]; intro E;
    try discriminate E; [reflexivity|].
  unfold spaces in E. inversion E; subst r.
  inversion H1 as [|cs x Hx| | | | |]; subst. simpl in Hx |- *.
  rewrite Hx. apply IH2. reflexivity.
Qed.

Lemma matches_spaces p : matches spaces p <-> all_space p = true.
Proof.
  split; [intro H; eapply matches_spaces_forward; [exact H | reflexivity]|].
  induction p as [|c p IH]; simpl; intro H; [constructor|].
  apply andb_true_iff in H. destruct H as [A B].
  change (String c p) with (String c EmptyString +++ p).
  unfold spaces. constructor; [constructor; exact A | apply IH, B].
Qed.

Lemma matches_other_than c p :
  matches (RSet (CNot c)) p <-> exists x, p = String x EmptyString /\ x <> c.
Proof.
  split.
  - intro H. inversion H as [|cs x Hx| | | | |]; subst. simpl in Hx.
    exists x. split; [reflexivity|]. intros ->.
    rewrite Ascii.eqb_refl in Hx. discriminate Hx.
  - intros (x & -> & Hx). constructor. simpl.
    destruct (Ascii.eqb_spec c x) as [E|_]; [subst; contradiction | reflexivity].
Qed.

(** The language of a version expression. *)
Lemma matches_version package p :
  matches (version_of package) p
  <-> exists ws1 ws2,
        p = quote package +++ ws1 +++ ":" +++ ws2 +++ dquote
        /\ all_space ws1 = true /\ all_space ws2 = true.
Proof.
  unfold version_of, quoted. split.
  - intro H.
    apply matches_cat in H. destruct H as (p1 & q1 & -> & H1 & H).
    apply matches_cat in H. destruct H as (p2 & q2 & -> & H2 & H).
    apply matches_cat in H. destruct H as (p3 & q3 & -> & H3 & H).
    apply matches_cat in H. destruct H as (p4 & q4 & -> & H4 & H5).
    apply matches_lit in H1, H3, H5. subst p1 p3 q4.
    apply matches_spaces in H2, H4.
    exists p2, p4. repeat split; assumption.
  - intros (ws1 & ws2 & -> & S1 & S2). unfold quote.
    apply matches_cat. eexists _, _. split; [reflexivity|].
    split; [apply matches_lit; reflexivity|].
    apply matches_cat. eexists _, _. split; [reflexivity|].
    split; [apply matches_spaces, S1|].
    apply matches_cat. eexists _, _. split; [reflexivity|].
    split; [apply matches_lit; reflexivity|].
    apply matches_cat. eexists _, _. split; [reflexivity|].
    split; [apply matches_spaces, S2 | apply matches_lit; reflexivity].
Qed.

Lemma ascii_between before p after :
  ascii_text (before +++ p +++ after) = true -> ascii_text p = true.
Proof.
  rewrite !ascii_text_app. intro H.
  apply andb_true_iff in H. destruct H as [_ H].
  apply andb_true_iff in H. tauto.
Qed.

Lemma version_spaces_ascii package ws1 ws2 :
  ascii_text (quote package +++ ws1 +++ ":" +++ ws2 +++ dquote) = true ->
  ascii_text ws1 = true /\ ascii_text ws2 = true.
Proof.
  rewrite !ascii_text_app. intro H.
  repeat (apply andb_true_iff in H; destruct H as [? H]).
  repeat match goal with
         | A : _ && _ = true |- _ => apply andb_true_iff in A; destruct A
         end.
  split; assumption.
Qed.

(** The version expression is found in an ASCII text exactly when the
    text declares the package. *)
Lemma search_version package content :
  ascii_text content = true ->
  search (version_of package) content = true <-> declares package content.
Proof.
  intro A. rewrite search_finds_a_substring_of_the_language. split.
  - intros (before & p & after & -> & H).
    apply matches_version in H. destruct H as (ws1 & ws2 & -> & S1 & S2).
    destruct (version_spaces_ascii package ws1 ws2 (ascii_between _ _ _ A))
      as [A1 A2].
    exists before, ws1, ws2, after.
    split; [rewrite !append_assoc; reflexivity|].
    split; apply all_space_ascii; assumption.
  - intros (before & ws1 & ws2 & after & -> & S1 & S2).
    exists before, (quote package +++ ws1 +++ ":" +++ ws2 +++ dquote), after.
    split; [rewrite !append_assoc; reflexivity|].
    apply matches_version. exists ws1, ws2.
    split; [reflexivity|]. split; apply all_ascii_space_all_space; assumption.
Qed.

Lemma search_version_other_than_4 package content :
  ascii_text content = true ->
  search (RCat (version_of package) (RSet (CNot "4"))) content = true
  <-> declares_other_than_4 package content.
Proof.
  intro A. rewrite search_finds_a_substring_of_the_language. split.
  - intros (before & p & after & -> & H).
    apply matches_cat in H. destruct H as (p1 & p2 & -> & H1 & H2).
    apply matches_version in H1. destruct H1 as (ws1 & ws2 & -> & S1 & S2).
    apply matches_other_than in H2. destruct H2 as (c & -> & Hc).
    assert (A' : ascii_text (quote package +++ ws1 +++ ":" +++ ws2 +++ dquote)
                 = true).
    { apply ascii_between in A. rewrite ascii_text_app in A.
      apply andb_true_iff in A. tauto. }
    destruct (version_spaces_ascii package ws1 ws2 A') as [A1 A2].
    exists before, ws1, ws2, c, after.
    split; [rewrite !append_assoc; reflexivity|].
    split; [apply all_space_ascii; assumption|].
    split; [apply all_space_ascii; assumption | exact Hc].
  - intros (before & ws1 & ws2 & c & after & -> & S1 & S2 & Hc).
    exists before,
      ((quote package +++ ws1 +++ ":" +++ ws2 +++ dquote)
       +++ String c EmptyString), after.
    split; [rewrite !append_assoc; reflexivity|].
    apply matches_cat. eexists _, _. split; [reflexivity|]. split.
    + apply matches_version. exists ws1, ws2.
      split; [reflexivity|]. split; apply all_ascii_space_all_space; assumption.
    + apply matches_other_than. eauto.
Qed.

Lemma search_quoted package content :
  search (quoted package) content = true <-> mentions package content.
Proof.
  rewrite search_finds_a_substring_of_the_language. unfold mentions, quoted.
  split.
  - intros (before & p & after & -> & H). apply matches_lit in H. subst p.
    exists before, after. reflexivity.
  - intros (before & after & ->).
    exists before, (quote package), after.
    split; [reflexivity | apply matches_lit; reflexivity].
Qed.

(** Each rule is found in an ASCII text exactly when the text holds what
    the rule looks for. *)
Lemma rule_flags rule content :
  In rule vulnerable_packages ->
  ascii_text content = true ->
  search (snd rule) content = true <-> flagged (fst rule) content.
Proof.
  unfold vulnerable_packages, flagged.
  intros [<-|[<-|[<-|[<-|[]]]]] A; cbn [fst snd].
  - rewrite (search_version_other_than_4 "lodash" content A).
    split; [auto|]. intros [[_ H]|[[E _]|[[E _]|[E _]]]];
      [exact H | discriminate E ..].
  - rewrite (search_version "moment" content A).
    split; [auto|]. intros [[E _]|[[_ H]|[[E _]|[E _]]]];
      [discriminate E | exact H | discriminate E ..].
  - rewrite (search_quoted "node-uuid" content).
    split; [auto|]. intros [[E _]|[[E _]|[[_ H]|[E _]]]];
      [discriminate E | discriminate E | exact H | discriminate E].
  - rewrite (search_version "request" content A).
    split; [auto 6|]. intros [[E _]|[[E _]|[[E _]|[_ H]]]];
      [discriminate E .. | exact H].
Qed.

Lemma flagged_rule package content :
  flagged package content ->
  exists rule, In rule vulnerable_packages /\ fst rule = package.
Proof.
  unfold vulnerable_packages.
  intros [[-> _]|[[-> _]|[[-> _]|[-> _]]]].
  - eexists (_, _). split; [left; reflexivity | reflexivity].
  - eexists (_, _). split; [right; left; reflexivity | reflexivity].
  - eexists (_, _). split; [right; right; left; reflexivity | reflexivity].
  - eexists (_, _). split; [right; right; right; left; reflexivity | reflexivity].
Qed.

(** A manifest rule yields a finding exactly for what it looks for: the
    scan of the manifests reports [package] in [file] if and only if
    [file] is one of the three manifests, exists, can be read, and its
    text holds the quoted name followed by white space, a colon, white
    space and an opening quote (moment, request), that and a next
    character other than 4 (lodash), or just the quoted name
    (node-uuid).  The manifests are taken to be ASCII text, where the
    white space of the expressions is the ten characters of
    [ascii_space]. *)
Theorem manifest_rules_flag_what_they_look_for (package file : string) :
  (forall content, read_text w file = Some content ->
                   ascii_text content = true) ->
  In (VulnerableDependency package file)
     (dependency_issues (scan_dependencies w init_results))
  <-> In file package_files
      /\ path_exists w file = true
      /\ exists content, read_text w file = Some content
                         /\ flagged package content.
Proof.
  intro A.
  destruct (scan_manifests_fields w package_files init_results)
    as (_ & _ & _ & _ & D).
  cbv zeta in D. fold (scan_dependencies w init_results) in D.
  rewrite D. cbn [dependency_issues init_results app].
  rewrite in_flat_map. unfold manifest_issues, manifest_findings. split.
  - intros (f & Hf & Hin).
    destruct (path_exists w f) eqn:P; [|destruct Hin].
    destruct (read_text w f) as [content|] eqn:R; [|destruct Hin].
    apply in_map_iff in Hin. destruct Hin as (rule & E & Hr).
    inversion E; subst package file. apply filter_In in Hr.
    destruct Hr as [Hr S].
    split; [exact Hf|]. split; [exact P|]. exists content.
    split; [exact R|]. apply (rule_flags rule content Hr (A content R)), S.
  - intros (Hf & P & content & R & F).
    exists file. split; [exact Hf|]. rewrite P, R.
    destruct (flagged_rule package content F) as (rule & Hr & <-).
    apply in_map_iff. exists rule. split; [reflexivity|].
    apply filter_In. split; [exact Hr|].
    apply (rule_flags rule content Hr (A content R)), F.
Qed.

End ManifestRules.

Section ManifestRulesSample.
Import Scanner.

(** The lodash manifest: lodash is reported, since a 2 follows the quote
    that opens the version. *)
Lemma lodash_manifest_is_flagged :
  In (VulnerableDependency "lodash" "package.json")
     (dependency_issues (scan_dependencies world_lodash init_results)).
Proof.
  apply (manifest_rules_flag_what_they_look_for
           world_lodash "lodash" "package.json").
  - intros content H. vm_compute in H. inversion H. reflexivity.
  - split; [left; reflexivity|]. split; [reflexivity|].
    exists lodash_manifest. split; [reflexivity|].
    left. split; [reflexivity|].
    exists ("{" +++ quote "name" +++ ": " +++ quote "shop" +++ ", "
            +++ quote "dependencies" +++ ": {"),
      EmptyString, " "%string, "2"%char, (".4.1" +++ dquote +++ "}}").
    repeat split; try reflexivity. discriminate.
Defined.

End ManifestRulesSample.

Section LineNumbers.
Import Scanner ScannerFacts.

Lemma newlines_before_step text k :
  (newlines_before text k <= newlines_before text (S k)
   <= S (newlines_before text k))%nat.
Proof.
  unfold newlines_before. rewrite seq_S, filter_app, length_app. simpl.
  destruct (match String.get k text with
            | Some c => Ascii.eqb c newline
            | None => false
            end); simpl; lia.
Qed.

Lemma newlines_before_mono text k1 k2 :
  (k1 <= k2)%nat ->
  (newlines_before text k1 <= newlines_before text k2
   <= newlines_before text k1 + (k2 - k1))%nat.
Proof.
  induction 1 as [|k2 Hle IH].
  - lia.
  - pose proof (newlines_before_step text k2). lia.
Qed.

(** Line numbers are 1-based, never decrease along the text, and two
    offsets are at most as many lines apart as characters. *)
Theorem line_numbers_start_at_1_and_grow_with_the_offset
  (content : string) (start1 start2 : nat) :
  (start1 <= start2)%nat ->
  line_of content 0 = 1
  /\ 1 <= line_of content start1 <= line_of content start2
  /\ line_of content start2 - line_of content start1
     <= Z.of_nat (start2 - start1).
Proof.
  intro Hle. rewrite !line_of_newlines.
  pose proof (newlines_before_mono content start1 start2 Hle).
  assert (Z0 : newlines_before content 0 = 0%nat) by reflexivity.
  rewrite Z0. lia.
Qed.

Lemma line_numbers_sample :
  line_of planted 0 = 1
  /\ 1 <= line_of planted 3 <= line_of planted 30
  /\ line_of planted 30 - line_of planted 3 <= Z.of_nat (30 - 3).
Proof.
  apply (line_numbers_start_at_1_and_grow_with_the_offset planted 3 30). lia.
Defined.

End LineNumbers.

(* ================================================================== *)
(** ** More about the aggregator: what each artifact adds              *)
(* ================================================================== *)

Section ArtifactCounts.
Import Fs Reporter ReporterFacts.

(** The summary moved by [dt] counted findings, [dh] of them in the high
    bucket and [dm] in the medium bucket, the other buckets untouched. *)
Definition shifted (rd rd' : report_data) (dt dh dm : Z) : Prop :=
  total_issues (summary rd') = total_issues (summary rd) + dt
  /\ high_count (summary rd') = high_count (summary rd) + dh
  /\ medium_count (summary rd') = medium_count (summary rd) + dm
  /\ critical_count (summary rd') = critical_count (summary rd)
  /\ low_count (summary rd') = low_count (summary rd)
  /\ info_count (summary rd') = info_count (summary rd).

(** The messages of one ESLint file result, and the errors among them. *)
Definition eslint_messages (file_result : json) : list json :=
  match file_result with
  | JObj m =>
      match lookup "messages" m with
      | Some ms => match py_iter ms with Ok l => l | Raise _ => [] end
      | None => []
      end
  | _ => []
  end.

Definition is_error (message : json) : bool :=
  is_int 2 (member message "severity" (JInt 1)).

Definition errors (messages : list json) : Z :=
  Z.of_nat (List.length (filter is_error messages)).

Lemma errors_cons m ms :
  errors (m :: ms) = (if is_error m then 1 else 0) + errors ms.
Proof.
  unfold errors. cbn [filter]. destruct (is_error m); cbn [List.length];
    rewrite ?Nat2Z.inj_succ; lia.
Qed.

Lemma errors_app l1 l2 : errors (l1 ++ l2) = errors l1 + errors l2.
Proof.
  unfold errors. rewrite filter_app, length_app. lia.
Qed.

Lemma count_message_shifted rd m rd' :
  count_message rd m = Ok rd' ->
  shifted rd rd' 1 (if is_error m then 1 else 0) (if is_error m then 0 else 1).
Proof.
  unfold count_message, is_error. intro H.
  destruct m as [| | | | |mm]; try discriminate H.
  cbn [py_get bind member] in *.
  destruct (is_int 2 (match lookup "severity" mm with
                      | Some x => x
                      | None => JInt 1
                      end));
    inversion H; subst; unfold shifted; simpl; repeat split; lia.
Qed.

Lemma messages_shifted ms : forall rd rd',
  foldM count_message ms rd = Ok rd' ->
  shifted rd rd' (Z.of_nat (List.length ms)) (errors ms)
          (Z.of_nat (List.length ms) - errors ms).
Proof.
  induction ms as [|m ms IH]; intros rd rd' H; cbn [foldM] in H.
  - inversion H; subst. unfold shifted, errors. simpl. repeat split; lia.
  - bind_ok H. apply count_message_shifted in E. apply IH in H.
    rewrite errors_cons. cbn [List.length]. rewrite Nat2Z.inj_succ.
    unfold shifted in *. destruct (is_error m); repeat split; lia.
Qed.

Lemma file_result_shifted rd fr rd' :
  count_file_result rd fr = Ok rd' ->
  shifted rd rd' (Z.of_nat (List.length (eslint_messages fr)))
          (errors (eslint_messages fr))
          (Z.of_nat (List.length (eslint_messages fr))
           - errors (eslint_messages fr)).
Proof.
  assert (Zero : forall x, shifted x x (Z.of_nat (@List.length json [])) (errors [])
                                   (Z.of_nat (@List.length json []) - errors [])).
  { intro x. unfold shifted, errors. simpl. repeat split; lia. }
  unfold count_file_result, eslint_messages. intro H.
  destruct fr as [| | | |l|m]; try discriminate H; cbn [py_in bind] in H.
  - destruct (contains "messages" s); [discriminate H|].
    inversion H; subst. apply Zero.
  - destruct (existsb (is_str "messages") l); [discriminate H|].
    inversion H; subst. apply Zero.
  - cbn [py_getitem] in H. destruct (lookup "messages" m) as [ms|].
    + cbn [bind] in H. destruct (py_iter ms) as [msgs|]; [|discriminate H].
      cbn [bind] in H. apply messages_shifted, H.
    + inversion H; subst. apply Zero.
Qed.

Lemma file_results_shifted data : forall rd rd',
  foldM count_file_result data rd = Ok rd' ->
  shifted rd rd' (Z.of_nat (List.length (flat_map eslint_messages data)))
          (errors (flat_map eslint_messages data))
          (Z.of_nat (List.length (flat_map eslint_messages data))
           - errors (flat_map eslint_messages data)).
Proof.
  induction data as [|fr data IH]; intros rd rd' H; cbn [foldM] in H.
  - inversion H; subst. unfold shifted, errors. simpl. repeat split; lia.
  - bind_ok H. apply file_result_shifted in E. apply IH in H.
    cbn [flat_map]. rewrite errors_app, length_app, Nat2Z.inj_add.
    unfold shifted in *. repeat split; lia.
Qed.

(** ESLint results are counted message by message: a message of
    severity 2 goes to the high bucket, every other message (severity 1,
    another value, none) to the medium bucket, and the total advances by
    the number of messages; a file result without messages adds nothing,
    and the critical, low and info buckets are never touched. *)
Theorem eslint_errors_are_high_and_other_messages_medium
  (d : disk) (rd rd' : report_data) (data : list json) :
  load_artifact d eslint_pattern = Some (JArr data) ->
  process_eslint_results d rd = Ok rd' ->
  total_issues (summary rd')
    = total_issues (summary rd)
      + Z.of_nat (List.length (flat_map eslint_messages data))
  /\ high_count (summary rd')
     = high_count (summary rd) + errors (flat_map eslint_messages data)
  /\ medium_count (summary rd')
     = medium_count (summary rd)
       + (Z.of_nat (List.length (flat_map eslint_messages data))
          - errors (flat_map eslint_messages data))
  /\ critical_count (summary rd') = critical_count (summary rd)
  /\ low_count (summary rd') = low_count (summary rd)
  /\ info_count (summary rd') = info_count (summary rd).
Proof.
  unfold eslint_pattern, process_eslint_results. intros -> H.
  apply file_results_shifted in H. exact H.
Qed.

Definition eslint_sample : list json :=
  [JObj [("filePath", JStr "src/a.ts");
         ("messages", JArr [JObj [("ruleId", JStr "security/detect-eval");
                                  ("severity", JInt 2)];
                            JObj [("severity", JInt 1)];
                            JObj [("ruleId", JStr "no-severity")]])];
   JObj [("filePath", JStr "src/b.ts"); ("messages", JArr [])];
   JObj [("filePath", JStr "src/c.ts")]]%string.

Definition disk_eslint : disk :=
  disk_with eslint_pattern "eslint-security.json" (Parsed (JArr eslint_sample)).

Lemma eslint_sample_counts :
  exists rd',
    process_eslint_results disk_eslint (init_report "t") = Ok rd'
    /\ total_issues (summary rd') = 3
    /\ high_count (summary rd') = 1
    /\ medium_count (summary rd') = 2.
Proof.
  eexists. split; [vm_compute; reflexivity|].
  destruct (eslint_errors_are_high_and_other_messages_medium
              disk_eslint (init_report "t") _ eslint_sample eq_refl eq_refl)
    as (T & H & M & _).
  split; [|split]; (etransitivity; [eassumption | reflexivity]).
Defined.

(** The number of entries of an npm-audit document. *)
Definition counted_vulnerabilities (data : json) : Z :=
  match data with
  | JObj m =>
      match lookup "vulnerabilities" m with
      | Some (JObj items) => Z.of_nat (List.length items)
      | _ => 0
      end
  | _ => 0
  end.

Lemma increment_adds_one sev rd :
  total_issues (summary (increment_severity_count sev rd))
    = total_issues (summary rd) + 1
  /\ bucket_sum (summary (increment_severity_count sev rd))
     = bucket_sum (summary rd) + 1.
Proof.
  unfold increment_severity_count, bucket_sum.
  pose proof (severity_key sev) as Hk. cbn [In] in Hk.
  destruct Hk as [<-|[<-|[<-|[<-|[<-|[]]]]]]; simpl; split; lia.
Qed.

Lemma vulnerabilities_counted items : forall rd rd',
  foldM count_vulnerability items rd = Ok rd' ->
  total_issues (summary rd')
    = total_issues (summary rd) + Z.of_nat (List.length items)
  /\ bucket_sum (summary rd')
     = bucket_sum (summary rd) + Z.of_nat (List.length items).
Proof.
  induction items as [|item items IH]; intros rd rd' H; cbn [foldM] in H.
  - inversion H; subst. simpl. lia.
  - bind_ok H. apply IH in H. unfold count_vulnerability in E.
    bind_ok E. bind_ok E. inversion E; subst.
    destruct (increment_adds_one a1 rd) as [T B].
    cbn [List.length]. rewrite Nat2Z.inj_succ. lia.
Qed.

(** Every entry of the npm-audit document is counted once, whatever its
    severity word: when the step completes, the total and the sum of the
    buckets have both advanced by the number of entries (by nothing when
    the artifact is absent or has no [vulnerabilities] member). *)
Theorem npm_audit_counts_every_entry_once (d : disk) (rd rd' : report_data) :
  process_npm_audit_results d rd = Ok rd' ->
  total_issues (summary rd')
    = total_issues (summary rd)
      + match load_artifact d npm_audit_pattern with
        | Some data => counted_vulnerabilities data
        | None => 0
        end
  /\ bucket_sum (summary rd')
     = bucket_sum (summary rd)
       + match load_artifact d npm_audit_pattern with
         | Some data => counted_vulnerabilities data
         | None => 0
         end.
Proof.
  unfold npm_audit_pattern, process_npm_audit_results. intro H.
  destruct (load_artifact d "**/npm-audit.json") as [data|];
    [|inversion H; subst; lia].
  bind_ok H. destruct a.
  - bind_ok H. bind_ok H.
    assert (Hv : a = JObj a0) by (destruct a; inversion E1; reflexivity).
    subst a. apply vulnerabilities_counted in H. cbn [summary set_dependency_scan] in H.
    destruct data as [| | | | |m]; try discriminate E0.
    cbn [py_getitem] in E0. cbn [counted_vulnerabilities].
    destruct (lookup "vulnerabilities" m) as [v|]; [|discriminate E0].
    inversion E0; subst. exact H.
  - inversion H; subst. cbn [summary set_dependency_scan].
    destruct data as [| | | | |m]; cbn [counted_vulnerabilities]; try lia.
    cbn [py_in] in E. destruct (lookup "vulnerabilities" m); [discriminate E | lia].
Qed.

Definition audit_entries : list (string * json) :=
  [("lodash", JObj [("severity", JStr "Critical")]);
   ("minimist", JObj [("severity", JStr "moderate")]);
   ("debug", JObj [])]%string.

Definition disk_npm_audit : disk :=
  disk_with npm_audit_pattern "npm-audit.json"
            (Parsed (JObj [("vulnerabilities", JObj audit_entries)]%string)).

Lemma npm_audit_sample_counts :
  exists rd',
    process_npm_audit_results disk_npm_audit (init_report "t") = Ok rd'
    /\ total_issues (summary rd') = 3
    /\ bucket_sum (summary rd') = 3.
Proof.
  eexists. split; [vm_compute; reflexivity|].
  destruct (npm_audit_counts_every_entry_once
              disk_npm_audit (init_report "t") _ eq_refl) as (T & B).
  split; (etransitivity; [eassumption | reflexivity]).
Defined.

End ArtifactCounts.

(* ================================================================== *)
(** ** More about the gate: what decides the verdict                   *)
(* ================================================================== *)

Section Verdict.
Import Fs Reporter ReporterFacts Gate GateFacts.

(** Two gates that hold the same violations under the same thresholds. *)
Definition same_verdict (g g' : gate) : Prop :=
  violations g = violations g' /\ gate_config g = gate_config g'.

Lemma same_verdict_trans g1 g2 g3 :
  same_verdict g1 g2 -> same_verdict g2 g3 -> same_verdict g1 g3.
Proof.
  unfold same_verdict. intros [A B] [A' B']. split; congruence.
Qed.

Lemma same_verdict_sym g1 g2 : same_verdict g1 g2 -> same_verdict g2 g1.
Proof.
  unfold same_verdict. intros [A B]. split; congruence.
Qed.

Lemma warn_above_same limit count shown wt pt g :
  same_verdict g (warn_above limit count shown wt pt g).
Proof.
  unfold warn_above, same_verdict. destruct (count >? limit); split; reflexivity.
Qed.

Lemma dependency_check_never_blocks report g g' :
  check_dependency_issues report g = Ok g' -> same_verdict g g'.
Proof.
  unfold check_dependency_issues. intro H.
  bind_ok H. destruct (truthy a); cbn [negb] in H.
  - bind_ok H. bind_ok H. bind_ok H. inversion H; subst. apply warn_above_same.
  - inversion H; subst. split; reflexivity.
Qed.

Lemma medium_check_never_blocks report g g' :
  check_medium_issues report g = Ok g' -> same_verdict g g'.
Proof.
  unfold check_medium_issues. intro H.
  bind_ok H. bind_ok H. bind_ok H. inversion H; subst. apply warn_above_same.
Qed.

Lemma required_scan_same report scan_name g1 g2 g1' :
  check_required_scan report g1 scan_name = Ok g1' ->
  same_verdict g1 g2 ->
  exists g2', check_required_scan report g2 scan_name = Ok g2'
              /\ same_verdict g1' g2'.
Proof.
  unfold check_required_scan. intros H [Hv Hc].
  bind_ok H. cbn [bind]. bind_ok H. cbn [bind]. inversion H; subst.
  eexists. split; [reflexivity|].
  unfold same_verdict. destruct a0; simpl; split; congruence.
Qed.

Lemma required_scans_same report names : forall g1 g2 g1',
  foldM (check_required_scan report) names g1 = Ok g1' ->
  same_verdict g1 g2 ->
  exists g2', foldM (check_required_scan report) names g2 = Ok g2'
              /\ same_verdict g1' g2'.
Proof.
  induction names as [|n names IH]; intros g1 g2 g1' H S; cbn [foldM] in *.
  - inversion H; subst. eauto.
  - bind_ok H.
    destruct (required_scan_same report n g1 g2 a E S) as (b & -> & S').
    cbn [bind]. eapply IH; eassumption.
Qed.

(** The three checks that can block, in the order they run. *)
Definition blocking_checks (report : json) (g : gate) : res gate :=
  g <- check_critical_issues report g ;;
  g <- check_compliance_issues report g ;;
  check_required_scans report g.

(** The violations a gate run records are those of the three blocking
    checks alone: the dependency check and the medium check, and the
    warnings they leave, change no violation and so cannot change the
    exit status. *)
Theorem violations_come_from_the_blocking_checks_alone (report : json) (g : gate) :
  run_checks report init_gate = Ok g ->
  exists gb, blocking_checks report init_gate = Ok gb
             /\ violations g = violations gb
             /\ warnings gb = [].
Proof.
  unfold run_checks, blocking_checks. intro H.
  bind_ok H. bind_ok H. bind_ok H. bind_ok H. cbn [bind].
  rewrite E0. cbn [bind].
  apply dependency_check_never_blocks in E1.
  apply medium_check_never_blocks in H.
  unfold check_required_scans in *.
  destruct E1 as [V1 C1]. rewrite <- C1 in E2.
  destruct (required_scans_same report _ a1 a0 a2 E2
              (same_verdict_sym _ _ (conj V1 C1))) as (gb & Hgb & [V2 _]).
  exists gb. split; [exact Hgb|]. split; [destruct H; congruence|].
  (* no blocking check records a warning *)
  assert (W0 : warnings a0 = []).
  { unfold check_critical_issues in E. repeat bind_ok E. inversion E; subst.
    unfold check_compliance_issues in E0. bind_ok E0.
    destruct (truthy a); cbn [negb] in E0.
    - repeat bind_ok E0. inversion E0; subst.
      unfold block_above.
      repeat match goal with
             | |- context [if ?b then _ else _] => destruct b
             end; reflexivity.
    - inversion E0; subst. unfold block_above.
      repeat match goal with
             | |- context [if ?b then _ else _] => destruct b
             end; reflexivity. }
  clear - Hgb W0. revert Hgb. generalize (required_scans (gate_config a0)).
  intro names. revert a0 W0.
  induction names as [|n names IH]; intros g0 W0 Hgb; cbn [foldM] in Hgb.
  - inversion Hgb; subst. exact W0.
  - bind_ok Hgb. eapply IH; [|exact Hgb].
    unfold check_required_scan in E. bind_ok E. bind_ok E. inversion E; subst.
    destruct a1; exact W0.
Qed.

Lemma violations_of_report_with_one_secret :
  exists g gb,
    run_checks report_one_secret init_gate = Ok g
    /\ blocking_checks report_one_secret init_gate = Ok gb
    /\ violations g = violations gb.
Proof.
  eexists.
  destruct (violations_come_from_the_blocking_checks_alone
              report_one_secret _ eq_refl) as (gb & Hb & Hv & _).
  exists gb. split; [reflexivity|]. split; assumption.
Defined.

End Verdict.

Section PassConditions.
Import Fs Reporter ReporterFacts Gate GateFacts.

Lemma block_above_config limit count shown ft pt g :
  gate_config (block_above limit count shown ft pt g) = gate_config g.
Proof. apply block_above_grown. Qed.

Lemma app_one_not_nil {A : Type} (l : list A) (x : A) : l ++ [x] <> [].
Proof. destruct l; discriminate. Qed.

Lemma block_above_clean limit count shown ft pt g :
  violations (block_above limit count shown ft pt g) = []
  <-> violations g = [] /\ count <= limit.
Proof.
  unfold block_above. destruct (Z.gtb_spec count limit) as [G|G]; simpl.
  - split; [intro V; exfalso; exact (app_one_not_nil _ _ V) | lia].
  - split; [intro V; split; [exact V | lia] | tauto].
Qed.

Lemma critical_on_written rd g g' :
  gate_config g = gate_config init_gate ->
  check_critical_issues (report_to_json rd) g = Ok g' ->
  gate_config g' = gate_config init_gate
  /\ (violations g' = []
      <-> violations g = [] /\ critical_count (summary rd) <= 0
          /\ high_count (summary rd) <= 0).
Proof.
  intros Hc H. unfold check_critical_issues, report_to_json, summary_to_json in H.
  cbn [py_get lookup String.eqb Ascii.eqb Bool.eqb andb bind as_int] in H.
  inversion H; subst; clear H.
  rewrite !block_above_config, Hc. split; [reflexivity|].
  rewrite !block_above_clean. cbn. tauto.
Qed.

Lemma compliance_on_written rd oc g g' :
  gate_config g = gate_config init_gate ->
  generate_markdown_summary rd = Ok oc ->
  check_compliance_issues (report_to_json rd) g = Ok g' ->
  gate_config g' = gate_config init_gate
  /\ (violations g' = []
      <-> violations g = []
          /\ exists c, oc = Some c /\ cov_secrets c <= 0 /\ cov_payment c <= 0).
Proof.
  intros Hc Hmd H.
  assert (G : py_get (report_to_json rd) "compliance_scan" (JObj [])
              = Ok (compliance_scan rd)) by reflexivity.
  unfold check_compliance_issues in H. rewrite G in H. cbn [bind] in H.
  unfold generate_markdown_summary in Hmd.
  destruct (truthy (compliance_scan rd)); cbn [negb] in H.
  - bind_ok Hmd. bind_ok Hmd. bind_ok Hmd. bind_ok Hmd. bind_ok Hmd.
    bind_ok Hmd. bind_ok Hmd. inversion Hmd; subst oc; clear Hmd.
    cbn [bind] in H. rewrite ?E1 in H. cbn [bind] in H.
    rewrite ?E3 in H. cbn [bind] in H.
    inversion H; subst; clear H.
    rewrite !block_above_config, Hc. split; [reflexivity|].
    rewrite !block_above_clean. cbn. split.
    + intros ((V & S) & P). split; [exact V|]. eexists. split; [reflexivity|].
      cbn. split; assumption.
    + intros (V & c & Ec & S & P). inversion Ec; subst c. cbn in S, P. tauto.
  - inversion Hmd; subst oc. inversion H; subst. split; [exact Hc|].
    simpl. split.
    + intro V. exfalso. exact (app_one_not_nil _ _ V).
    + intros (_ & c & Ec & _). discriminate Ec.
Qed.

Lemma required_on_written rd g g' :
  gate_config g = gate_config init_gate ->
  check_required_scans (report_to_json rd) g = Ok g' ->
  gate_config g' = gate_config init_gate
  /\ (violations g' = []
      <-> violations g = [] /\ truthy (compliance_scan rd) = true
          /\ dependency_scan rd <> []).
Proof.
  intros Hc H. unfold check_required_scans in H. rewrite Hc in H.
  unfold report_to_json in H.
  cbn [init_gate gate_config required_scans foldM check_required_scan
       py_in py_getitem lookup String.eqb Ascii.eqb Bool.eqb andb bind truthy]
    in H.
  destruct (truthy (compliance_scan rd)), (dependency_scan rd) as [|kv section];
    cbn [negb bind] in H; inversion H; subst; clear H;
    (split; [exact Hc|]); simpl; split;
    try (intro V; exfalso;
         first [ exact (app_one_not_nil _ _ V)
               | apply app_eq_nil in V; destruct V as [V _];
                 exact (app_one_not_nil _ _ V) ]);
    try (intros (V & T & D); first [discriminate T | exfalso; apply D; reflexivity]);
    try (intro V; split; [exact V | split; [reflexivity | discriminate]]);
    try (intros (V & _); exact V).
Qed.

Lemma written_report_facts d t rd :
  generate_reports d t = Ok rd ->
  npm_entry_ok (dependency_scan rd)
  /\ exists oc, generate_markdown_summary rd = Ok oc.
Proof.
  intro H. unfold generate_reports in H. bind_ok H. bind_ok H. bind_ok H.
  inversion H; subst. split; [|eauto].
  destruct (generate_recommendations_shape a rd E0) as (sec & pay & -> & _).
  cbn [dependency_scan set_recommendations].
  eapply process_all_entry, E.
Qed.

(** What the gate does with a report the aggregator wrote, and when the
    checks leave no violation. *)
Lemma written_report_verdict d t rd :
  generate_reports d t = Ok rd ->
  exists g,
    run_checks (report_to_json rd) init_gate = Ok g
    /\ run_security_gate (report_on_disk (report_to_json rd))
       = match violations g with
         | [] => Exited 0 g
         | _ :: _ => Exited 1 g
         end
    /\ (violations g = []
        <-> critical_count (summary rd) <= 0 /\ high_count (summary rd) <= 0
            /\ dependency_scan rd <> []
            /\ exists c, generate_markdown_summary rd = Ok (Some c)
                         /\ cov_secrets c <= 0 /\ cov_payment c <= 0).
Proof.
  intro H. destruct (written_report_facts d t rd H) as (Hnpm & oc & Hmd).
  destruct (run_checks_on_written rd oc Hnpm Hmd) as [g Hg].
  exists g. split; [exact Hg|]. split.
  - rewrite (run_on_parsed (report_on_disk (report_to_json rd))
                           (report_to_json rd) eq_refl).
    cbn [truthy report_to_json negb]. change (JObj _) with (report_to_json rd).
    rewrite Hg. reflexivity.
  - unfold run_checks in Hg. bind_ok Hg. bind_ok Hg. bind_ok Hg. bind_ok Hg.
    destruct (critical_on_written rd init_gate a eq_refl E) as (C1 & I1).
    destruct (compliance_on_written rd oc a a0 C1 Hmd E0) as (C2 & I2).
    destruct (dependency_check_never_blocks _ _ _ E1) as (V3 & C3).
    assert (C3' : gate_config a1 = gate_config init_gate) by congruence.
    destruct (required_on_written rd a1 a2 C3' E2) as (C4 & I4).
    destruct (medium_check_never_blocks _ _ _ Hg) as (V5 & _).
    rewrite <- V5, I4, <- V3, I2, I1. rewrite Hmd. cbn [violations init_gate].
    split.
    + intros (((_ & Hcr & Hh) & c & -> & S & P) & _ & D).
      repeat split; try assumption. exists c. auto.
    + intros (Hcr & Hh & D & c & Ec & S & P). inversion Ec; subst oc.
      split; [split; [auto | eauto] |].
      split; [|exact D].
      unfold generate_markdown_summary in Hmd.
      destruct (truthy (compliance_scan rd)); [reflexivity | discriminate Hmd].
Qed.

(** The gate passes a report the aggregator wrote exactly when the
    critical and high buckets are not above zero, the dependency section
    is not empty, the compliance section is not empty, and it lists no
    secret finding and no payment issue.  Medium, low and info counts,
    the number of npm-audit vulnerabilities and the recommendations play
    no part. *)
Theorem gate_passes_a_written_report_exactly_when
  (d : disk) (t : string) (rd : report_data) :
  generate_reports d t = Ok rd ->
  (exit_code (run_security_gate (report_on_disk (report_to_json rd))) = 0
   <-> critical_count (summary rd) <= 0 /\ high_count (summary rd) <= 0
       /\ dependency_scan rd <> []
       /\ exists c, generate_markdown_summary rd = Ok (Some c)
                    /\ cov_secrets c <= 0 /\ cov_payment c <= 0)
  /\ (exit_code (run_security_gate (report_on_disk (report_to_json rd))) = 0
      \/ exit_code (run_security_gate (report_on_disk (report_to_json rd))) = 1).
Proof.
  intro H. destruct (written_report_verdict d t rd H) as (g & _ & -> & I).
  rewrite <- I. destruct (violations g); cbn [exit_code].
  - split; [tauto | auto].
  - split; [split; [lia | discriminate] | auto].
Qed.

End PassConditions.

Section PassSamples.
Import Fs Reporter ReporterFacts Gate GateFacts.

(** The artifacts of a clean project: a scan without findings and an
    npm-audit document without vulnerabilities. *)
Definition disk_clean : disk :=
  {| file := fun p =>
       if String.eqb p "compliance-scan-results.json"
       then Parsed (Scanner.results_to_json
                      (Scanner.set_timestamp "2024-05-01T12:00:00"
                                             Scanner.init_results))
       else if String.eqb p "npm-audit.json"
       then Parsed (JObj [("auditReportVersion", JInt 2);
                          ("vulnerabilities", JObj [])]%string)
       else Missing;
     glob := fun pat =>
       if String.eqb pat compliance_pattern
       then ["compliance-scan-results.json"%string]
       else if String.eqb pat npm_audit_pattern
       then ["npm-audit.json"%string]
       else [] |}.

Lemma gate_passes_the_clean_project :
  exists rd,
    generate_reports disk_clean "2024-05-01T12:05:00" = Ok rd
    /\ exit_code (run_security_gate (report_on_disk (report_to_json rd))) = 0.
Proof.
  eexists. split; [vm_compute; reflexivity|].
  apply (gate_passes_a_written_report_exactly_when
           disk_clean "2024-05-01T12:05:00" _ eq_refl).
  repeat split; try (vm_compute; discriminate).
  eexists. split; [vm_compute; reflexivity|].
  split; vm_compute; discriminate.
Defined.

(** A scan result aggregated on its own, with no dependency artifact
    beside it: its high tally becomes the critical bucket, its medium
    and low tallies the medium and low buckets, the total stays at zero,
    and the gate then fails whatever the scan found, because the
    dependency section it requires is empty. *)
Theorem scan_result_alone_never_passes_the_gate
  (r : Scanner.results) (t : string) :
  exists rd,
    generate_reports
      (disk_with compliance_pattern "compliance-scan-results.json"
                 (Parsed (Scanner.results_to_json r))) t = Ok rd
    /\ critical_count (summary rd) = Scanner.high_severity_count r
    /\ medium_count (summary rd) = Scanner.medium_severity_count r
    /\ low_count (summary rd) = Scanner.low_severity_count r
    /\ high_count (summary rd) = 0
    /\ info_count (summary rd) = 0
    /\ total_issues (summary rd) = 0
    /\ compliance_scan rd = Scanner.results_to_json r
    /\ dependency_scan rd = []
    /\ exit_code (run_security_gate (report_on_disk (report_to_json rd))) = 1.
Proof.
  assert (Hrun : exists rd,
    generate_reports
      (disk_with compliance_pattern "compliance-scan-results.json"
                 (Parsed (Scanner.results_to_json r))) t = Ok rd
    /\ summary rd
       = {| total_issues := 0;
            critical_count := Scanner.high_severity_count r;
            high_count := 0;
            medium_count := Scanner.medium_severity_count r;
            low_count := Scanner.low_severity_count r;
            info_count := 0 |}
    /\ compliance_scan rd = Scanner.results_to_json r
    /\ dependency_scan rd = []).
  { unfold generate_reports, process_all, Scanner.results_to_json.
    destruct (Scanner.secrets_found r), (Scanner.payment_issues r);
      eexists; (split; [vm_compute; reflexivity|]);
      repeat split. }
  destruct Hrun as (rd & Hgen & Hs & Hc & Hd).
  exists rd. split; [exact Hgen|]. rewrite Hs. cbn [critical_count medium_count
    low_count high_count info_count total_issues].
  repeat split; try assumption.
  destruct (written_report_verdict _ _ _ Hgen) as (g & _ & -> & I).
  destruct (violations g); [|reflexivity].
  exfalso. destruct (proj1 I eq_refl) as (_ & _ & D & _). apply D, Hd.
Qed.











End PassSamples.

Section AuditCi.
Import Fs Reporter ReporterFacts.












End AuditCi.

Section FailClosed.
Import Fs Reporter ReporterFacts Gate GateFacts.

Lemma critical_clean report g g' :
  check_critical_issues report g = Ok g' ->
  violations g' = [] -> violations g = [].
Proof.
  unfold check_critical_issues. intros H V. repeat bind_ok H.
  inversion H; subst.
  apply block_above_clean in V. destruct V as [V _].
  apply block_above_clean in V. tauto.
Qed.

Lemma compliance_clean report g g' :
  check_compliance_issues report g = Ok g' ->
  violations g' = [] ->
  violations g = []
  /\ exists compliance,
       py_get report "compliance_scan" (JObj []) = Ok compliance
       /\ truthy compliance = true.
Proof.
  unfold check_compliance_issues. intros H V. bind_ok H.
  destruct (truthy a) eqn:T; cbn [negb] in H.
  - repeat bind_ok H. inversion H; subst.
    apply block_above_clean in V. destruct V as [V _].
    apply block_above_clean in V. split; [tauto | eauto].
  - inversion H; subst. exfalso. exact (app_one_not_nil _ _ V).
Qed.

Lemma required_scan_clean report g scan_name g' :
  check_required_scan report g scan_name = Ok g' ->
  violations g' = [] ->
  violations g = []
  /\ exists section, py_getitem report scan_name = Ok section
                     /\ truthy section = true.
Proof.
  unfold check_required_scan. intros H V. bind_ok H. bind_ok H.
  inversion H; subst. destruct a0.
  - exfalso. exact (app_one_not_nil _ _ V).
  - split; [exact V|]. destruct a; [|discriminate E0].
    bind_ok E0. inversion E0.
    exists a. split; [reflexivity|]. destruct (truthy a); [reflexivity|discriminate].
Qed.

(** The gate fails closed: it exits 0 only when the report file exists,
    decodes to a non-empty value, and holds a non-empty compliance_scan
    section and a non-empty dependency_scan section.  A missing or
    unreadable report, an empty one, or one without either section
    always ends in a non-zero status. *)
Theorem gate_passes_only_with_both_required_sections (d : disk) :
  exit_code (run_security_gate d) = 0 ->
  exists report compliance dependency,
    file d report_file = Parsed report
    /\ truthy report = true
    /\ py_getitem report "compliance_scan" = Ok compliance
    /\ truthy compliance = true
    /\ py_getitem report "dependency_scan" = Ok dependency
    /\ truthy dependency = true.
Proof.
  unfold run_security_gate, load_security_report.
  destruct (file d report_file) as [|e|report]; cbn [truthy negb exit_code];
    try discriminate.
  destruct (truthy report) eqn:T; cbn [negb exit_code]; [|discriminate].
  destruct (run_checks report init_gate) as [g|e] eqn:R;
    cbn [exit_code]; [|discriminate].
  destruct (violations g) eqn:V; cbn [exit_code]; [|discriminate].
  intros _. unfold run_checks in R.
  bind_ok R. bind_ok R. bind_ok R. bind_ok R.
  destruct (medium_check_never_blocks _ _ _ R) as (V5 & _).
  assert (C : gate_config a1 = gate_config init_gate).
  { apply check_critical_grown in E. apply check_compliance_grown in E0.
    apply check_dependency_grown in E1.
    destruct E as [_ A], E0 as [_ B], E1 as [_ C]. congruence. }
  unfold check_required_scans in E2. rewrite C in E2.
  cbn [init_gate gate_config required_scans foldM] in E2.
  bind_ok E2. bind_ok E2. inversion E2; subst a4.
  assert (V4 : violations a2 = []) by congruence.
  destruct (required_scan_clean _ _ _ _ E4 V4) as (V3 & dependency & Hd & Td).
  destruct (required_scan_clean _ _ _ _ E3 V3) as (_ & compliance & Hc & Tc).
  exists report, compliance, dependency.
  repeat split; try assumption; reflexivity.
Qed.

(** The report of the clean project, on the gate's disk. *)
Definition disk_clean_report : disk :=
  match generate_reports disk_clean "2024-05-01T12:05:00" with
  | Ok rd => report_on_disk (report_to_json rd)
  | Raise _ => empty_disk
  end.

Lemma clean_report_has_both_sections :
  exists report compliance dependency,
    file disk_clean_report report_file = Parsed report
    /\ truthy report = true
    /\ py_getitem report "compliance_scan" = Ok compliance
    /\ truthy compliance = true
    /\ py_getitem report "dependency_scan" = Ok dependency
    /\ truthy dependency = true.
Proof.
  apply (gate_passes_only_with_both_required_sections disk_clean_report).
  vm_compute. reflexivity.
Defined.

End FailClosed.
